(** * PastePack: a shallow embedding of [pastepack.py]

    The discovery, filter and bundle pipeline of [pastepack.py] over an
    explicit file-system tree.

    Conventions of the embedding.
    - A Python [bytes] value is a [list byte].
    - A Python [str] is a [string] holding its UTF-8 encoding.  Comparison of
      well-formed UTF-8 byte strings coincides with comparison of the code
      point sequences, and the characters the program inspects (carriage
      return, line feed, dot, slash, backslash) are ASCII and never occur
      inside a multi-byte sequence.
    - A resolved [pathlib.Path] is the list of its segments below the root
      ([p.parts[1:]]); a relative path is the list of its segments.
    - A Python [int] is a [Z].
    - A raised exception is the [Raise] branch of [result]. *)

From Stdlib Require Import ZArith Lia Ascii DecimalString.
From Stdlib Require Import Strings.Byte.
From Stdlib Require Import Permutation.
From stdpp Require Import base option list strings gmap sorting.

Local Open Scope Z_scope.

(** ** Results of fallible operations *)

Inductive result (A : Type) : Type :=
| Ok (a : A)
| Raise (e : string).
Arguments Ok {A} a.
Arguments Raise {A} e.

(** ** Python string primitives used by the program *)

Module PyStr.

Definition CR : ascii := "013"%char.
Definition LF : ascii := "010"%char.

Definition cr : string := String CR EmptyString.
Definition lf : string := String LF EmptyString.
Definition crlf : string := String CR (String LF EmptyString).

(** [s.startswith(p)] *)
Definition startswith (s p : string) : bool := String.prefix p s.

(** [s.endswith("\n")], the only use of [endswith] in the program *)
Fixpoint endswith_lf (s : string) : bool :=
  match s with
  | EmptyString => false
  | String c EmptyString => Ascii.eqb c LF
  | String _ rest => endswith_lf rest
  end.

(** [c in s] for a character [c] *)
Fixpoint contains_char (c : ascii) (s : string) : bool :=
  match s with
  | EmptyString => false
  | String d rest => Ascii.eqb c d || contains_char c rest
  end.

(** [s.replace(old, new)] for a non-empty [old]: occurrences are found
    from the left and do not overlap.  [skip] counts the characters of
    the occurrence just replaced that are still to be dropped. *)
Fixpoint replace_from (old new : string) (skip : nat) (s : string) : string :=
  match s with
  | EmptyString => EmptyString
  | String c rest =>
      match skip with
      | S k => replace_from old new k rest
      | O =>
          if String.prefix old s
          then new +:+ replace_from old new (Nat.pred (String.length old)) rest
          else String c (replace_from old new O rest)
      end
  end.

(** With an empty [old], Python puts [new] before every character and at
    the end. *)
Fixpoint intersperse (new s : string) : string :=
  match s with
  | EmptyString => new
  | String c rest => new +:+ String c (intersperse new rest)
  end.

Definition replace (s old new : string) : string :=
  match old with
  | EmptyString => intersperse new s
  | String _ _ => replace_from old new O s
  end.

(** [sep.join(parts)] *)
Fixpoint join (sep : string) (parts : list string) : string :=
  match parts with
  | [] => EmptyString
  | [p] => p
  | p :: rest => p +:+ sep +:+ join sep rest
  end.

(** [str(n)] for an [int] *)
Definition of_int (n : Z) : string := NilZero.string_of_int (Z.to_int n).

(** [len(b)] for [bytes], as a Python [int] *)
Definition len (b : list byte) : Z := Z.of_nat (length b).

(** Position of the last occurrence of [c] in [s], [s.rfind(c)];
    [None] stands for [-1]. *)
Fixpoint rfind (c : ascii) (s : string) : option nat :=
  match s with
  | EmptyString => None
  | String d rest =>
      match rfind c rest with
      | Some i => Some (S i)
      | None => if Ascii.eqb c d then Some O else None
      end
  end.

(** [s[i:]] *)
Fixpoint drop (i : nat) (s : string) : string :=
  match i, s with
  | O, _ => s
  | S k, String _ rest => drop k rest
  | S _, EmptyString => EmptyString
  end.

End PyStr.

(** [normalise_newlines] *)
Definition normalise_newlines (s : string) : string :=
  PyStr.replace (PyStr.replace s PyStr.crlf PyStr.lf) PyStr.cr PyStr.lf.

(** The newline normalisation in the words of the specification: every
    carriage return followed by a line feed, and every remaining bare
    carriage return, becomes one line feed. *)
Fixpoint newlines_spec (s : string) : string :=
  match s with
  | EmptyString => EmptyString
  | String c rest =>
      if Ascii.eqb c PyStr.CR then
        match rest with
        | String d rest' =>
            if Ascii.eqb d PyStr.LF
            then String PyStr.LF (newlines_spec rest')
            else String PyStr.LF (newlines_spec rest)
        | EmptyString => String PyStr.LF EmptyString
        end
      else String c (newlines_spec rest)
  end.


(** ** [bytes.decode("utf-8", errors="replace")]

    The decoder of the Python runtime, producing the UTF-8 encoding of the
    decoded text: a well-formed sequence is copied, and every maximal
    ill-formed part is replaced by U+FFFD.  It is total: with
    [errors="replace"] no input raises. *)

Module Utf8.

Definition code (b : byte) : N := Byte.to_N b.

Definition between (lo hi : N) (b : byte) : bool :=
  ((lo <=? code b) && (code b <=? hi))%N.

Definition emit (bs : list byte) (rest : string) : string :=
  foldr (fun b acc => String (ascii_of_byte b) acc) rest bs.

(** U+FFFD REPLACEMENT CHARACTER, encoded [EF BF BD] *)
Definition replacement (rest : string) : string :=
  emit [xef; xbf; xbd] rest.

(** Range allowed for the second byte after lead byte [b0]. *)
Definition second_ok (b0 b1 : byte) : bool :=
  if between 0xE0 0xE0 b0 then between 0xA0 0xBF b1
  else if between 0xED 0xED b0 then between 0x80 0x9F b1
  else if between 0xF0 0xF0 b0 then between 0x90 0xBF b1
  else if between 0xF4 0xF4 b0 then between 0x80 0x8F b1
  else between 0x80 0xBF b1.

Definition continuation (b : byte) : bool := between 0x80 0xBF b.

Fixpoint decode_replace (bs : list byte) : string :=
  match bs with
  | [] => EmptyString
  | b0 :: t1 =>
      if between 0x00 0x7F b0 then emit [b0] (decode_replace t1)
      else if between 0xC2 0xDF b0 then
        match t1 with
        | [] => replacement EmptyString
        | b1 :: t2 =>
            if continuation b1 then emit [b0; b1] (decode_replace t2)
            else replacement (decode_replace t1)
        end
      else if between 0xE0 0xEF b0 then
        match t1 with
        | [] => replacement EmptyString
        | b1 :: t2 =>
            if second_ok b0 b1 then
              match t2 with
              | [] => replacement EmptyString
              | b2 :: t3 =>
                  if continuation b2
                  then emit [b0; b1; b2] (decode_replace t3)
                  else replacement (decode_replace t2)
              end
            else replacement (decode_replace t1)
        end
      else if between 0xF0 0xF4 b0 then
        match t1 with
        | [] => replacement EmptyString
        | b1 :: t2 =>
            if second_ok b0 b1 then
              match t2 with
              | [] => replacement EmptyString
              | b2 :: t3 =>
                  if continuation b2 then
                    match t3 with
                    | [] => replacement EmptyString
                    | b3 :: t4 =>
                        if continuation b3
                        then emit [b0; b1; b2; b3] (decode_replace t4)
                        else replacement (decode_replace t3)
                    end
                  else replacement (decode_replace t2)
              end
            else replacement (decode_replace t1)
        end
      else replacement (decode_replace t1)
  end.


End Utf8.

(** ** SHA-256 (FIPS 180-4)

    An executable instance of the digest function, used to evaluate the
    pipeline on concrete files. *)

Module Sha256.

Definition w32 (x : Z) : Z := x mod 2 ^ 32.
Definition add (x y : Z) : Z := w32 (x + y).
Definition rotr (n x : Z) : Z := w32 (Z.lor (Z.shiftr x n) (Z.shiftl x (32 - n))).
Definition shr (n x : Z) : Z := Z.shiftr x n.
Definition xor3 (x y z : Z) : Z := Z.lxor (Z.lxor x y) z.

Definition Ch (x y z : Z) : Z := Z.lxor (Z.land x y) (Z.land (w32 (Z.lnot x)) z).
Definition Maj (x y z : Z) : Z := xor3 (Z.land x y) (Z.land x z) (Z.land y z).
Definition Sigma0 (x : Z) : Z := xor3 (rotr 2 x) (rotr 13 x) (rotr 22 x).
Definition Sigma1 (x : Z) : Z := xor3 (rotr 6 x) (rotr 11 x) (rotr 25 x).
Definition sigma0 (x : Z) : Z := xor3 (rotr 7 x) (rotr 18 x) (shr 3 x).
Definition sigma1 (x : Z) : Z := xor3 (rotr 17 x) (rotr 19 x) (shr 10 x).

(** The first primes, by trial division. *)
Definition is_prime (n : Z) : bool :=
  forallb (fun k => negb (n mod k =? 0)) (seqZ 2 (n - 2)).

Definition primes (count : nat) : list Z :=
  take count (List.filter is_prime (seqZ 2 310)).

(** The integer cube root, one bit at a time from bit [bits - 1] down. *)
Fixpoint cube_root_bits (bits : nat) (n r : Z) : Z :=
  match bits with
  | O => r
  | S k =>
      let r' := r + 2 ^ Z.of_nat k in
      cube_root_bits k n (if r' * r' * r' <=? n then r' else r)
  end.

(** The round constants: the first 32 bits of the fractional parts of the
    cube roots of the first 64 primes. *)
Definition K : list Z :=
  Eval vm_compute in
    (fun q => w32 (cube_root_bits 36 (q * 2 ^ 96) 0)) <$> primes 64.

(** The initial hash value: the first 32 bits of the fractional parts of
    the square roots of the first 8 primes. *)
Definition H0 : list Z :=
  Eval vm_compute in (fun q => w32 (Z.sqrt (q * 2 ^ 64))) <$> primes 8.

(** Padding: one bit, zeros up to 56 modulo 64, the bit length on 8 bytes. *)
Fixpoint be_bytes (n : nat) (x : Z) : list Z :=
  match n with
  | O => []
  | S k => (Z.shiftr x (8 * Z.of_nat k)) mod 256 :: be_bytes k x
  end.

Definition pad (msg : list Z) : list Z :=
  let l := Z.of_nat (length msg) in
  let zeros := Z.to_nat ((55 - l) mod 64) in
  msg ++ [0x80] ++ replicate zeros 0 ++ be_bytes 8 (8 * l).

Fixpoint words (bs : list Z) : list Z :=
  match bs with
  | a :: b :: c :: d :: rest =>
      (Z.shiftl a 24 + Z.shiftl b 16 + Z.shiftl c 8 + d) :: words rest
  | _ => []
  end.

(** The message schedule, most recent word first. *)
Fixpoint schedule (n : nat) (recent : list Z) : list Z :=
  match n with
  | O => recent
  | S k =>
      let w := add (add (sigma1 (nth 1 recent 0)) (nth 6 recent 0))
                   (add (sigma0 (nth 14 recent 0)) (nth 15 recent 0)) in
      schedule k (w :: recent)
  end.

Definition round (st : list Z) (kw : Z * Z) : list Z :=
  match st with
  | [a; b; c; d; e; f; g; h] =>
      let t1 := add (add (add h (Sigma1 e)) (add (Ch e f g) kw.1)) kw.2 in
      let t2 := add (Sigma0 a) (Maj a b c) in
      [add t1 t2; a; b; c; add d t1; e; f; g]
  | _ => st
  end.

Definition compress (h : list Z) (block : list Z) : list Z :=
  let w := rev (schedule 48 (rev block)) in
  let st := foldl round h (zip K w) in
  zip_with add h st.

Fixpoint blocks (fuel : nat) (ws : list Z) (h : list Z) : list Z :=
  match fuel with
  | O => h
  | S k =>
      match ws with
      | [] => h
      | _ => blocks k (drop 16 ws) (compress h (take 16 ws))
      end
  end.

Definition hex_digit (d : Z) : ascii :=
  if d <? 10 then ascii_of_N (Z.to_N (48 + d)) else ascii_of_N (Z.to_N (87 + d)).

Fixpoint hex (n : nat) (x : Z) (rest : string) : string :=
  match n with
  | O => rest
  | S k => String (hex_digit ((Z.shiftr x (4 * Z.of_nat k)) mod 16)) (hex k x rest)
  end.

Definition hexdigest (msg : list byte) : string :=
  let ws := words (pad ((fun b => Z.of_N (Byte.to_N b)) <$> msg)) in
  foldr (hex 8) EmptyString (blocks (length ws) ws H0).

End Sha256.

(** ** Paths *)

(** A [pathlib.Path], as the list of its segments. *)
Definition Path : Type := list string.

Module PyPath.

(** [str(p)] for a resolved (absolute) path *)
Definition str_abs (p : Path) : string := "/" +:+ PyStr.join "/" p.

(** [str(p)] for a relative path *)
Definition str_rel (p : Path) : string :=
  match p with
  | [] => "."
  | _ => PyStr.join "/" p
  end.

(** [p.name] *)
Definition name (p : Path) : string := List.last p EmptyString.

(** [p.parent] *)
Definition parent (p : Path) : Path := List.removelast p.

(** [p.suffix]: the part of the name from its last dot, unless that dot
    is the first or the last character of the name. *)
Definition suffix (p : Path) : string :=
  let n := name p in
  match PyStr.rfind "."%char n with
  | Some i =>
      if (Nat.ltb 0 i && Nat.ltb i (Nat.pred (String.length n)))%bool
      then PyStr.drop i n
      else EmptyString
  | None => EmptyString
  end.

End PyPath.

(** ** Data types *)

Record FileEntry : Type := mkFileEntry {
  fe_root : Path;
  fe_path : Path;
  fe_rel : Path;
  fe_size : Z;
  fe_mtime : Z
}.

(** ** The file system

    A tree of directories and files.  A directory lists its entries in the
    order the host enumerates them.  A file carries what opening and
    reading it gives (its bytes, or the exception raised) and its [stat]
    fields; [st_mtime] is kept opaque and only passed on to the rendering
    of the header. *)

Record stat_result : Type := mkStat { st_size : Z; st_mtime : Z }.

#[local] Set Warnings "-register-all".
Inductive node : Type :=
| File (content : result (list byte)) (st : stat_result)
| Dir (entries : list (string * node)).

(** Induction on the tree, with the hypothesis for every entry of a
    directory. *)
Section NodeInduction.
Variable P : node -> Prop.
Hypothesis HFile : forall content st, P (File content st).
Hypothesis HDir : forall es, Forall (fun e : string * node => P e.2) es -> P (Dir es).

Fixpoint node_induction (n : node) : P n :=
  match n with
  | File content st => HFile content st
  | Dir es =>
      HDir es
        ((fix entries_induction (l : list (string * node))
            : Forall (fun e : string * node => P e.2) l :=
            match l with
            | [] => @List.Forall_nil _ (fun e : string * node => P e.2)
            | (name, c) :: l' =>
                @List.Forall_cons _ (fun e : string * node => P e.2) (name, c) l'
                                  (node_induction c) (entries_induction l')
            end) es)
  end.
End NodeInduction.

Fixpoint lookup_entry (name : string) (es : list (string * node)) : option node :=
  match es with
  | [] => None
  | (n, c) :: rest => if String.eqb n name then Some c else lookup_entry name rest
  end.

Fixpoint fs_lookup (fs : node) (p : Path) : option node :=
  match p with
  | [] => Some fs
  | s :: p' =>
      match fs with
      | Dir es =>
          match lookup_entry s es with
          | Some c => fs_lookup c p'
          | None => None
          end
      | File _ _ => None
      end
  end.

(** [reaches n names c]: the names lead from the directory [n] to [c],
    each found in the listing of the directory before it. *)
Fixpoint reaches (n : node) (names : Path) (c : node) : Prop :=
  match names with
  | [] => n = c
  | s :: names' =>
      match n with
      | Dir es => exists c', (s, c') ∈ es /\ reaches c' names' c
      | File _ _ => False
      end
  end.

(** The error text of a path that does not resolve: a name is missing from
    a directory, or the path goes through a regular file. *)
Fixpoint lookup_errno (fs : node) (p : Path) : string :=
  match p with
  | [] => EmptyString
  | s :: p' =>
      match fs with
      | Dir es =>
          match lookup_entry s es with
          | Some c => lookup_errno c p'
          | None => "[Errno 2] No such file or directory"
          end
      | File _ _ => "[Errno 20] Not a directory"
      end
  end.

(** [open(p, "rb")] followed by reading the whole file; also
    [p.read_bytes()].  The text of an [OSError] ends with the path between
    quotes (as [repr] writes a path without quotes or escapes). *)
Definition read_bytes (fs : node) (p : Path) : result (list byte) :=
  match fs_lookup fs p with
  | Some (File content _) => content
  | Some (Dir _) => Raise ("[Errno 21] Is a directory: '" +:+ PyPath.str_abs p +:+ "'")
  | None => Raise (lookup_errno fs p +:+ ": '" +:+ PyPath.str_abs p +:+ "'")
  end.

(** [f.read(n)] on a freshly opened file, for [n >= -1]: the first [n]
    bytes, or the whole file for [-1].  For [n < -1] the call raises
    [ValueError] and returns nothing: [is_text_file_try] raises before it
    reads. *)
Definition file_read (content : list byte) (n : Z) : list byte :=
  if n <? 0 then content else take (Z.to_nat n) content.

(** [b"\x00" in chunk] *)
Definition has_nul (chunk : list byte) : bool :=
  existsb (Byte.eqb x00) chunk.

(** The body of [is_text_file] inside its [try]: [open(p, "rb")], then
    [f.read(sample_size)].  A file of the tree is read whole or not at all:
    the sample is the beginning of what [read_bytes] gives. *)
Definition is_text_file_try (fs : node) (p : Path) (sample_size : Z) : result bool :=
  match read_bytes fs p with
  | Raise e => Raise e
  | Ok content =>
      if sample_size <? -1 then Raise "read length must be non-negative or -1"
      else
        let chunk := file_read content sample_size in
        if has_nul chunk then Ok false else Ok true
  end.

(** [is_text_file]: [except Exception: return False] *)
Definition is_text_file (fs : node) (p : Path) (sample_size : Z) : bool :=
  match is_text_file_try fs p sample_size with
  | Ok b => b
  | Raise _ => false
  end.

Definition default_sample_size : Z := 1024.

(** [sha256_bytes], over the digest function of the runtime *)
Definition sha256_bytes (sha256_hexdigest : list byte -> string) (b : list byte) : string :=
  sha256_hexdigest b.

(** ** Configuration tables *)

Definition LANG_BY_EXT : gmap string string :=
  list_to_map [
    (".py", "python"); (".pyi", "python"); (".toml", "toml"); (".ini", "ini");
    (".json", "json"); (".yml", "yaml"); (".yaml", "yaml");
    (".js", "javascript"); (".mjs", "javascript"); (".cjs", "javascript");
    (".ts", "ts"); (".tsx", "tsx"); (".jsx", "jsx");
    (".html", "html"); (".htm", "html"); (".css", "css"); (".scss", "scss");
    (".less", "less");
    (".md", "md"); (".txt", "text"); (".csv", "csv"); (".xml", "xml");
    (".java", "java"); (".kt", "kotlin"); (".kts", "kotlin"); (".scala", "scala");
    (".go", "go"); (".rs", "rust"); (".c", "c"); (".h", "c");
    (".cpp", "cpp"); (".hpp", "cpp"); (".sql", "sql");
    (".sh", "bash"); (".bash", "bash"); (".zsh", "zsh"); (".ps1", "powershell");
    (".bat", "bat");
    (".env", "bash")
  ].

Definition DEFAULT_EXCLUDES : list string := [
  ".git"; "node_modules"; "dist"; "build"; "out"; "coverage"; ".venv"; "venv";
  "__pycache__"; ".DS_Store"; "*.pyc"; "*.pyo"; "*.class";
  "pastepack.py"
].

Definition DEFAULT_EXTS : list string := [
  ".html"; ".htm"; ".css"; ".scss"; ".sass"; ".less";
  ".js"; ".jsx"; ".ts"; ".tsx"; ".json"; ".mjs"; ".cjs";
  ".py"; ".pyi"; ".toml"; ".ini"; ".cfg"; ".yml"; ".yaml";
  ".java"; ".kt"; ".kts"; ".scala"; ".go"; ".rs"; ".c"; ".h"; ".cpp"; ".hpp";
  ".sh"; ".bash"; ".zsh"; ".ps1"; ".bat";
  ".md"; ".txt"; ".csv"; ".xml"; ".env"; ".sql"
].

(** ** [sorted(xs, key=...)]

    Python's sort is stable; so is this insertion sort, and a stable sort
    has only one result. *)

Section Sorted.
Context {A : Type} (key : A -> string).

Fixpoint insert_by (x : A) (l : list A) : list A :=
  match l with
  | [] => [x]
  | y :: l' =>
      if String.leb (key x) (key y) then x :: l else y :: insert_by x l'
  end.

Definition sorted (l : list A) : list A := foldr insert_by [] l.

(** The order of the sort: by key. *)
Definition key_le (a b : A) : Prop := String.leb (key a) (key b) = true.
End Sorted.

(** ** The pipeline

    Functions of the Python runtime that the program calls and that are not
    part of it are parameters: the pipeline is verified for every
    implementation of them. *)

Section Pipeline.

(** [str.lower] and [str.strip] *)
Variable lower : string -> string.
Variable strip : string -> string.
(** [fnmatch.fnmatch(name, pat)] and [os.path.abspath] *)
Variable fnmatch : string -> string -> bool.
Variable abspath : string -> string.
(** [hashlib.sha256(b).hexdigest()] *)
Variable sha256_hexdigest : list byte -> string.
(** [datetime.fromtimestamp(t, tz=timezone.utc).isoformat()] *)
Variable isoformat_utc : Z -> string.

(** [infer_lang] *)
Definition infer_lang (ext : string) : string :=
  default EmptyString (LANG_BY_EXT !! lower ext).

(** *** Matcher *)

(** [matches_any] *)
Fixpoint matches_any (name : string) (patterns : list string) : bool :=
  match patterns with
  | [] => false
  | pat :: rest =>
      if PyStr.startswith pat "/" then
        if PyStr.startswith (abspath name) (abspath pat) then true
        else matches_any name rest
      else
        if fnmatch name pat then true
        else matches_any name rest
  end.

(** One pattern evaluated against one name, as the body of the loop of
    [matches_any] does. *)
Definition pattern_matches (pat name : string) : bool :=
  if PyStr.startswith pat "/"
  then PyStr.startswith (abspath name) (abspath pat)
  else fnmatch name pat.

(** *** Traverser *)

Variable fs : node.
Variable ex_patterns : list string.
Variable include_hidden : bool.

Definition dotted (s : string) : bool := PyStr.startswith s ".".

(** The body of [for f in filenames] for the file [f] of directory
    [top/sub]. *)
Definition walk_file (top sub : Path) (f : string) (st : stat_result) : list FileEntry :=
  let full := top ++ sub ++ [f] in
  if negb include_hidden && dotted f then []
  else if matches_any f ex_patterns || matches_any (PyPath.str_abs full) ex_patterns then []
  else if is_text_file fs full default_sample_size then
    [ {| fe_root := top; fe_path := full; fe_rel := sub ++ [f];
         fe_size := st_size st; fe_mtime := st_mtime st |} ]
  else [].

(** Whether the subdirectory [d] of [top/sub] is removed from [dirnames]. *)
Definition pruned (top sub : Path) (d : string) : bool :=
  let full := PyPath.str_abs (top ++ sub ++ [d]) in
  (negb include_hidden && dotted d)
  || matches_any d ex_patterns || matches_any full ex_patterns.

(** [for dirpath, dirnames, filenames in os.walk(p)], top down: the files
    of a directory first, then the subdirectories that were not pruned,
    in the order of the listing. *)
Fixpoint walk_dir (top sub : Path) (n : node) {struct n} : list FileEntry :=
  match n with
  | File _ _ => []
  | Dir es =>
      flat_map (fun e : string * node =>
                  match e.2 with
                  | File _ st => walk_file top sub e.1 st
                  | Dir _ => []
                  end) es
      ++
      flat_map (fun e : string * node =>
                  match e.2 with
                  | File _ _ => []
                  | Dir _ =>
                      if pruned top sub e.1 then []
                      else walk_dir top (sub ++ [e.1]) e.2
                  end) es
  end.

(** The body of [for p in paths], on a resolved path [p]. *)
Definition walk_input (p : Path) : list FileEntry :=
  match fs_lookup fs p with
  | Some (File _ st) =>
      if negb include_hidden && existsb dotted p then []
      else if matches_any (PyPath.name p) ex_patterns
              || matches_any (PyPath.str_abs p) ex_patterns then []
      else if is_text_file fs p default_sample_size then
        [ {| fe_root := PyPath.parent p; fe_path := p; fe_rel := [PyPath.name p];
             fe_size := st_size st; fe_mtime := st_mtime st |} ]
      else []
  | Some (Dir es) => walk_dir p [] (Dir es)
  | None => []
  end.

(** [walk_inputs], on resolved paths *)
Definition walk_inputs (paths : list Path) : list FileEntry :=
  flat_map walk_input paths.

(** *** Extension filter *)

(** [filter_by_ext] *)
Definition filter_by_ext (entries : list FileEntry) (allowed_exts : option (list string))
  : list FileEntry :=
  match allowed_exts with
  | None | Some [] => entries
  | Some exts =>
      if decide (exts = ["*"]) then entries
      else
        let allowed : gset string := list_to_set ((fun e => strip (lower e)) <$> exts) in
        List.filter (fun fe => bool_decide (lower (PyPath.suffix (fe_path fe)) ∈ allowed))
                    entries
  end.

(** *** Bundler *)

Definition dquote : string := String "034"%char EmptyString.

Fixpoint repeat_str (s : string) (n : nat) : string :=
  match n with
  | O => EmptyString
  | S k => s +:+ repeat_str s k
  end.

Definition HEADER_LINE : string := repeat_str "=" 78.

(** [INTRO_TEMPLATE.format(...)] *)
Definition INTRO_TEMPLATE (generated_iso roots : string) (file_count total_bytes : Z) : string :=
  "PASTE‑PACK BUNDLE — multi‑file paste for ChatGPT" +:+ PyStr.lf
  +:+ "Generated: " +:+ generated_iso +:+ PyStr.lf
  +:+ "Paths: " +:+ roots +:+ PyStr.lf
  +:+ "Files included: " +:+ PyStr.of_int file_count
  +:+ "; Total bytes: " +:+ PyStr.of_int total_bytes +:+ PyStr.lf
  +:+ "Notes: Each file starts with a <<<FILE ...>>> header and ends with <<<END FILE>>>."
  +:+ PyStr.lf
  +:+ "Please treat each file separately when reviewing." +:+ PyStr.lf.

Definition quoted_field (k v : string) : string := k +:+ "=" +:+ dquote +:+ v +:+ dquote.
Definition bare_field (k : string) (v : Z) : string := k +:+ "=" +:+ PyStr.of_int v.

(** [build_header] *)
Definition build_header (fe : FileEntry) (lang sha256 : string) (bytes_len : Z) : string :=
  let ts := isoformat_utc (fe_mtime fe) in
  let parts := [
    quoted_field "path" (PyStr.replace (PyPath.str_rel (fe_rel fe)) "\" "/");
    quoted_field "abspath" (PyPath.str_abs (fe_path fe));
    bare_field "size" bytes_len;
    quoted_field "mtime" ts;
    quoted_field "sha256" sha256;
    quoted_field "lang" lang
  ] in
  "<<<FILE " +:+ PyStr.join " " parts +:+ ">>>" +:+ PyStr.lf.

(** The local variables of [bundle] that its loop updates. *)
Record bstate : Type := mkBstate {
  out : string;
  warnings : list string;
  total : Z;
  included : Z
}.

Definition bundle_init : bstate :=
  {| out := EmptyString; warnings := []; total := 0; included := 0 |}.

Definition warn (s : bstate) (w : string) : bstate :=
  {| out := out s; warnings := warnings s ++ [w]; total := total s; included := included s |}.

Definition warn_read_error (fe : FileEntry) (e : string) : string :=
  "Skipping " +:+ PyPath.str_abs (fe_path fe) +:+ " — read error: " +:+ e.

Definition warn_too_big (fe : FileEntry) (n max_file_bytes : Z) : string :=
  "Skipping " +:+ PyPath.str_rel (fe_rel fe) +:+ " — " +:+ PyStr.of_int n
  +:+ " bytes exceeds --max-file-bytes=" +:+ PyStr.of_int max_file_bytes.

Definition warn_stopped (fe : FileEntry) (max_total_bytes : Z) : string :=
  "Stopped before " +:+ PyPath.str_rel (fe_rel fe)
  +:+ " — adding it would exceed --max-total-bytes=" +:+ PyStr.of_int max_total_bytes.

(** Whether a warning is the one of the budget stop. *)
Definition is_stop_warning (w : string) : bool := PyStr.startswith w "Stopped before ".

(** The text shown between the fences: the normalised text and, when it
    does not end with a line feed, one more line feed. *)
Definition body_text (raw : list byte) : string :=
  let text := normalise_newlines (Utf8.decode_replace raw) in
  if PyStr.endswith_lf text then text else text +:+ PyStr.lf.

(** Everything the loop writes to [out] for one included file. *)
Definition render_block (fe : FileEntry) (raw : list byte) : string :=
  let lang := infer_lang (PyPath.suffix (fe_path fe)) in
  let digest := sha256_bytes sha256_hexdigest raw in
  let header := build_header fe lang digest (PyStr.len raw) in
  let fence_lang := if decide (lang = EmptyString) then EmptyString else lang in
  HEADER_LINE +:+ PyStr.lf
  +:+ header
  +:+ "```" +:+ fence_lang +:+ PyStr.lf
  +:+ body_text raw
  +:+ "```" +:+ PyStr.lf
  +:+ "<<<END FILE>>>" +:+ PyStr.lf
  +:+ HEADER_LINE +:+ PyStr.lf +:+ PyStr.lf.

Definition include_file (s : bstate) (fe : FileEntry) (raw : list byte) : bstate :=
  {| out := out s +:+ render_block fe raw;
     warnings := warnings s;
     total := total s + PyStr.len raw;
     included := included s + 1 |}.

Variable max_file_bytes : Z.
Variable max_total_bytes : Z.

(** [for fe in entries: ...], with [continue] as the recursive call on
    the rest and [break] as the return of the state. *)
Fixpoint bundle_loop (entries : list FileEntry) (s : bstate) : bstate :=
  match entries with
  | [] => s
  | fe :: rest =>
      match read_bytes fs (fe_path fe) with
      | Raise e => bundle_loop rest (warn s (warn_read_error fe e))
      | Ok raw =>
          if (0 <? max_file_bytes) && (max_file_bytes <? PyStr.len raw) then
            bundle_loop rest (warn s (warn_too_big fe (PyStr.len raw) max_file_bytes))
          else if (0 <? max_total_bytes) && (max_total_bytes <? total s + PyStr.len raw) then
            warn s (warn_stopped fe max_total_bytes)
          else
            bundle_loop rest (include_file s fe raw)
      end
  end.

(** The key of the sort: [str(e.rel).lower()] *)
Definition sort_key (e : FileEntry) : string := lower (PyPath.str_rel (fe_rel e)).

(** [", ".join(sorted({str(e.root) for e in entries}))] *)
Definition roots_line (entries : list FileEntry) : string :=
  let roots : gset string := list_to_set ((fun e => PyPath.str_abs (fe_root e)) <$> entries) in
  PyStr.join ", " (sorted id (elements roots)).

(** The state of [bundle] when its loop ends. *)
Definition bundle_state (entries : list FileEntry) : bstate :=
  bundle_loop (sorted sort_key entries) bundle_init.

(** [bundle]; [generated_iso] is the clock reading
    [datetime.now(timezone.utc).isoformat()]. *)
Definition bundle (generated_iso : string) (entries : list FileEntry)
  : string * list string :=
  let s := bundle_state entries in
  let intro :=
    INTRO_TEMPLATE generated_iso (roots_line (sorted sort_key entries))
                   (included s) (total s) in
  (intro +:+ PyStr.lf +:+ out s, warnings s).

(** *** Reading the loop

    What the loop does with one entry when the running total is [t], the
    files it has included, and whether it left by [break]. *)

Inductive verdict : Type :=
| ReadFailed (e : string)
| TooBig (raw : list byte)
| OverBudget (raw : list byte)
| Included (raw : list byte).

Definition classify (t : Z) (fe : FileEntry) : verdict :=
  match read_bytes fs (fe_path fe) with
  | Raise e => ReadFailed e
  | Ok raw =>
      if (0 <? max_file_bytes) && (max_file_bytes <? PyStr.len raw) then TooBig raw
      else if (0 <? max_total_bytes) && (max_total_bytes <? t + PyStr.len raw)
           then OverBudget raw
           else Included raw
  end.

Fixpoint included_files (entries : list FileEntry) (t : Z) : list (FileEntry * list byte) :=
  match entries with
  | [] => []
  | fe :: rest =>
      match classify t fe with
      | ReadFailed _ | TooBig _ => included_files rest t
      | OverBudget _ => []
      | Included raw => (fe, raw) :: included_files rest (t + PyStr.len raw)
      end
  end.

Fixpoint stops (entries : list FileEntry) (t : Z) : bool :=
  match entries with
  | [] => false
  | fe :: rest =>
      match classify t fe with
      | ReadFailed _ | TooBig _ => stops rest t
      | OverBudget _ => true
      | Included raw => stops rest (t + PyStr.len raw)
      end
  end.

(** Sum of the raw lengths, and the text of the blocks, of a list of
    included files. *)
Definition sum_raw (l : list (FileEntry * list byte)) : Z :=
  foldr (fun x acc => PyStr.len x.2 + acc) 0 l.

Definition blocks_text (l : list (FileEntry * list byte)) : string :=
  foldr (fun x acc => render_block x.1 x.2 +:+ acc) EmptyString l.

(** Without a total budget the loop keeps every entry that can be read
    and is within the per-file limit. *)
Definition within_file_limit (entries : list FileEntry) : list (FileEntry * list byte) :=
  flat_map (fun fe =>
              match read_bytes fs (fe_path fe) with
              | Raise _ => []
              | Ok raw =>
                  if (0 <? max_file_bytes) && (max_file_bytes <? PyStr.len raw)
                  then [] else [(fe, raw)]
              end) entries.

(** *** [main], from the resolved paths to the bundle

    [allowed_exts] is the list [main] computes from [--ext]. *)

Inductive run_result : Type :=
| PathNotFound (p : Path)
| NoFilesMatched
| Bundled (text : string) (warns : list string).

Definition main (generated_iso : string) (roots : list Path) (allowed_exts : list string)
  : run_result :=
  match List.find (fun r => negb (bool_decide (is_Some (fs_lookup fs r)))) roots with
  | Some r => PathNotFound r
  | None =>
      let entries := filter_by_ext (walk_inputs roots) (Some allowed_exts) in
      match entries with
      | [] => NoFilesMatched
      | _ =>
          let r := bundle generated_iso entries in
          Bundled r.1 r.2
      end
  end.

End Pipeline.

(** ** Instances of the runtime functions on ASCII text

    Used to evaluate the pipeline on concrete inputs. *)

Module Ascii_runtime.

Definition lower_char (c : ascii) : ascii :=
  let n := N_of_ascii c in
  if ((65 <=? n) && (n <=? 90))%N then ascii_of_N (n + 32) else c.

(** [str.lower] on ASCII text *)
Fixpoint lower (s : string) : string :=
  match s with
  | EmptyString => EmptyString
  | String c rest => String (lower_char c) (lower rest)
  end.

Definition is_space (c : ascii) : bool :=
  let n := N_of_ascii c in
  ((n =? 32) || ((9 <=? n) && (n <=? 13)) || ((28 <=? n) && (n <=? 31)))%N.

Fixpoint lstrip (s : string) : string :=
  match s with
  | EmptyString => EmptyString
  | String c rest => if is_space c then lstrip rest else s
  end.

Fixpoint rstrip (s : string) : string :=
  match s with
  | EmptyString => EmptyString
  | String c rest =>
      match rstrip rest with
      | EmptyString => if is_space c then EmptyString else String c EmptyString
      | r => String c r
      end
  end.

(** [str.strip] on ASCII text *)
Definition strip (s : string) : string := rstrip (lstrip s).

(** [fnmatch.fnmatch] on a POSIX host, for patterns made of literal
    characters, [?] and [*]. *)
Fixpoint glob (pat : string) : string -> bool :=
  match pat with
  | EmptyString => fun name => if name is EmptyString then true else false
  | String p pat' =>
      if Ascii.eqb p "*" then
        (fix star (name : string) : bool :=
           glob pat' name
           || match name with
              | EmptyString => false
              | String _ name' => star name'
              end)
      else
        fun name =>
          match name with
          | EmptyString => false
          | String c name' =>
              (Ascii.eqb p "?" || Ascii.eqb p c) && glob pat' name'
          end
  end.

Definition fnmatch (name pat : string) : bool := glob pat name.

(** [os.path.abspath] for a process whose working directory is the
    root, on names without [.], [..] or doubled separators. *)
Definition abspath (s : string) : string :=
  if PyStr.startswith s "/" then s else "/" +:+ s.

Definition zero_pad (width : nat) (s : string) : string :=
  match Nat.sub width (String.length s) with
  | O => s
  | S k => repeat_str "0" (S k) +:+ s
  end.

Definition digits (width : nat) (n : Z) : string := zero_pad width (PyStr.of_int n).

(** [datetime.fromtimestamp(t, tz=timezone.utc).isoformat()] for a time
    stamp of whole seconds in the years 1 to 9999 (proleptic Gregorian
    calendar). *)
Definition isoformat_utc (t : Z) : string :=
  let z := t / 86400 + 719468 in
  let secs := t mod 86400 in
  let era := z / 146097 in
  let doe := z - era * 146097 in
  let yoe := (doe - doe / 1460 + doe / 36524 - doe / 146096) / 365 in
  let doy := doe - (365 * yoe + yoe / 4 - yoe / 100) in
  let mp := (5 * doy + 2) / 153 in
  let day := doy - (153 * mp + 2) / 5 + 1 in
  let month := if mp <? 10 then mp + 3 else mp - 9 in
  let year := yoe + era * 400 + (if month <=? 2 then 1 else 0) in
  digits 4 year +:+ "-" +:+ digits 2 month +:+ "-" +:+ digits 2 day
  +:+ "T" +:+ digits 2 (secs / 3600) +:+ ":" +:+ digits 2 (secs / 60 mod 60)
  +:+ ":" +:+ digits 2 (secs mod 60) +:+ "+00:00".

End Ascii_runtime.


(** ** A small project tree, to run the pipeline on *)

Module Demo.

Definition bytes_of (s : string) : list byte := String.list_byte_of_string s.

Definition st (n t : Z) : stat_result := {| st_size := n; st_mtime := t |}.

Definition a_py : list byte := bytes_of ("print(1)" +:+ PyStr.crlf +:+ "x = 2").
Definition b_txt : list byte := bytes_of ("hello" +:+ PyStr.lf).
Definition logo : list byte := [x89; x50; x4e; x47; x00; x01].
Definition notes : list byte := bytes_of "0123456789abcdefghij".
Definition lib_a : list byte := bytes_of ("import os" +:+ PyStr.lf).

(** [/proj] with two sources, a binary file, a larger file, a hidden
    directory and a dependency directory; [/.cfg], a hidden directory;
    [/lib], with a file whose name differs from [/proj/a.py] by case only. *)
Definition tree : node :=
  Dir [
    ("proj", Dir [
       ("b.txt", File (Ok b_txt) (st 6 1700000000));
       ("a.py", File (Ok a_py) (st 15 1700000100));
       ("logo.txt", File (Ok logo) (st 6 1700000200));
       ("notes.md", File (Ok notes) (st 20 1700000300));
       ("locked.py", File (Raise "[Errno 13] Permission denied: '/proj/locked.py'")
                         (st 9 1700000400));
       (".git", Dir [ ("config.txt", File (Ok b_txt) (st 6 1700000500)) ]);
       ("node_modules", Dir [ ("x.js", File (Ok a_py) (st 15 1700000600)) ]);
       ("src", Dir [ ("Main.py", File (Ok a_py) (st 15 1700000700)) ])
    ]);
    (".cfg", Dir [ ("tool.py", File (Ok a_py) (st 15 1700000800)) ]);
  ("lib", Dir [ ("A.py", File (Ok lib_a) (st 10 1700000900)) ])
  ].

Definition entry (root rel : Path) (n t : Z) : FileEntry :=
  {| fe_root := root; fe_path := root ++ rel; fe_rel := rel; fe_size := n; fe_mtime := t |}.

Definition a_entry : FileEntry := entry ["proj"] ["a.py"] 15 1700000100.
Definition b_entry : FileEntry := entry ["proj"] ["b.txt"] 6 1700000000.
Definition notes_entry : FileEntry := entry ["proj"] ["notes.md"] 20 1700000300.
Definition main_entry : FileEntry := entry ["proj"] ["src"; "Main.py"] 15 1700000700.
Definition lib_entry : FileEntry := entry ["lib"] ["A.py"] 10 1700000900.
Definition tool_entry : FileEntry := entry [".cfg"] ["tool.py"] 15 1700000800.

Definition walk (paths : list Path) : list FileEntry :=
  walk_inputs Ascii_runtime.fnmatch Ascii_runtime.abspath tree DEFAULT_EXCLUDES false paths.

Definition candidates : list FileEntry :=
  filter_by_ext Ascii_runtime.lower Ascii_runtime.strip (walk [["proj"]]) (Some DEFAULT_EXTS).

Definition bundle_state (max_file_bytes max_total_bytes : Z) (entries : list FileEntry) : bstate :=
  bundle_state Ascii_runtime.lower Sha256.hexdigest Ascii_runtime.isoformat_utc
               tree max_file_bytes max_total_bytes entries.

Definition bundle (max_file_bytes max_total_bytes : Z) (entries : list FileEntry)
  : string * list string :=
  bundle Ascii_runtime.lower Sha256.hexdigest Ascii_runtime.isoformat_utc
         tree max_file_bytes max_total_bytes "2024-01-01T00:00:00+00:00" entries.

Definition kept (max_file_bytes max_total_bytes : Z) (entries : list FileEntry)
  : list (FileEntry * list byte) :=
  included_files tree max_file_bytes max_total_bytes
                 (sorted (sort_key Ascii_runtime.lower) entries) 0.

Definition run (max_file_bytes max_total_bytes : Z) (paths : list Path) : run_result :=
  main Ascii_runtime.lower Ascii_runtime.strip Ascii_runtime.fnmatch Ascii_runtime.abspath
       Sha256.hexdigest Ascii_runtime.isoformat_utc tree DEFAULT_EXCLUDES false
       max_file_bytes max_total_bytes "2024-01-01T00:00:00+00:00" paths DEFAULT_EXTS.

End Demo.

(** ** Further definitions *)

(** Whether the bytes of an entry can be read. *)
Definition readable_entry (fs : node) (fe : FileEntry) : bool :=
  match read_bytes fs (fe_path fe) with
  | Ok _ => true
  | Raise _ => false
  end.

(** [len(s)] for a text: the number of its characters, that is of the
    bytes of its encoding that do not continue a character. *)
Fixpoint char_count (s : string) : Z :=
  match s with
  | EmptyString => 0
  | String c rest =>
      (if Utf8.continuation (byte_of_ascii c) then 0 else 1) + char_count rest
  end.

(** [s.split(sep)] for a separator of one character *)
Fixpoint split_char (sep : ascii) (s : string) : list string :=
  match s with
  | EmptyString => [EmptyString]
  | String c rest =>
      if Ascii.eqb c sep then EmptyString :: split_char sep rest
      else
        match split_char sep rest with
        | h :: t => String c h :: t
        | [] => [String c EmptyString]
        end
  end.

(** Truth value of a text: it is not empty. *)
Definition truthy (s : string) : bool :=
  match s with
  | EmptyString => false
  | String _ _ => true
  end.

(** ** The host: clipboard, commands, file output

    What starting a command and feeding it the text gives: its return
    code, [FileNotFoundError], or another exception. *)

Inductive spawn_result : Type :=
| Exited (returncode : Z)
| NotFound (e : string)
| Failed (e : string).

Record Host : Type := mkHost {
  sys_platform : string;
  os_name : string;
  (** [import pyperclip; pyperclip.copy(text)] *)
  pyperclip_copy : string -> result unit;
  (** [p = subprocess.Popen(argv, stdin=PIPE); p.communicate(input=...)] *)
  spawn : list string -> string -> spawn_result;
  (** [Path(path).write_text(text, encoding="utf-8")] *)
  write_text : string -> string -> result unit
}.

(** The fallback of [copy_to_clipboard] for one command outside the loop
    ([pbcopy], [clip]): any exception leaves through the outer [except]. *)
Definition copy_with (h : Host) (argv : list string) (text last_err : string)
  : bool * option string :=
  match spawn h argv text with
  | Exited rc => if rc =? 0 then (true, None) else (false, Some last_err)
  | NotFound e2 | Failed e2 => (false, Some ("Clipboard fallback failed: " +:+ e2))
  end.

(** The loop [for cmd in ("xclip", "xsel")]: a missing command is passed
    over, as is one that exits with an error; another exception leaves
    through the outer [except]. *)
Fixpoint copy_with_first (h : Host) (cmds : list string) (text last_err : string)
  : bool * option string :=
  match cmds with
  | [] => (false, Some last_err)
  | cmd :: rest =>
      match spawn h [cmd; "-selection"; "clipboard"] text with
      | Exited rc =>
          if rc =? 0 then (true, None) else copy_with_first h rest text last_err
      | NotFound _ => copy_with_first h rest text last_err
      | Failed e2 => (false, Some ("Clipboard fallback failed: " +:+ e2))
      end
  end.

(** [copy_to_clipboard] *)
Definition copy_to_clipboard (h : Host) (text : string) : bool * option string :=
  match pyperclip_copy h text with
  | Ok _ => (true, None)
  | Raise e =>
      let last_err := "pyperclip failed: " +:+ e in
      if String.eqb (sys_platform h) "darwin" then copy_with h ["pbcopy"] text last_err
      else if String.eqb (os_name h) "nt" then copy_with h ["clip"] text last_err
      else copy_with_first h ["xclip"; "xsel"] text last_err
  end.

(** An answer of the fallbacks: success without a message, or failure with
    the message of [pyperclip] or that of a fallback that raised. *)
Definition fallback_answer (last_err : string) (r : bool * option string) : Prop :=
  r = (true, None)
  \/ r = (false, Some last_err)
  \/ exists e2, r = (false, Some ("Clipboard fallback failed: " +:+ e2)).

(** A command that the loop over the Linux tools passes over. *)
Definition passed_over (r : spawn_result) : Prop :=
  (exists rc, r = Exited rc /\ rc <> 0) \/ (exists e, r = NotFound e).

(** ** [main], with its arguments and its output *)

(** A path of the command line: [typed] is [str(Path(p))], the text [main]
    prints for it, and [resolved] is what [Path(p).resolve()] gives. *)
Record input_path : Type := mkInput { typed : string; resolved : Path }.

(** An absolute path typed in its resolved form. *)
Definition given (p : Path) : input_path :=
  {| typed := PyPath.str_abs p; resolved := p |}.

(** The namespace [parse_args] returns when it returns one. *)
Record Args : Type := mkArgs {
  arg_inputs : list input_path;
  arg_ext : string;
  arg_exclude : list string;
  arg_include_hidden : bool;
  arg_max_file_bytes : Z;
  arg_max_total_bytes : Z;
  arg_out : option string;
  arg_no_clip : bool;
  arg_quiet : bool
}.

(** The paths [walk_inputs] resolves. *)
Definition arg_paths (args : Args) : list Path := resolved <$> arg_inputs args.

(** What [main] does that can be seen from outside. *)
Inductive event : Type :=
| Print (s : string)          (** [print(s)] *)
| PrintErr (s : string)       (** [print(s, file=sys.stderr)] *)
| FileWritten (path text : string)
| ClipboardSet (text : string).

Section Main.
Variable lower : string -> string.
Variable strip : string -> string.
Variable fnmatch : string -> string -> bool.
Variable abspath : string -> string.
Variable sha256_hexdigest : list byte -> string.
Variable isoformat_utc : Z -> string.
Variable fs : node.
Variable host : Host.

(** The list of extensions [main] computes from [--ext]. *)
Definition allowed_exts_of (ext : string) : list string :=
  if String.eqb (strip ext) "*" then ["*"]
  else
    flat_map (fun e => if truthy (strip e) then [strip e] else [])
             (split_char "," ext).

(** [if args.out: ...] *)
Definition write_out (args : Args) (bundle_text : string) : list event :=
  match arg_out args with
  | None => []
  | Some path =>
      if truthy path then
        match write_text host path bundle_text with
        | Ok _ =>
            FileWritten path bundle_text
            :: (if arg_quiet args then []
                else [Print ("Wrote " +:+ PyStr.of_int (char_count bundle_text)
                             +:+ " chars to " +:+ path)])
        | Raise e => [PrintErr ("Failed to write to " +:+ path +:+ ": " +:+ e)]
        end
      else []
  end.

(** [err or 'unknown error'] *)
Definition error_text (err : option string) : string :=
  match err with
  | Some e => if truthy e then e else "unknown error"
  | None => "unknown error"
  end.

(** [if not args.no_clip: ... else: print(bundle_text)] *)
Definition deliver (args : Args) (bundle_text : string) : list event :=
  if arg_no_clip args then [Print bundle_text]
  else
    let '(ok, err) := copy_to_clipboard host bundle_text in
    if ok then
      ClipboardSet bundle_text
      :: (if arg_quiet args then [] else [Print "Copied bundle to clipboard ✓"])
    else
      [PrintErr ("Clipboard copy failed: " +:+ error_text err); Print bundle_text].

(** [if warnings and not args.quiet: ...] *)
Definition print_warnings (args : Args) (warns : list string) : list event :=
  match warns with
  | [] => []
  | _ =>
      if arg_quiet args then []
      else Print (PyStr.lf +:+ "Warnings:") :: ((fun w => Print ("  - " +:+ w)) <$> warns)
  end.

(** The entries [main] hands to [bundle]. *)
Definition cli_entries (args : Args) : list FileEntry :=
  filter_by_ext lower strip
    (walk_inputs fnmatch abspath fs (arg_exclude args) (arg_include_hidden args)
                 (arg_paths args))
    (Some (allowed_exts_of (arg_ext args))).

(** [main] after [parse_args], on the runs that return: the status
    returned and the events, in order.  [generated_iso] is the reading of
    the clock.  A run that ends in an exception [main] does not catch has no
    rendering here. *)
Definition cli_main (generated_iso : string) (args : Args) : Z * list event :=
  match List.find (fun r => negb (bool_decide (is_Some (fs_lookup fs (resolved r)))))
                  (arg_inputs args) with
  | Some r => (2, [PrintErr ("Error: path not found: " +:+ typed r)])
  | None =>
      match cli_entries args with
      | [] => (3, [PrintErr "No files matched your criteria."])
      | entries =>
          let '(bundle_text, warns) :=
            bundle lower sha256_hexdigest isoformat_utc fs
                   (arg_max_file_bytes args) (arg_max_total_bytes args)
                   generated_iso entries in
          (0, write_out args bundle_text ++ deliver args bundle_text
              ++ print_warnings args warns)
      end
  end.

End Main.

(** [parse_args] without options, for the given paths. *)
Definition default_args (paths : list Path) : Args :=
  {| arg_inputs := given <$> paths;
     arg_ext := PyStr.join "," DEFAULT_EXTS;
     arg_exclude := DEFAULT_EXCLUDES;
     arg_include_hidden := false;
     arg_max_file_bytes := 250000;
     arg_max_total_bytes := 1500000;
     arg_out := None;
     arg_no_clip := false;
     arg_quiet := false |}.

(** Hosts for the demo: a Linux host without [pyperclip] where [xclip] is
    missing and [xsel] works, and one with no clipboard tool at all. *)
Module DemoHost.

Definition no_pyperclip (text : string) : result unit :=
  Raise "No module named 'pyperclip'".

Definition linux_xsel : Host :=
  {| sys_platform := "linux";
     os_name := "posix";
     pyperclip_copy := no_pyperclip;
     spawn := fun argv _ =>
                match argv with
                | cmd :: _ =>
                    if String.eqb cmd "xsel" then Exited 0
                    else NotFound ("[Errno 2] No such file or directory: '" +:+ cmd +:+ "'")
                | [] => Failed "empty command"
                end;
     write_text := fun _ _ => Ok tt |}.

Definition bare : Host :=
  {| sys_platform := "linux";
     os_name := "posix";
     pyperclip_copy := no_pyperclip;
     spawn := fun argv _ => NotFound "[Errno 2] No such file or directory";
     write_text := fun _ _ => Raise "[Errno 13] Permission denied" |}.

Definition run (h : Host) (args : Args) : Z * list event :=
  cli_main Ascii_runtime.lower Ascii_runtime.strip Ascii_runtime.fnmatch
           Ascii_runtime.abspath Sha256.hexdigest Ascii_runtime.isoformat_utc
           Demo.tree h "2024-01-01T00:00:00+00:00" args.

End DemoHost.

(** Inputs for runs on the demo tree. *)
Module DemoRun.

Definition locked_entry : FileEntry := Demo.entry ["proj"] ["locked.py"] 9 1700000400.

(** [--max-file-bytes 10 --max-total-bytes 25 --quiet] on [/proj] *)
Definition quiet_small : Args :=
  {| arg_inputs := [given ["proj"]];
     arg_ext := PyStr.join "," DEFAULT_EXTS;
     arg_exclude := DEFAULT_EXCLUDES;
     arg_include_hidden := false;
     arg_max_file_bytes := 10;
     arg_max_total_bytes := 25;
     arg_out := Some "bundle.txt";
     arg_no_clip := false;
     arg_quiet := true |}.

(** [--ext " , "] on [/proj] *)
Definition blank_ext : Args :=
  {| arg_inputs := [given ["proj"]];
     arg_ext := " , ";
     arg_exclude := DEFAULT_EXCLUDES;
     arg_include_hidden := false;
     arg_max_file_bytes := 250000;
     arg_max_total_bytes := 1500000;
     arg_out := None;
     arg_no_clip := true;
     arg_quiet := false |}.

End DemoRun.
(** * Properties *)

(** ** The order on strings *)

Lemma ascii_compare_refl (a : ascii) : Ascii.compare a a = Eq.
Proof. unfold Ascii.compare. apply N.compare_refl. Qed.

Lemma string_compare_refl (s : string) : String.compare s s = Eq.
Proof. induction s as [|a s IH]; simpl; [done|]. by rewrite ascii_compare_refl. Qed.

Lemma string_leb_refl (s : string) : String.leb s s = true.
Proof. unfold String.leb. by rewrite string_compare_refl. Qed.

Lemma string_compare_le_trans (a b c : string) :
  String.compare a b <> Gt -> String.compare b c <> Gt -> String.compare a c <> Gt.
Proof.
  revert b c. induction a as [|x a IH]; intros [|y b] [|z c]; simpl; try congruence.
  unfold Ascii.compare.
  destruct (N.compare_spec (N_of_ascii x) (N_of_ascii y)) as [Hxy|Hxy|Hxy];
    destruct (N.compare_spec (N_of_ascii y) (N_of_ascii z)) as [Hyz|Hyz|Hyz];
    try congruence; intros H1 H2.
  - rewrite Hxy, Hyz, N.compare_refl. by eapply IH.
  - rewrite Hxy. apply N.compare_lt_iff in Hyz. by rewrite Hyz.
  - rewrite <- Hyz. apply N.compare_lt_iff in Hxy. by rewrite Hxy.
  - assert (Hxz : (N_of_ascii x < N_of_ascii z)%N) by lia.
    apply N.compare_lt_iff in Hxz. by rewrite Hxz.
Qed.

Lemma string_leb_trans (a b c : string) :
  String.leb a b = true -> String.leb b c = true -> String.leb a c = true.
Proof.
  unfold String.leb. intros H1 H2.
  pose proof (string_compare_le_trans a b c) as H.
  destruct (String.compare a b), (String.compare b c), (String.compare a c);
    try done; exfalso; apply H; congruence.
Qed.

Lemma string_leb_false (a b : string) :
  String.leb a b = false -> String.leb b a = true.
Proof. intros H. destruct (String.leb_total a b); congruence. Qed.

(** ** The stable sort *)

Section SortedFacts.
Context {A : Type} (key : A -> string).

Lemma insert_by_perm (x : A) (l : list A) : insert_by key x l ≡ₚ x :: l.
Proof.
  induction l as [|y l IH]; simpl; [done|].
  destruct (String.leb (key x) (key y)); [done|].
  rewrite IH. apply Permutation_swap.
Qed.

Lemma sorted_perm (l : list A) : sorted key l ≡ₚ l.
Proof.
  induction l as [|x l IH]; simpl; [done|].
  by rewrite insert_by_perm, IH.
Qed.

Lemma insert_by_sorted (x : A) (l : list A) :
  StronglySorted (key_le key) l -> StronglySorted (key_le key) (insert_by key x l).
Proof.
  induction 1 as [|y l Hl IH Hy]; simpl.
  - repeat constructor.
  - destruct (String.leb (key x) (key y)) eqn:E.
    + constructor; [by constructor|].
      constructor; [done|].
      eapply Forall_impl; [exact Hy|].
      intros z Hz. unfold key_le in *. by eapply string_leb_trans.
    + constructor; [done|].
      rewrite insert_by_perm. constructor; [|done].
      by apply string_leb_false.
Qed.

Lemma sorted_sorted (l : list A) : StronglySorted (key_le key) (sorted key l).
Proof.
  induction l as [|x l IH]; simpl; [constructor|].
  by apply insert_by_sorted.
Qed.

(** Stability: entries with the same key keep their order. *)
Lemma insert_by_stable (k : string) (x : A) (l : list A) :
  StronglySorted (key_le key) l ->
  List.filter (fun a => String.eqb (key a) k) (insert_by key x l)
  = List.filter (fun a => String.eqb (key a) k) (x :: l).
Proof.
  induction 1 as [|y l Hl IH Hy]; [done|].
  cbn [insert_by].
  destruct (String.leb (key x) (key y)) eqn:E; [done|].
  cbn [List.filter] in *. rewrite IH.
  destruct (String.eqb_spec (key x) k) as [Hx|Hx];
    destruct (String.eqb_spec (key y) k) as [Hy'|Hy']; try done.
  subst k. rewrite <- Hy', string_leb_refl in E. done.
Qed.

Lemma sorted_stable (k : string) (l : list A) :
  List.filter (fun a => String.eqb (key a) k) (sorted key l)
  = List.filter (fun a => String.eqb (key a) k) l.
Proof.
  induction l as [|x l IH]; [done|].
  cbn [sorted foldr]. rewrite insert_by_stable by apply sorted_sorted.
  cbn [List.filter]. fold (sorted key l). by rewrite IH.
Qed.

(** Two sorted arrangements of the same entries are equal when distinct
    entries have distinct keys. *)
Lemma sorted_unique (l1 l2 : list A) :
  StronglySorted (key_le key) l1 -> StronglySorted (key_le key) l2 ->
  l1 ≡ₚ l2 -> NoDup (key <$> l1) -> l1 = l2.
Proof.
  intros H1. revert l2. induction H1 as [|a l1 Hl1 IH Ha]; intros l2 H2 Hp Hnd.
  - by apply Permutation_nil in Hp.
  - destruct H2 as [|b l2 Hl2 Hb].
    + symmetry in Hp. by apply Permutation_nil in Hp.
    + assert (Hab : a = b).
      { assert (Hin_a : a ∈ b :: l2) by (rewrite <- Hp; left).
        assert (Hin_b : b ∈ a :: l1) by (rewrite Hp; left).
        apply elem_of_cons in Hin_a as [->|Hin_a]; [done|].
        apply elem_of_cons in Hin_b as [->|Hin_b]; [done|].
        rewrite Forall_forall in Ha, Hb.
        assert (Hk : key a = key b).
        { apply String.leb_antisym; [by apply Ha | by apply Hb]. }
        rewrite fmap_cons in Hnd. apply NoDup_cons in Hnd as [Hnot _].
        exfalso. apply Hnot. rewrite Hk. by apply list_elem_of_fmap_2. }
      subst b. f_equal. apply IH; [done| |].
      * by apply Permutation_cons_inv in Hp.
      * rewrite fmap_cons in Hnd. by apply NoDup_cons in Hnd as [_ ?].
Qed.

Lemma sorted_permutation_invariant (l1 l2 : list A) :
  l1 ≡ₚ l2 -> NoDup (key <$> l1) -> sorted key l1 = sorted key l2.
Proof.
  intros Hp Hnd. apply sorted_unique; try apply sorted_sorted.
  - by rewrite !sorted_perm.
  - by rewrite sorted_perm.
Qed.

End SortedFacts.

(** ** Strings *)

Lemma append_nil_l (s : string) : EmptyString +:+ s = s.
Proof. reflexivity. Qed.

Lemma append_cons (c : ascii) (s t : string) : String c s +:+ t = String c (s +:+ t).
Proof. reflexivity. Qed.

Lemma append_nil_r (s : string) : s +:+ EmptyString = s.
Proof. induction s as [|c s IH]; [done|]. by rewrite append_cons, IH. Qed.

Lemma append_assoc (a b c : string) : (a +:+ b) +:+ c = a +:+ (b +:+ c).
Proof. induction a as [|x a IH]; [done|]. by rewrite !append_cons, IH. Qed.

Lemma prefix_nil (s : string) : String.prefix EmptyString s = true.
Proof. by destruct s. Qed.

Lemma prefix_cons (c d : ascii) (p s : string) :
  String.prefix (String c p) (String d s)
  = if ascii_dec c d then String.prefix p s else false.
Proof. reflexivity. Qed.

Lemma prefix_append (p s : string) : String.prefix p (p +:+ s) = true.
Proof.
  induction p as [|c p IH]; [apply prefix_nil|].
  rewrite append_cons. cbn. by destruct (ascii_dec c c).
Qed.

(** ** The decoder *)




(** The decoder on ill-formed input: a stray continuation byte, a
    truncated three-byte sequence, an overlong encoding, a surrogate. *)
Example decode_replace_stray :
  Utf8.decode_replace [x41; x80; x42]
  = Utf8.emit [x41] (Utf8.replacement (Utf8.emit [x42] EmptyString)).
Proof. reflexivity. Qed.

Example decode_replace_truncated :
  Utf8.decode_replace [xe2; x82] = Utf8.replacement EmptyString.
Proof. reflexivity. Qed.

Example decode_replace_overlong :
  Utf8.decode_replace [xc0; xaf]
  = Utf8.replacement (Utf8.replacement EmptyString).
Proof. reflexivity. Qed.

Example decode_replace_surrogate :
  Utf8.decode_replace [xed; xa0; x80]
  = Utf8.replacement (Utf8.replacement (Utf8.replacement EmptyString)).
Proof. reflexivity. Qed.






(** ** Newline normalisation *)

Lemma replace_cr_cons (c : ascii) (s : string) :
  PyStr.replace_from PyStr.cr PyStr.lf 0 (String c s)
  = String (if Ascii.eqb c PyStr.CR then PyStr.LF else c)
           (PyStr.replace_from PyStr.cr PyStr.lf 0 s).
Proof.
  unfold PyStr.cr. cbn [PyStr.replace_from]. rewrite prefix_cons, prefix_nil.
  destruct (ascii_dec PyStr.CR c) as [<-|Hne]; [done|].
  destruct (Ascii.eqb_spec c PyStr.CR) as [->|_]; [done|reflexivity].
Qed.

Lemma replace_crlf_cons (c : ascii) (s : string) :
  PyStr.replace_from PyStr.crlf PyStr.lf 0 (String c s)
  = match s with
    | String d s' =>
        if Ascii.eqb c PyStr.CR && Ascii.eqb d PyStr.LF
        then String PyStr.LF (PyStr.replace_from PyStr.crlf PyStr.lf 0 s')
        else String c (PyStr.replace_from PyStr.crlf PyStr.lf 0 s)
    | EmptyString => String c EmptyString
    end.
Proof.
  unfold PyStr.crlf. cbn [PyStr.replace_from]. rewrite prefix_cons.
  destruct (ascii_dec PyStr.CR c) as [<-|Hne].
  - destruct s as [|d s']; [done|]. rewrite prefix_cons, prefix_nil.
    destruct (ascii_dec PyStr.LF d) as [<-|Hne']; [done|].
    destruct (Ascii.eqb_spec d PyStr.LF) as [->|_]; [done|reflexivity].
  - destruct (Ascii.eqb_spec c PyStr.CR) as [->|_]; [done|].
    by destruct s.
Qed.

Lemma normalise_newlines_spec_le (n : nat) (s : string) :
  (String.length s <= n)%nat -> normalise_newlines s = newlines_spec s.
Proof.
  unfold normalise_newlines, PyStr.replace. cbn [PyStr.crlf PyStr.cr].
  change (String PyStr.CR (String PyStr.LF EmptyString)) with PyStr.crlf.
  change (String PyStr.CR EmptyString) with PyStr.cr.
  revert s. induction n as [|n IH]; intros [|c s] Hlen; try done.
  { cbn in Hlen. lia. }
  cbn [String.length] in Hlen.
  rewrite replace_crlf_cons. cbn [newlines_spec].
  destruct s as [|d s'].
  - rewrite replace_cr_cons. by destruct (Ascii.eqb c PyStr.CR).
  - destruct (Ascii.eqb_spec c PyStr.CR) as [->|Hc]; cbn [andb].
    + destruct (Ascii.eqb_spec d PyStr.LF) as [->|Hd].
      * rewrite replace_cr_cons. cbn [String.length] in Hlen.
        rewrite (IH s') by lia. done.
      * rewrite replace_cr_cons. rewrite (IH (String d s')) by lia. done.
    + rewrite replace_cr_cons. rewrite (IH (String d s')) by lia.
      by destruct (Ascii.eqb_spec c PyStr.CR).
Qed.

(** [normalise_newlines] does what the specification says. *)
Lemma normalise_newlines_spec (s : string) : normalise_newlines s = newlines_spec s.
Proof. by apply (normalise_newlines_spec_le (String.length s)). Qed.

Lemma newlines_spec_no_cr_le (n : nat) (s : string) :
  (String.length s <= n)%nat -> PyStr.contains_char PyStr.CR (newlines_spec s) = false.
Proof.
  revert s. induction n as [|n IH]; intros [|c s] Hlen; try done.
  { cbn in Hlen. lia. }
  cbn [String.length] in Hlen. cbn [newlines_spec].
  destruct (Ascii.eqb_spec c PyStr.CR) as [->|Hc].
  - destruct s as [|d s']; [done|]. cbn [String.length] in Hlen.
    destruct (Ascii.eqb d PyStr.LF); cbn [PyStr.contains_char].
    + rewrite (IH s') by lia. done.
    + rewrite (IH (String d s')) by (cbn; lia). done.
  - cbn [PyStr.contains_char]. rewrite (IH s) by lia.
    destruct (Ascii.eqb_spec PyStr.CR c) as [<-|_]; done.
Qed.

Lemma newlines_spec_no_cr (s : string) :
  PyStr.contains_char PyStr.CR (newlines_spec s) = false.
Proof. by apply (newlines_spec_no_cr_le (String.length s)). Qed.




(** ** The loop of the bundler *)

Lemma sum_raw_cons (fe : FileEntry) (raw : list byte) (l : list (FileEntry * list byte)) :
  sum_raw ((fe, raw) :: l) = PyStr.len raw + sum_raw l.
Proof. reflexivity. Qed.

Lemma sum_raw_nonneg (l : list (FileEntry * list byte)) : 0 <= sum_raw l.
Proof.
  induction l as [|[fe raw] l IH]; [done|].
  rewrite sum_raw_cons. unfold PyStr.len. lia.
Qed.

Section BundleFacts.
Variable lower : string -> string.
Variable sha256_hexdigest : list byte -> string.
Variable isoformat_utc : Z -> string.
Variable fs : node.
Variables max_file_bytes max_total_bytes : Z.

Local Abbreviation loop :=
  (bundle_loop lower sha256_hexdigest isoformat_utc fs max_file_bytes max_total_bytes).
Local Abbreviation verdict_of := (classify fs max_file_bytes max_total_bytes).
Local Abbreviation kept := (included_files fs max_file_bytes max_total_bytes).
Local Abbreviation breaks := (stops fs max_file_bytes max_total_bytes).
Local Abbreviation text_of := (blocks_text lower sha256_hexdigest isoformat_utc).
Local Abbreviation add_file := (include_file lower sha256_hexdigest isoformat_utc).

(** One turn of the loop, by the verdict on its entry. *)
Lemma bundle_loop_cons (fe : FileEntry) (rest : list FileEntry) (s : bstate) :
  loop (fe :: rest) s =
  match verdict_of (total s) fe with
  | ReadFailed e => loop rest (warn s (warn_read_error fe e))
  | TooBig raw => loop rest (warn s (warn_too_big fe (PyStr.len raw) max_file_bytes))
  | OverBudget _ => warn s (warn_stopped fe max_total_bytes)
  | Included raw => loop rest (add_file s fe raw)
  end.
Proof.
  cbn [bundle_loop]. unfold classify.
  destruct (read_bytes fs (fe_path fe)) as [raw|e]; [|done].
  destruct ((0 <? max_file_bytes) && (max_file_bytes <? PyStr.len raw)); [done|].
  by destruct ((0 <? max_total_bytes) && (max_total_bytes <? total s + PyStr.len raw)).
Qed.

Lemma classify_read (t : Z) (fe : FileEntry) (raw : list byte) :
  verdict_of t fe = TooBig raw \/ verdict_of t fe = OverBudget raw
  \/ verdict_of t fe = Included raw ->
  read_bytes fs (fe_path fe) = Ok raw.
Proof.
  unfold classify. destruct (read_bytes fs (fe_path fe)) as [raw'|e].
  - destruct ((0 <? max_file_bytes) && (max_file_bytes <? PyStr.len raw'));
      [|destruct ((0 <? max_total_bytes) && (max_total_bytes <? t + PyStr.len raw'))];
      intros [H|[H|H]]; congruence.
  - intros [H|[H|H]]; congruence.
Qed.

Lemma bundle_loop_out (entries : list FileEntry) (s : bstate) :
  out (loop entries s) = out s +:+ text_of (kept entries (total s)).
Proof.
  revert s. induction entries as [|fe rest IH]; intros s.
  - cbn [bundle_loop included_files blocks_text foldr]. by rewrite append_nil_r.
  - rewrite bundle_loop_cons. cbn [included_files].
    destruct (verdict_of (total s) fe) as [e|raw|raw|raw].
    + by rewrite IH.
    + by rewrite IH.
    + cbn [warn out blocks_text foldr]. by rewrite append_nil_r.
    + rewrite IH. cbn [include_file out total blocks_text foldr fst snd].
      by rewrite append_assoc.
Qed.

Lemma bundle_loop_total (entries : list FileEntry) (s : bstate) :
  total (loop entries s) = total s + sum_raw (kept entries (total s)).
Proof.
  revert s. induction entries as [|fe rest IH]; intros s.
  - cbn. lia.
  - rewrite bundle_loop_cons. cbn [included_files].
    destruct (verdict_of (total s) fe) as [e|raw|raw|raw].
    + by rewrite IH.
    + by rewrite IH.
    + cbn. lia.
    + rewrite IH, sum_raw_cons. cbn [include_file total]. lia.
Qed.

Lemma bundle_loop_included (entries : list FileEntry) (s : bstate) :
  included (loop entries s) = included s + Z.of_nat (length (kept entries (total s))).
Proof.
  revert s. induction entries as [|fe rest IH]; intros s.
  - cbn. lia.
  - rewrite bundle_loop_cons. cbn [included_files].
    destruct (verdict_of (total s) fe) as [e|raw|raw|raw].
    + by rewrite IH.
    + by rewrite IH.
    + cbn. lia.
    + rewrite IH. cbn [include_file total included length]. lia.
Qed.

(** With a positive budget the running total never passes it. *)
Lemma included_files_bound (entries : list FileEntry) (t : Z) :
  0 < max_total_bytes -> t <= max_total_bytes ->
  t + sum_raw (kept entries t) <= max_total_bytes.
Proof.
  intros Hpos. revert t. induction entries as [|fe rest IH]; intros t Ht.
  - cbn. lia.
  - cbn [included_files]. destruct (verdict_of t fe) as [e|raw|raw|raw] eqn:E.
    + by apply IH.
    + by apply IH.
    + cbn. lia.
    + rewrite sum_raw_cons.
      assert (t + PyStr.len raw <= max_total_bytes).
      { unfold classify in E. destruct (read_bytes fs (fe_path fe)); [|done].
        destruct ((0 <? max_file_bytes) && (max_file_bytes <? PyStr.len a)); [done|].
        destruct ((0 <? max_total_bytes) && (max_total_bytes <? t + PyStr.len a)) eqn:B;
          [done|].
        injection E as <-. rewrite andb_false_iff, !Z.ltb_ge in B. lia. }
      specialize (IH (t + PyStr.len raw)). lia.
Qed.

(** Without a budget the total check never fires. *)
Lemma included_files_unbounded (entries : list FileEntry) (t : Z) :
  max_total_bytes <= 0 ->
  kept entries t = within_file_limit fs max_file_bytes entries.
Proof.
  intros Hle. revert t. induction entries as [|fe rest IH]; intros t; [done|].
  cbn [included_files within_file_limit flat_map]. unfold classify.
  fold (within_file_limit fs max_file_bytes rest).
  destruct (read_bytes fs (fe_path fe)) as [raw|e]; [|by apply IH].
  destruct ((0 <? max_file_bytes) && (max_file_bytes <? PyStr.len raw)); [by apply IH|].
  assert ((0 <? max_total_bytes) = false) as -> by (apply Z.ltb_ge; lia).
  cbn. by rewrite IH.
Qed.

(** The text of [bundle]: the preamble, then the blocks of the files kept. *)
Lemma bundle_text (generated_iso : string) (entries : list FileEntry) :
  let ordered := sorted (sort_key lower) entries in
  let inc := kept ordered 0 in
  bundle lower sha256_hexdigest isoformat_utc fs max_file_bytes max_total_bytes
         generated_iso entries
  = (INTRO_TEMPLATE generated_iso (roots_line ordered)
       (Z.of_nat (length inc)) (sum_raw inc) +:+ PyStr.lf +:+ text_of inc,
     warnings (loop ordered bundle_init)).
Proof.
  intros ordered inc. unfold bundle, bundle_state. fold ordered.
  rewrite bundle_loop_out, bundle_loop_total, bundle_loop_included.
  cbn [bundle_init out total included]. fold inc.
  by rewrite !Z.add_0_l.
Qed.

(** C1: the total reported by the bundler is the sum of the raw lengths of
    the files it includes; with a positive [max_total_bytes] that sum never
    exceeds it, and with [max_total_bytes <= 0] no total check is applied:
    every readable file within the per-file limit is included. *)
Theorem total_bytes_within_budget (generated_iso : string) (entries : list FileEntry) :
  let ordered := sorted (sort_key lower) entries in
  let inc := kept ordered 0 in
  let s := bundle_state lower sha256_hexdigest isoformat_utc fs
                        max_file_bytes max_total_bytes entries in
  total s = sum_raw inc
  /\ (bundle lower sha256_hexdigest isoformat_utc fs max_file_bytes max_total_bytes
             generated_iso entries).1
     = INTRO_TEMPLATE generated_iso (roots_line ordered)
         (Z.of_nat (length inc)) (total s) +:+ PyStr.lf +:+ text_of inc
  /\ (0 < max_total_bytes -> sum_raw inc <= max_total_bytes)
  /\ (max_total_bytes <= 0 -> inc = within_file_limit fs max_file_bytes ordered).
Proof.
  intros ordered inc s.
  assert (Hs : total s = sum_raw inc).
  { unfold s, bundle_state. rewrite bundle_loop_total. cbn [bundle_init total].
    fold ordered inc. lia. }
  split; [done|]. split; [|split].
  - rewrite bundle_text. cbn [fst]. fold ordered inc. by rewrite Hs.
  - intros Hpos. pose proof (included_files_bound ordered 0 Hpos) as H.
    fold inc in H. lia.
  - intros Hle. by apply included_files_unbounded.
Qed.

(** *** Splitting the entries at a position *)

Lemma stops_app (p q : list FileEntry) (t : Z) :
  breaks (p ++ q) t = breaks p t || breaks q (t + sum_raw (kept p t)).
Proof.
  revert t. induction p as [|fe p IH]; intros t.
  - cbn. by rewrite Z.add_0_r.
  - cbn [app stops included_files].
    destruct (verdict_of t fe) as [e|raw|raw|raw]; try apply IH; [done|].
    rewrite IH, sum_raw_cons. by rewrite Z.add_assoc.
Qed.

Lemma included_files_app (p q : list FileEntry) (t : Z) :
  breaks p t = false ->
  kept (p ++ q) t = kept p t ++ kept q (t + sum_raw (kept p t)).
Proof.
  revert t. induction p as [|fe p IH]; intros t.
  - cbn. by rewrite Z.add_0_r.
  - cbn [app stops included_files].
    destruct (verdict_of t fe) as [e|raw|raw|raw]; try apply IH; [done|].
    intros H. rewrite IH, sum_raw_cons by done. by rewrite Z.add_assoc.
Qed.

Lemma bundle_loop_app (p q : list FileEntry) (s : bstate) :
  breaks p (total s) = false -> loop (p ++ q) s = loop q (loop p s).
Proof.
  revert s. induction p as [|fe p IH]; intros s; [done|].
  rewrite <- app_comm_cons, !bundle_loop_cons. cbn [stops].
  destruct (verdict_of (total s) fe) as [e|raw|raw|raw]; try done; intros H.
  - by apply (IH (warn s _)).
  - by apply (IH (warn s _)).
  - by apply (IH (add_file s fe raw)).
Qed.

Lemma stop_warning_read_error (fe : FileEntry) (e : string) :
  is_stop_warning (warn_read_error fe e) = false.
Proof. reflexivity. Qed.

Lemma stop_warning_too_big (fe : FileEntry) (n m : Z) :
  is_stop_warning (warn_too_big fe n m) = false.
Proof. reflexivity. Qed.

Lemma stop_warning_stopped (fe : FileEntry) (m : Z) :
  is_stop_warning (warn_stopped fe m) = true.
Proof. apply prefix_append. Qed.

(** *** One entry against the two limits *)


(** A loop that ends without [break] adds no stop warning. *)
Lemma warnings_without_stop (p : list FileEntry) (s : bstate) :
  breaks p (total s) = false ->
  List.filter is_stop_warning (warnings (loop p s))
  = List.filter is_stop_warning (warnings s).
Proof.
  revert s. induction p as [|fe p IH]; intros s; [done|].
  rewrite bundle_loop_cons. cbn [stops].
  destruct (verdict_of (total s) fe) as [e|raw|raw|raw]; try done; intros H.
  - rewrite IH by done. cbn [warn warnings].
    by rewrite List.filter_app; cbn [List.filter]; rewrite stop_warning_read_error, app_nil_r.
  - rewrite IH by done. cbn [warn warnings].
    by rewrite List.filter_app; cbn [List.filter]; rewrite stop_warning_too_big, app_nil_r.
  - by rewrite IH.
Qed.

(** No candidate of [p] is over the budget when its turn comes: the loop
    reaches the end of [p]. *)
Lemma first_over_budget_no_stop (p : list FileEntry) :
  (forall p1 x p2 raw',
      p = p1 ++ x :: p2 ->
      read_bytes fs (fe_path x) = Ok raw' ->
      ~ (0 < max_file_bytes /\ max_file_bytes < PyStr.len raw') ->
      total (loop p1 bundle_init) + PyStr.len raw' <= max_total_bytes) ->
  breaks p 0 = false.
Proof.
  induction p as [|x p IH] using rev_ind; intros H; [done|].
  rewrite stops_app. rewrite IH; cycle 1.
  { intros p1 y p2 raw' -> Hr Hf. apply (H p1 y (p2 ++ [x]) raw'); [|done..].
    by rewrite <- app_assoc. }
  cbn [orb stops]. rewrite Z.add_0_l.
  destruct (verdict_of (sum_raw (kept p 0)) x) as [e|raw|raw|raw] eqn:E; try done.
  exfalso.
  pose proof (classify_read _ _ _ (or_intror (or_introl E))) as Hr.
  unfold classify in E. rewrite Hr in E.
  destruct ((0 <? max_file_bytes) && (max_file_bytes <? PyStr.len raw)) eqn:Bf; [done|].
  destruct ((0 <? max_total_bytes) && (max_total_bytes <? sum_raw (kept p 0) + PyStr.len raw))
    eqn:Bt; [|done].
  rewrite andb_true_iff, !Z.ltb_lt in Bt. rewrite andb_false_iff, !Z.ltb_ge in Bf.
  specialize (H p x [] raw eq_refl Hr). rewrite bundle_loop_total in H.
  cbn [bundle_init total] in H. lia.
Qed.

(** C2, amended: with a positive [max_total_bytes], the first candidate in
    sorted order that is read, is within the per-file limit, and whose raw
    length added to the running total exceeds the budget ends the loop.
    The warnings end with the one warning of the stop, which names that
    candidate; that candidate and all later ones are left out, whatever
    their size. *)
Theorem budget_stop_halts
  (entries pre post : list FileEntry) (fe : FileEntry) (raw : list byte) :
  0 < max_total_bytes ->
  sorted (sort_key lower) entries = pre ++ fe :: post ->
  read_bytes fs (fe_path fe) = Ok raw ->
  ~ (0 < max_file_bytes /\ max_file_bytes < PyStr.len raw) ->
  (forall p1 x p2 raw',
      pre = p1 ++ x :: p2 ->
      read_bytes fs (fe_path x) = Ok raw' ->
      ~ (0 < max_file_bytes /\ max_file_bytes < PyStr.len raw') ->
      total (loop p1 bundle_init) + PyStr.len raw' <= max_total_bytes) ->
  max_total_bytes < total (loop pre bundle_init) + PyStr.len raw ->
  let s := bundle_state lower sha256_hexdigest isoformat_utc fs
                        max_file_bytes max_total_bytes entries in
  s = warn (loop pre bundle_init) (warn_stopped fe max_total_bytes)
  /\ List.filter is_stop_warning (warnings s) = [warn_stopped fe max_total_bytes]
  /\ kept (sorted (sort_key lower) entries) 0 = kept pre 0
  /\ out s = text_of (kept pre 0).
Proof.
  intros Hpos Hsplit Hread Hfile Hfirst Hover s.
  pose proof (first_over_budget_no_stop pre Hfirst) as Hns.
  assert (Hv : verdict_of (total (loop pre bundle_init)) fe = OverBudget raw).
  { unfold classify. rewrite Hread.
    destruct ((0 <? max_file_bytes) && (max_file_bytes <? PyStr.len raw)) eqn:Bf.
    { rewrite andb_true_iff, !Z.ltb_lt in Bf. tauto. }
    assert ((0 <? max_total_bytes)
            && (max_total_bytes <? total (loop pre bundle_init) + PyStr.len raw) = true)
      as ->; [|done].
    rewrite andb_true_iff, !Z.ltb_lt. lia. }
  assert (Hs : s = warn (loop pre bundle_init) (warn_stopped fe max_total_bytes)).
  { unfold s, bundle_state. rewrite Hsplit, bundle_loop_app by done.
    by rewrite bundle_loop_cons, Hv. }
  assert (Hk : kept (sorted (sort_key lower) entries) 0 = kept pre 0).
  { rewrite Hsplit, included_files_app by done. cbn [included_files].
    rewrite bundle_loop_total in Hv. cbn [bundle_init total] in Hv.
    by rewrite Hv, app_nil_r. }
  split; [done|]. split; [|split; [done|]].
  - rewrite Hs. cbn [warn warnings]. rewrite List.filter_app.
    rewrite warnings_without_stop by done. cbn [bundle_init warnings List.filter].
    by rewrite stop_warning_stopped.
  - unfold s, bundle_state. rewrite bundle_loop_out. cbn [bundle_init out total].
    by rewrite Hk.
Qed.

(** *** What happens to each entry *)

Lemma included_files_elem (l : list FileEntry) (t : Z) (fe : FileEntry) (raw : list byte) :
  (fe, raw) ∈ kept l t -> fe ∈ l /\ read_bytes fs (fe_path fe) = Ok raw.
Proof.
  revert t. induction l as [|x l IH]; intros t; cbn [included_files].
  - by intros ?%elem_of_nil.
  - destruct (verdict_of t x) as [e|raw'|raw'|raw'] eqn:E.
    + intros [??]%IH. split; [by right|done].
    + intros [??]%IH. split; [by right|done].
    + by intros ?%elem_of_nil.
    + intros [H|H]%elem_of_cons.
      * injection H as -> ->. split; [by left|].
        eapply classify_read; eauto.
      * apply IH in H as [??]. split; [by right|done].
Qed.

Lemma bundle_loop_warnings_grow (l : list FileEntry) (s : bstate) :
  exists ws, warnings (loop l s) = warnings s ++ ws.
Proof.
  revert s. induction l as [|x l IH]; intros s.
  - exists []. by rewrite app_nil_r.
  - rewrite bundle_loop_cons.
    destruct (verdict_of (total s) x) as [e|raw|raw|raw].
    + destruct (IH (warn s (warn_read_error x e))) as [ws ->].
      cbn [warn warnings]. rewrite <- app_assoc. eauto.
    + destruct (IH (warn s (warn_too_big x (PyStr.len raw) max_file_bytes))) as [ws ->].
      cbn [warn warnings]. rewrite <- app_assoc. eauto.
    + cbn [warn warnings]. eauto.
    + destruct (IH (add_file s x raw)) as [ws ->]. cbn [include_file warnings]. eauto.
Qed.

Lemma bundle_loop_warnings_keep (l : list FileEntry) (s : bstate) (w : string) :
  w ∈ warnings s -> w ∈ warnings (loop l s).
Proof.
  intros H. destruct (bundle_loop_warnings_grow l s) as [ws ->].
  apply elem_of_app. by left.
Qed.

(** Every entry given to the loop is included, or named by a warning of
    its own, or comes at or after the entry named by the stop warning. *)
Lemma entry_fate (l : list FileEntry) (s : bstate) (fe : FileEntry) :
  fe ∈ l ->
  (exists raw, (fe, raw) ∈ kept l (total s))
  \/ (exists e, warn_read_error fe e ∈ warnings (loop l s))
  \/ (exists raw, warn_too_big fe (PyStr.len raw) max_file_bytes ∈ warnings (loop l s))
  \/ (exists stop pre post,
        l = pre ++ stop :: post /\ fe ∈ stop :: post
        /\ warn_stopped stop max_total_bytes ∈ warnings (loop l s)).
Proof.
  revert s. induction l as [|x l IH]; intros s Hin; [by apply elem_of_nil in Hin|].
  rewrite bundle_loop_cons. cbn [included_files].
  destruct (verdict_of (total s) x) as [e|raw|raw|raw] eqn:E.
  - apply elem_of_cons in Hin as [->|Hin].
    + right; left. exists e. apply bundle_loop_warnings_keep.
      cbn [warn warnings]. apply elem_of_app. right. by left.
    + destruct (IH (warn s (warn_read_error x e)) Hin)
        as [H|[H|[H|(stop & pre & post & -> & H1 & H2)]]]; eauto.
      do 3 right. exists stop, (x :: pre), post. eauto.
  - apply elem_of_cons in Hin as [->|Hin].
    + right; right; left. exists raw. apply bundle_loop_warnings_keep.
      cbn [warn warnings]. apply elem_of_app. right. by left.
    + destruct (IH (warn s (warn_too_big x (PyStr.len raw) max_file_bytes)) Hin)
        as [H|[H|[H|(stop & pre & post & -> & H1 & H2)]]]; eauto.
      do 3 right. exists stop, (x :: pre), post. eauto.
  - do 3 right. exists x, [], l. split; [done|]. split; [done|].
    cbn [warn warnings]. apply elem_of_app. right. by left.
  - apply elem_of_cons in Hin as [->|Hin].
    + left. exists raw. by left.
    + destruct (IH (add_file s x raw) Hin)
        as [[raw' H]|[H|[H|(stop & pre & post & -> & H1 & H2)]]]; eauto.
      * left. exists raw'. by right.
      * do 3 right. exists stop, (x :: pre), post. eauto.
Qed.

(** Every warning is one of the three warnings of the loop, about an entry
    given to it. *)
Lemma warning_origin (l : list FileEntry) (s : bstate) (w : string) :
  w ∈ warnings (loop l s) ->
  w ∈ warnings s
  \/ exists fe, fe ∈ l
      /\ ((exists e, read_bytes fs (fe_path fe) = Raise e /\ w = warn_read_error fe e)
          \/ (exists raw, read_bytes fs (fe_path fe) = Ok raw
                /\ w = warn_too_big fe (PyStr.len raw) max_file_bytes)
          \/ w = warn_stopped fe max_total_bytes).
Proof.
  revert s. induction l as [|x l IH]; intros s; [by left|].
  rewrite bundle_loop_cons.
  assert (Hmore : forall fe, fe ∈ l -> fe ∈ x :: l) by (intros; by right).
  destruct (verdict_of (total s) x) as [e|raw|raw|raw] eqn:E.
  - intros [H|(fe & Hfe & H)]%IH.
    + cbn [warn warnings] in H. apply elem_of_app in H as [H|H]; [by left|].
      apply list_elem_of_singleton in H as ->. right. exists x. split; [by left|].
      left. exists e. split; [|done].
      unfold classify in E. destruct (read_bytes fs (fe_path x)) as [r|e']; [|congruence].
      destruct ((0 <? max_file_bytes) && (max_file_bytes <? PyStr.len r)); [done|].
      by destruct ((0 <? max_total_bytes) && (max_total_bytes <? total s + PyStr.len r)).
    + right. exists fe. eauto.
  - intros [H|(fe & Hfe & H)]%IH.
    + cbn [warn warnings] in H. apply elem_of_app in H as [H|H]; [by left|].
      apply list_elem_of_singleton in H as ->. right. exists x. split; [by left|].
      right; left. exists raw. split; [|done]. eapply classify_read; eauto.
    + right. exists fe. eauto.
  - cbn [warn warnings]. intros [H|H]%elem_of_app; [by left|].
    apply list_elem_of_singleton in H as ->. right. exists x. split; [by left|]. eauto.
  - intros [H|(fe & Hfe & H)]%IH; [by left|]. right. exists fe. eauto.
Qed.

(** *** Order of the output *)

Lemma included_files_sorted (R : relation FileEntry) (l : list FileEntry) (t : Z) :
  StronglySorted R l -> StronglySorted R (kept l t).*1.
Proof.
  intros H. revert t. induction H as [|x l Hl IH Hx]; intros t; [constructor|].
  cbn [included_files]. destruct (verdict_of t x) as [e|raw|raw|raw]; try apply IH.
  - constructor.
  - cbn [fmap list_fmap fst]. constructor; [apply IH|].
    rewrite Forall_forall in Hx. apply Forall_forall. intros y Hy.
    apply list_elem_of_fmap in Hy as ([y' raw'] & -> & Hy).
    apply included_files_elem in Hy as [Hy _]. by apply Hx.
Qed.

Lemma blocks_text_app (l1 l2 : list (FileEntry * list byte)) :
  text_of (l1 ++ l2) = text_of l1 +:+ text_of l2.
Proof.
  induction l1 as [|x l1 IH]; [done|].
  cbn [app blocks_text foldr]. fold (text_of (l1 ++ l2)) (text_of l1).
  by rewrite IH, append_assoc.
Qed.

Lemma StronglySorted_pair (R : relation FileEntry) (l1 l2 l3 : list FileEntry)
      (a b : FileEntry) :
  StronglySorted R (l1 ++ a :: l2 ++ b :: l3) -> R a b.
Proof.
  intros H. apply StronglySorted_app_1_r in H.
  apply StronglySorted_cons in H as [H _].
  rewrite Forall_forall in H. apply H, elem_of_app. right. by left.
Qed.

(** The block of an included file is part of the text, between the blocks
    of the files included before and after it. *)
Lemma included_block_in_text
      (generated_iso : string) (entries : list FileEntry)
      (fe : FileEntry) (raw : list byte) :
  let ordered := sorted (sort_key lower) entries in
  (fe, raw) ∈ kept ordered 0 ->
  exists l1 l2,
    kept ordered 0 = l1 ++ (fe, raw) :: l2
    /\ (bundle lower sha256_hexdigest isoformat_utc fs max_file_bytes max_total_bytes
               generated_iso entries).1
       = INTRO_TEMPLATE generated_iso (roots_line ordered)
           (Z.of_nat (length (kept ordered 0))) (sum_raw (kept ordered 0))
         +:+ PyStr.lf +:+ text_of l1
         +:+ render_block lower sha256_hexdigest isoformat_utc fe raw +:+ text_of l2.
Proof.
  intros ordered Hin.
  destruct (list_elem_of_split _ _ Hin) as (l1 & l2 & Hsplit).
  exists l1, l2. split; [done|].
  rewrite bundle_text. cbn [fst]. fold ordered.
  rewrite Hsplit at 3. rewrite blocks_text_app. done.
Qed.

(** C4, amended: the bundler sorts all candidates by the lower-cased
    relative-path string before processing, and the blocks of any two
    included files appear in ascending order of that key.  Candidates with
    the same key keep the order in which they were given, so the output is
    the same for every arrangement of the same candidates when no two of
    them have the same key. *)
Theorem output_order_by_sort_key (generated_iso : string) (entries : list FileEntry) :
  let ordered := sorted (sort_key lower) entries in
  let inc := kept ordered 0 in
  let run := bundle lower sha256_hexdigest isoformat_utc fs
                    max_file_bytes max_total_bytes generated_iso in
  (ordered ≡ₚ entries /\ StronglySorted (key_le (sort_key lower)) ordered)
  /\ (run entries).1
     = INTRO_TEMPLATE generated_iso (roots_line ordered)
         (Z.of_nat (length inc)) (sum_raw inc) +:+ PyStr.lf +:+ text_of inc
  /\ (forall l1 l2 l3 a b,
        inc.*1 = l1 ++ a :: l2 ++ b :: l3 ->
        String.leb (sort_key lower a) (sort_key lower b) = true)
  /\ (forall k,
        List.filter (fun e => String.eqb (sort_key lower e) k) ordered
        = List.filter (fun e => String.eqb (sort_key lower e) k) entries)
  /\ (forall entries',
        entries' ≡ₚ entries -> NoDup (sort_key lower <$> entries) ->
        run entries' = run entries).
Proof.
  intros ordered inc run.
  split; [split; [apply sorted_perm | apply sorted_sorted]|].
  split; [by unfold run; rewrite bundle_text|].
  split; [|split].
  - intros l1 l2 l3 a b Hsplit.
    pose proof (included_files_sorted (key_le (sort_key lower)) ordered 0
                  (sorted_sorted _ entries)) as Hs.
    fold inc in Hs. rewrite Hsplit in Hs. by apply StronglySorted_pair in Hs.
  - intros k. apply sorted_stable.
  - intros entries' Hp Hnd. unfold run, bundle, bundle_state.
    by rewrite (sorted_permutation_invariant (sort_key lower) entries entries').
Qed.

(** C5: for every included file, the bytes hashed are the bytes read from
    disk: the header of its block carries [sha256] = the digest of the raw
    bytes and [size] = their number, whatever the decoding and the newline
    normalisation do to the body. *)
Theorem header_digest_of_raw_bytes
        (generated_iso : string) (entries : list FileEntry)
        (fe : FileEntry) (raw : list byte) :
  let ordered := sorted (sort_key lower) entries in
  let lang := infer_lang lower (PyPath.suffix (fe_path fe)) in
  let header :=
    "<<<FILE "
    +:+ PyStr.join " " [
          quoted_field "path" (PyStr.replace (PyPath.str_rel (fe_rel fe)) "\" "/");
          quoted_field "abspath" (PyPath.str_abs (fe_path fe));
          "size=" +:+ PyStr.of_int (Z.of_nat (length raw));
          quoted_field "mtime" (isoformat_utc (fe_mtime fe));
          "sha256=" +:+ dquote +:+ sha256_hexdigest raw +:+ dquote;
          quoted_field "lang" lang ]
    +:+ ">>>" +:+ PyStr.lf in
  (fe, raw) ∈ kept ordered 0 ->
  read_bytes fs (fe_path fe) = Ok raw
  /\ render_block lower sha256_hexdigest isoformat_utc fe raw
     = HEADER_LINE +:+ PyStr.lf +:+ header
       +:+ "```" +:+ lang +:+ PyStr.lf +:+ body_text raw
       +:+ "```" +:+ PyStr.lf +:+ "<<<END FILE>>>" +:+ PyStr.lf
       +:+ HEADER_LINE +:+ PyStr.lf +:+ PyStr.lf
  /\ exists l1 l2,
       kept ordered 0 = l1 ++ (fe, raw) :: l2
       /\ (bundle lower sha256_hexdigest isoformat_utc fs max_file_bytes max_total_bytes
                  generated_iso entries).1
          = INTRO_TEMPLATE generated_iso (roots_line ordered)
              (Z.of_nat (length (kept ordered 0))) (sum_raw (kept ordered 0))
            +:+ PyStr.lf +:+ text_of l1
            +:+ render_block lower sha256_hexdigest isoformat_utc fe raw +:+ text_of l2.
Proof.
  intros ordered lang header Hin.
  split; [by apply included_files_elem in Hin as [_ ?]|].
  split; [|by apply included_block_in_text].
  unfold render_block. fold lang.
  assert ((if decide (lang = EmptyString) then EmptyString else lang) = lang) as ->
    by (by destruct (decide (lang = EmptyString)) as [->|]).
  reflexivity.
Qed.


End BundleFacts.

(** ** The classifier *)

Lemma has_nul_spec (chunk : list byte) : has_nul chunk = true <-> x00 ∈ chunk.
Proof.
  unfold has_nul. rewrite existsb_exists. split.
  - intros (b & Hin & Hb). apply Byte.byte_dec_bl in Hb as <-.
    by apply list_elem_of_In.
  - intros Hin. exists x00. split; [by apply list_elem_of_In|done].
Qed.

Lemma file_read_take (content : list byte) (n : Z) :
  0 <= n -> file_read content n = take (Z.to_nat n) content.
Proof. intros Hn. unfold file_read. by assert ((n <? 0) = false) as -> by lia. Qed.

(** C7: the classifier looks at no more than the first [sample_size] bytes
    of the file (1024 by default) and answers [false] exactly when that
    sample holds a NUL byte or the file cannot be opened or read; the
    exception of a failed read ends in the answer [false], never in a
    raised exception. *)
Theorem classifier_rejects_nul_or_unreadable
        (fs : node) (p : Path) (sample_size : Z) :
  0 <= sample_size ->
  (forall content,
      file_read content sample_size = take (Z.to_nat sample_size) content
      /\ PyStr.len (file_read content sample_size) <= sample_size)
  /\ (forall fs' content content',
        read_bytes fs p = Ok content -> read_bytes fs' p = Ok content' ->
        take (Z.to_nat sample_size) content = take (Z.to_nat sample_size) content' ->
        is_text_file fs p sample_size = is_text_file fs' p sample_size)
  /\ (is_text_file fs p sample_size = false <->
        (exists e, read_bytes fs p = Raise e)
        \/ (exists content,
              read_bytes fs p = Ok content
              /\ x00 ∈ take (Z.to_nat sample_size) content))
  /\ (forall e, is_text_file_try fs p sample_size = Raise e ->
                is_text_file fs p sample_size = false)
  /\ default_sample_size = 1024.
Proof.
  intros Hn.
  assert (Hlen : (sample_size <? -1) = false) by lia.
  split; [|split; [|split; [|split]]].
  - intros content. rewrite file_read_take by done. split; [done|].
    unfold PyStr.len. rewrite length_take. lia.
  - intros fs' content content' H1 H2 Heq.
    unfold is_text_file, is_text_file_try. rewrite H1, H2, Hlen.
    by rewrite !file_read_take, Heq by done.
  - unfold is_text_file, is_text_file_try.
    destruct (read_bytes fs p) as [content|e].
    + rewrite Hlen, file_read_take by done.
      destruct (has_nul (take (Z.to_nat sample_size) content)) eqn:E.
      * apply has_nul_spec in E. split; [|done]. intros _. right. eauto.
      * split; [done|]. intros [[e He]|(c & Hc & Hin)]; [done|].
        injection Hc as <-. apply has_nul_spec in Hin. congruence.
    + split; [|done]. intros _. left. eauto.
  - intros e He. unfold is_text_file. by rewrite He.
  - reflexivity.
Qed.

(** ** The matcher *)

Section MatcherFacts.
Variable fnmatch : string -> string -> bool.
Variable abspath : string -> string.

Local Abbreviation matches := (matches_any fnmatch abspath).
Local Abbreviation hits := (pattern_matches fnmatch abspath).

(** The loop of [matches_any] is a disjunction over the patterns. *)
Lemma matches_any_existsb (name : string) (patterns : list string) :
  matches name patterns = existsb (fun pat => hits pat name) patterns.
Proof.
  induction patterns as [|pat rest IH]; [done|].
  cbn [matches_any existsb]. unfold pattern_matches. rewrite IH.
  destruct (PyStr.startswith pat "/").
  - by destruct (PyStr.startswith (abspath name) (abspath pat)).
  - by destruct (fnmatch name pat).
Qed.

Lemma matches_any_iff (name : string) (patterns : list string) :
  matches name patterns = true <-> exists pat, pat ∈ patterns /\ hits pat name = true.
Proof.
  rewrite matches_any_existsb, existsb_exists.
  split; intros (pat & Hin & H); exists pat; (split; [by apply list_elem_of_In|done]).
Qed.

Lemma matches_any_perm (name : string) (patterns patterns' : list string) :
  patterns ≡ₚ patterns' -> matches name patterns = matches name patterns'.
Proof.
  intros Hp. apply eq_true_iff_eq. rewrite !matches_any_iff.
  split; intros (pat & Hin & H); exists pat; (split; [|done]).
  - by rewrite <- Hp.
  - by rewrite Hp.
Qed.

Section WalkPerm.
Variable fs : node.
Variable include_hidden : bool.
Variables patterns patterns' : list string.
Hypothesis Hperm : patterns ≡ₚ patterns'.

Lemma walk_file_perm (top sub : Path) (f : string) (st : stat_result) :
  walk_file fnmatch abspath fs patterns include_hidden top sub f st
  = walk_file fnmatch abspath fs patterns' include_hidden top sub f st.
Proof.
  unfold walk_file.
  by rewrite (matches_any_perm f _ _ Hperm), (matches_any_perm (PyPath.str_abs _) _ _ Hperm).
Qed.

Lemma pruned_perm (top sub : Path) (d : string) :
  pruned fnmatch abspath patterns include_hidden top sub d
  = pruned fnmatch abspath patterns' include_hidden top sub d.
Proof.
  unfold pruned.
  by rewrite (matches_any_perm d _ _ Hperm), (matches_any_perm (PyPath.str_abs _) _ _ Hperm).
Qed.

Lemma walk_dir_perm (n : node) (top sub : Path) :
  walk_dir fnmatch abspath fs patterns include_hidden top sub n
  = walk_dir fnmatch abspath fs patterns' include_hidden top sub n.
Proof.
  revert top sub. induction n as [content st|es IH] using node_induction;
    intros top sub; [done|].
  cbn [walk_dir]. f_equal.
  - clear IH. induction es as [|[f c] es IHes]; [done|].
    cbn [flat_map fst snd]. rewrite IHes. f_equal.
    destruct c; [apply walk_file_perm|done].
  - induction IH as [|[d c] es Hc _ IHes]; [done|].
    cbn [flat_map fst snd] in *. rewrite IHes. f_equal.
    destruct c as [|es']; [done|].
    rewrite pruned_perm. destruct (pruned _ _ _ _ _ _ _); [done|].
    apply Hc.
Qed.

Lemma walk_inputs_perm (paths : list Path) :
  walk_inputs fnmatch abspath fs patterns include_hidden paths
  = walk_inputs fnmatch abspath fs patterns' include_hidden paths.
Proof.
  unfold walk_inputs. induction paths as [|p paths IH]; [done|].
  cbn [flat_map]. rewrite IH. f_equal.
  unfold walk_input. destruct (fs_lookup fs p) as [[content st|es]|]; [|apply walk_dir_perm|done].
  by rewrite (matches_any_perm (PyPath.name p) _ _ Hperm),
             (matches_any_perm (PyPath.str_abs p) _ _ Hperm).
Qed.

End WalkPerm.

(** C8: the patterns act as a set.  Reordering them changes neither the
    answer of the matcher nor the candidates the traverser yields, and a
    name and full path are excluded exactly when some pattern matches the
    name or matches the full path. *)
Theorem exclusion_is_order_free :
  (forall name patterns patterns',
      patterns ≡ₚ patterns' -> matches name patterns = matches name patterns')
  /\ (forall fs include_hidden paths patterns patterns',
        patterns ≡ₚ patterns' ->
        walk_inputs fnmatch abspath fs patterns include_hidden paths
        = walk_inputs fnmatch abspath fs patterns' include_hidden paths)
  /\ (forall name full patterns,
        matches name patterns || matches full patterns = true
        <-> exists pat, pat ∈ patterns
                        /\ (hits pat name = true \/ hits pat full = true))
  /\ (forall fs include_hidden patterns top sub f st,
        matches f patterns
        || matches (PyPath.str_abs (top ++ sub ++ [f])) patterns = true ->
        walk_file fnmatch abspath fs patterns include_hidden top sub f st = []
        /\ pruned fnmatch abspath patterns include_hidden top sub f = true).
Proof.
  split; [apply matches_any_perm|].
  split; [intros; by apply walk_inputs_perm|].
  split.
  - intros name full patterns. rewrite orb_true_iff, !matches_any_iff. split.
    + intros [(pat & ? & ?)|(pat & ? & ?)]; exists pat; eauto.
    + intros (pat & ? & [?|?]); [left|right]; exists pat; eauto.
  - intros fs include_hidden patterns top sub f st H. unfold walk_file, pruned.
    rewrite H. split; [by destruct (negb include_hidden && dotted f)|].
    rewrite <- orb_assoc, H. apply orb_true_r.
Qed.

End MatcherFacts.

(** ** The traverser at its inputs *)

Section WalkFacts.
Variable fnmatch : string -> string -> bool.
Variable abspath : string -> string.
Variable fs : node.
Variable ex_patterns : list string.

Local Abbreviation matches := (matches_any fnmatch abspath).
Local Abbreviation walk_one := (walk_input fnmatch abspath fs ex_patterns).
Local Abbreviation below := (walk_dir fnmatch abspath fs ex_patterns).

(** The entry the traverser builds for the file [f] found in [top/sub]. *)
Lemma walk_file_yields (include_hidden : bool) (top sub : Path) (f : string)
      (st : stat_result) :
  (negb include_hidden && dotted f) = false ->
  matches f ex_patterns = false ->
  matches (PyPath.str_abs (top ++ sub ++ [f])) ex_patterns = false ->
  is_text_file fs (top ++ sub ++ [f]) default_sample_size = true ->
  walk_file fnmatch abspath fs ex_patterns include_hidden top sub f st
  = [ {| fe_root := top; fe_path := top ++ sub ++ [f]; fe_rel := sub ++ [f];
         fe_size := st_size st; fe_mtime := st_mtime st |} ].
Proof. intros H1 H2 H3 H4. unfold walk_file. by rewrite H1, H2, H3, H4. Qed.

Lemma walk_dir_file (include_hidden : bool) (top sub : Path)
      (es : list (string * node)) (f : string)
      (content : result (list byte)) (st : stat_result) (fe : FileEntry) :
  (f, File content st) ∈ es ->
  fe ∈ walk_file fnmatch abspath fs ex_patterns include_hidden top sub f st ->
  fe ∈ below include_hidden top sub (Dir es).
Proof.
  intros Hin Hfe. cbn [walk_dir]. apply elem_of_app. left.
  apply list_elem_of_In, in_flat_map. exists (f, File content st).
  split; [by apply list_elem_of_In|]. by apply list_elem_of_In.
Qed.

(** What passes the tests made on a name below an input directory. *)
Local Abbreviation passes hidden :=
  (fun s : string => (negb hidden && dotted s) = false
                     /\ matches s ex_patterns = false).

Lemma walk_file_elem (include_hidden : bool) (top sub : Path) (f : string)
      (st : stat_result) (fe : FileEntry) :
  fe ∈ walk_file fnmatch abspath fs ex_patterns include_hidden top sub f st ->
  fe = {| fe_root := top; fe_path := top ++ sub ++ [f]; fe_rel := sub ++ [f];
          fe_size := st_size st; fe_mtime := st_mtime st |}
  /\ passes include_hidden f
  /\ matches (PyPath.str_abs (top ++ sub ++ [f])) ex_patterns = false
  /\ is_text_file fs (top ++ sub ++ [f]) default_sample_size = true.
Proof.
  unfold walk_file.
  destruct (negb include_hidden && dotted f); [by intros ?%elem_of_nil|].
  destruct (matches f ex_patterns); [by intros ?%elem_of_nil|].
  destruct (matches (PyPath.str_abs _) ex_patterns); [by intros ?%elem_of_nil|].
  destruct (is_text_file _ _ _); [|by intros ?%elem_of_nil].
  intros ->%list_elem_of_singleton. done.
Qed.

(** Every entry found below [top/sub]: its relative path goes through
    [sub], and every name after [sub] passed the tests. *)
Lemma walk_dir_elem (include_hidden : bool) (n : node) (top sub : Path) (fe : FileEntry) :
  fe ∈ below include_hidden top sub n ->
  exists tail,
    tail <> []
    /\ fe_root fe = top /\ fe_rel fe = sub ++ tail /\ fe_path fe = top ++ sub ++ tail
    /\ Forall (passes include_hidden) tail
    /\ matches (PyPath.str_abs (fe_path fe)) ex_patterns = false
    /\ is_text_file fs (fe_path fe) default_sample_size = true.
Proof.
  revert sub. induction n as [content st|es IH] using node_induction; intros sub.
  { by intros ?%elem_of_nil. }
  cbn [walk_dir]. intros [Hin|Hin]%elem_of_app.
  - apply list_elem_of_In, in_flat_map in Hin as ([f c] & _ & Hfe).
    cbn [fst snd] in Hfe. destruct c as [content st|]; [|done].
    apply list_elem_of_In, walk_file_elem in Hfe as (-> & Hpass & Hm & Htext).
    exists [f]. cbn [fe_root fe_rel fe_path]. repeat split; try done.
    by apply Forall_singleton.
  - apply list_elem_of_In, in_flat_map in Hin as ([d c] & Hc & Hfe).
    cbn [fst snd] in Hfe. destruct c as [|es']; [done|].
    destruct (pruned _ _ _ _ _ _ d) eqn:Hp; [done|].
    rewrite Forall_forall in IH.
    apply list_elem_of_In in Hc, Hfe.
    destruct (IH _ Hc _ Hfe) as (tail & Hne & Hroot & Hrel & Hpath & Hall & Hm & Ht).
    exists (d :: tail). rewrite <- !app_assoc in Hrel, Hpath.
    repeat split; try done.
    apply Forall_cons. split; [|done].
    unfold pruned in Hp. rewrite !orb_false_iff in Hp. tauto.
Qed.

(** Every name between [top/sub] and an entry found below it passed the
    tests on its name and on its full path: nothing is found below a name
    that fails one. *)
Lemma walk_dir_names (include_hidden : bool) (n : node) (top sub : Path) (fe : FileEntry)
      (before : Path) (s : string) (after : Path) :
  fe ∈ below include_hidden top sub n ->
  fe_rel fe = sub ++ before ++ s :: after ->
  passes include_hidden s
  /\ matches (PyPath.str_abs (top ++ sub ++ before ++ [s])) ex_patterns = false.
Proof.
  revert sub before. induction n as [content st|es IH] using node_induction;
    intros sub before.
  { by intros ?%elem_of_nil. }
  cbn [walk_dir]. intros [Hin|Hin]%elem_of_app Hrel.
  - apply list_elem_of_In, in_flat_map in Hin as ([f c] & _ & Hfe).
    cbn [fst snd] in Hfe. destruct c as [content st|]; [|done].
    apply list_elem_of_In, walk_file_elem in Hfe as (-> & Hpass & Hm & _).
    cbn [fe_rel] in Hrel. apply app_inv_head in Hrel.
    destruct before as [|b before].
    + injection Hrel as <- <-. done.
    + injection Hrel as _ Hrel. by destruct before.
  - apply list_elem_of_In, in_flat_map in Hin as ([d c] & Hc & Hfe).
    cbn [fst snd] in Hfe. destruct c as [|es']; [done|].
    destruct (pruned _ _ _ _ _ _ d) eqn:Hp; [done|].
    apply list_elem_of_In in Hfe.
    destruct (walk_dir_elem _ _ _ _ _ Hfe) as (tail & Hne & _ & Hrel' & _).
    rewrite Hrel', <- app_assoc in Hrel. apply app_inv_head in Hrel.
    destruct before as [|b before].
    + injection Hrel as <- _.
      unfold pruned in Hp. rewrite !orb_false_iff in Hp. tauto.
    + injection Hrel as <- Htail.
      rewrite Forall_forall in IH. apply list_elem_of_In in Hc.
      specialize (IH _ Hc (sub ++ [d]) before Hfe).
      rewrite <- !app_assoc in IH. apply IH.
      by rewrite Hrel', Htail, <- app_assoc.
Qed.

(** A file reached from [top/sub] through names that all pass the tests
    is found. *)
Lemma walk_dir_reaches (include_hidden : bool) (rel : Path) :
  forall (es : list (string * node)) (top sub : Path)
         (content : result (list byte)) (st : stat_result),
    reaches (Dir es) rel (File content st) ->
    (forall before s after,
        rel = before ++ s :: after ->
        passes include_hidden s
        /\ matches (PyPath.str_abs (top ++ sub ++ before ++ [s])) ex_patterns = false) ->
    is_text_file fs (top ++ sub ++ rel) default_sample_size = true ->
    {| fe_root := top; fe_path := top ++ sub ++ rel; fe_rel := sub ++ rel;
       fe_size := st_size st; fe_mtime := st_mtime st |}
    ∈ below include_hidden top sub (Dir es).
Proof.
  induction rel as [|s rel IH]; intros es top sub content st Hreach Hpass Htext;
    [done|].
  cbn [reaches] in Hreach. destruct Hreach as (c & Hc & Hreach).
  destruct (Hpass [] s rel eq_refl) as ([Hdot Hname] & Hfull).
  change ([] ++ [s]) with [s] in Hfull.
  destruct rel as [|s' rel].
  - cbn [reaches] in Hreach. subst c.
    eapply walk_dir_file; [exact Hc|].
    rewrite walk_file_yields; [by left|done..].
  - destruct c as [|es']; [done|].
    cbn [walk_dir]. apply elem_of_app. right.
    apply list_elem_of_In, in_flat_map. exists (s, Dir es').
    split; [by apply list_elem_of_In|]. cbn [fst snd].
    assert (pruned fnmatch abspath ex_patterns include_hidden top sub s = false) as ->.
    { unfold pruned. by rewrite Hdot, Hname, Hfull. }
    apply list_elem_of_In.
    specialize (IH es' top (sub ++ [s]) content st Hreach).
    rewrite <- !app_assoc in IH. apply IH; [|done].
    intros before s0 after Hsplit. rewrite <- app_assoc.
    apply (Hpass (s :: before) s0 after). by rewrite Hsplit.
Qed.

(** C10: with [include_hidden] false, an input that is a regular file is
    skipped when any segment of its resolved path starts with a dot, and
    yielded when none does (no pattern matching its name or path, and the
    file being text).  An input that is a directory is walked without any
    test of its own name or path: the hidden and exclusion tests are made
    on the names strictly below it, at every depth.  Every entry yielded
    has a relative path in which no name is hidden or excluded, so nothing
    is yielded from below a hidden or excluded name; and every text file
    reached through names that pass the tests is yielded, whatever the
    segments of the input path are. *)
Theorem hidden_rule_at_input_boundary (p : Path) :
  (forall content st,
      fs_lookup fs p = Some (File content st) ->
      (existsb dotted p = true -> walk_one false p = [])
      /\ (existsb dotted p = false ->
          matches (PyPath.name p) ex_patterns = false ->
          matches (PyPath.str_abs p) ex_patterns = false ->
          is_text_file fs p default_sample_size = true ->
          walk_one false p
          = [ {| fe_root := PyPath.parent p; fe_path := p; fe_rel := [PyPath.name p];
                 fe_size := st_size st; fe_mtime := st_mtime st |} ]))
  /\ (forall es,
        fs_lookup fs p = Some (Dir es) ->
        (forall fe,
            fe ∈ walk_one false p ->
            fe_root fe = p /\ fe_rel fe <> [] /\ fe_path fe = p ++ fe_rel fe
            /\ is_text_file fs (fe_path fe) default_sample_size = true
            /\ (forall before s after,
                  fe_rel fe = before ++ s :: after ->
                  dotted s = false
                  /\ matches s ex_patterns = false
                  /\ matches (PyPath.str_abs (p ++ before ++ [s])) ex_patterns = false))
        /\ (forall rel content st,
              reaches (Dir es) rel (File content st) ->
              (forall before s after,
                  rel = before ++ s :: after ->
                  dotted s = false
                  /\ matches s ex_patterns = false
                  /\ matches (PyPath.str_abs (p ++ before ++ [s])) ex_patterns = false) ->
              is_text_file fs (p ++ rel) default_sample_size = true ->
              {| fe_root := p; fe_path := p ++ rel; fe_rel := rel;
                 fe_size := st_size st; fe_mtime := st_mtime st |} ∈ walk_one false p)).
Proof.
  split.
  - intros content st Hp. split.
    + intros Hdot. unfold walk_input. by rewrite Hp, Hdot.
    + intros Hdot Hname Hfull Htext. unfold walk_input.
      by rewrite Hp, Hdot, Hname, Hfull, Htext.
  - intros es Hp. split.
    + intros fe Hfe. unfold walk_input in Hfe. rewrite Hp in Hfe.
      destruct (walk_dir_elem _ _ _ _ _ Hfe)
        as (tail & Hne & Hroot & Hrel & Hpath & _ & _ & Htext).
      cbn [app] in Hrel, Hpath. rewrite Hrel.
      split; [done|]. split; [done|]. split; [done|]. split; [done|].
      intros before s after Hsplit.
      destruct (walk_dir_names false (Dir es) p [] fe before s after Hfe) as ([H1 H2] & H3).
      { by rewrite Hrel, Hsplit. }
      done.
    + intros rel content st Hreach Hpass Htext.
      unfold walk_input. rewrite Hp.
      apply (walk_dir_reaches false rel es p [] content st Hreach); [|done].
      intros before s after Hsplit.
      destruct (Hpass before s after Hsplit) as (H1 & H2 & H3). done.
Qed.

End WalkFacts.

(** ** The whole run *)

Section RunFacts.
Variable lower : string -> string.
Variable strip : string -> string.
Variable fnmatch : string -> string -> bool.
Variable abspath : string -> string.
Variable sha256_hexdigest : list byte -> string.
Variable isoformat_utc : Z -> string.
Variable fs : node.
Variable ex_patterns : list string.
Variable include_hidden : bool.
Variables max_file_bytes max_total_bytes : Z.

Local Abbreviation run :=
  (main lower strip fnmatch abspath sha256_hexdigest isoformat_utc fs ex_patterns
        include_hidden max_file_bytes max_total_bytes).

Lemma main_bundled (generated_iso : string) (roots : list Path) (exts : list string)
      (text : string) (warns : list string) :
  run generated_iso roots exts = Bundled text warns ->
  let candidates :=
    filter_by_ext lower strip
      (walk_inputs fnmatch abspath fs ex_patterns include_hidden roots) (Some exts) in
  (text, warns)
  = bundle lower sha256_hexdigest isoformat_utc fs max_file_bytes max_total_bytes
           generated_iso candidates.
Proof.
  unfold main. destruct (List.find _ roots); [done|].
  destruct (filter_by_ext _ _ _ _) as [|fe rest] eqn:E; [done|].
  intros H. injection H as <- <-. reflexivity.
Qed.

(** C3, amended: every candidate handed to the bundler has its block in
    the text of the result, between the blocks of the files written before
    and after it and counted in the preamble, or has a warning that names
    it (read error, per-file limit, or the stop at the total budget), or
    comes after the candidate named by the stop warning, which stands for
    all that follow it.  Every warning is one of these three, about a
    candidate handed to the bundler: what the classifier, the hidden rule,
    the exclusion patterns and the extension filter drop is dropped
    without a warning. *)
Theorem dropped_candidates_and_warnings
        (generated_iso : string) (roots : list Path) (exts : list string)
        (text : string) (warns : list string) :
  run generated_iso roots exts = Bundled text warns ->
  let candidates :=
    filter_by_ext lower strip
      (walk_inputs fnmatch abspath fs ex_patterns include_hidden roots) (Some exts) in
  let ordered := sorted (sort_key lower) candidates in
  let block := render_block lower sha256_hexdigest isoformat_utc in
  let blocks := blocks_text lower sha256_hexdigest isoformat_utc in
  (forall fe, fe ∈ candidates ->
      (exists raw before after,
          read_bytes fs (fe_path fe) = Ok raw
          /\ text
             = INTRO_TEMPLATE generated_iso (roots_line ordered)
                 (Z.of_nat (length (before ++ (fe, raw) :: after)))
                 (sum_raw (before ++ (fe, raw) :: after))
               +:+ PyStr.lf +:+ blocks before +:+ block fe raw +:+ blocks after)
      \/ (exists e, warn_read_error fe e ∈ warns)
      \/ (exists raw, warn_too_big fe (PyStr.len raw) max_file_bytes ∈ warns)
      \/ (exists stop pre post,
            ordered = pre ++ stop :: post /\ fe ∈ stop :: post
            /\ warn_stopped stop max_total_bytes ∈ warns))
  /\ (forall w, w ∈ warns ->
        exists fe, fe ∈ candidates
          /\ ((exists e, read_bytes fs (fe_path fe) = Raise e /\ w = warn_read_error fe e)
              \/ (exists raw, read_bytes fs (fe_path fe) = Ok raw
                    /\ w = warn_too_big fe (PyStr.len raw) max_file_bytes)
              \/ w = warn_stopped fe max_total_bytes)).
Proof.
  intros Hrun candidates ordered block blocks.
  apply main_bundled in Hrun. fold candidates in Hrun.
  pose proof (bundle_text lower sha256_hexdigest isoformat_utc fs max_file_bytes
                max_total_bytes generated_iso candidates) as Htext.
  cbv zeta in Htext. fold ordered in Htext.
  rewrite Htext in Hrun. injection Hrun as Htxt ->.
  split.
  - intros fe Hfe.
    destruct (entry_fate lower sha256_hexdigest isoformat_utc fs max_file_bytes
                max_total_bytes ordered bundle_init fe) as [[raw Hin]|H].
    { unfold ordered. by rewrite sorted_perm. }
    + left. cbn [bundle_init total] in Hin.
      destruct (included_block_in_text lower sha256_hexdigest isoformat_utc fs
                  max_file_bytes max_total_bytes generated_iso candidates fe raw Hin)
        as (before & after & Hsplit & Hblock).
      exists raw, before, after. split.
      * by apply (included_files_elem fs max_file_bytes max_total_bytes ordered 0).
      * rewrite <- Hsplit. etrans; [|exact Hblock].
        rewrite Htext. exact Htxt.
    + right. exact H.
  - intros w Hw.
    apply warning_origin in Hw as [Hw|(fe & Hfe & H)].
    + by apply elem_of_nil in Hw.
    + exists fe. split; [|done]. unfold ordered in Hfe. by rewrite sorted_perm in Hfe.
Qed.

End RunFacts.

(** * The pipeline on the demo tree *)

Lemma demo_candidates :
  Demo.candidates = [Demo.b_entry; Demo.a_entry; Demo.notes_entry; Demo.main_entry].
Proof. reflexivity. Qed.

Lemma demo_sorted :
  sorted (sort_key Ascii_runtime.lower) Demo.candidates
  = [Demo.a_entry; Demo.b_entry; Demo.notes_entry; Demo.main_entry].
Proof. reflexivity. Qed.

Lemma demo_kept_all :
  Demo.kept 0 0 Demo.candidates
  = [(Demo.a_entry, Demo.a_py); (Demo.b_entry, Demo.b_txt);
     (Demo.notes_entry, Demo.notes); (Demo.main_entry, Demo.a_py)].
Proof. reflexivity. Qed.

(** C1 at work: with a budget of 25 bytes the files kept weigh 21 bytes;
    with no budget all four candidates are kept. *)
Lemma total_bytes_within_budget_witness :
  sum_raw (Demo.kept 0 25 Demo.candidates) <= 25
  /\ Demo.kept 0 0 Demo.candidates
     = within_file_limit Demo.tree 0 (sorted (sort_key Ascii_runtime.lower) Demo.candidates).
Proof.
  split.
  - refine (proj1 (proj2 (proj2
      (total_bytes_within_budget Ascii_runtime.lower Sha256.hexdigest
         Ascii_runtime.isoformat_utc Demo.tree 0 25 EmptyString Demo.candidates))) _).
    lia.
  - refine (proj2 (proj2 (proj2
      (total_bytes_within_budget Ascii_runtime.lower Sha256.hexdigest
         Ascii_runtime.isoformat_utc Demo.tree 0 0 EmptyString Demo.candidates))) _).
    lia.
Defined.



(** C2 as stated fails: with a per-file limit of 10 and a total budget of
    12, the first candidate [a.py] (15 bytes) would exceed the budget, yet
    it is skipped by the per-file limit with the warning of that limit, no
    stop warning is given, and the later candidate [b.txt] is included. *)
Lemma over_budget_but_skipped_by_file_limit :
  let entries := [Demo.a_entry; Demo.b_entry] in
  sorted (sort_key Ascii_runtime.lower) entries = Demo.a_entry :: [Demo.b_entry]
  /\ read_bytes Demo.tree (fe_path Demo.a_entry) = Ok Demo.a_py
  /\ 0 < 12 /\ 12 < 0 + PyStr.len Demo.a_py
  /\ (Demo.bundle 10 12 entries).2
     = [warn_too_big Demo.a_entry 15 10]
  /\ List.filter is_stop_warning (Demo.bundle 10 12 entries).2 = []
  /\ Demo.kept 10 12 entries = [(Demo.b_entry, Demo.b_txt)]
  /\ ~ (warn_stopped Demo.a_entry 12 ∈ (Demo.bundle 10 12 entries).2
        /\ Demo.kept 10 12 entries = []).
Proof.
  cbv zeta. repeat split; try (vm_compute; reflexivity).
  intros [_ H]. vm_compute in H. discriminate H.
Qed.

(** The amended C2 at work: budget 40, no per-file limit.  [a.py] and
    [b.txt] take 21 bytes, [notes.md] (20 bytes) stops the loop, and
    [src/Main.py] (15 bytes, which would fit) is left out as well. *)
Lemma budget_stop_halts_witness :
  List.filter is_stop_warning (Demo.bundle 0 40 Demo.candidates).2
  = [warn_stopped Demo.notes_entry 40]
  /\ Demo.kept 0 40 Demo.candidates = [(Demo.a_entry, Demo.a_py); (Demo.b_entry, Demo.b_txt)]
  /\ 21 + PyStr.len Demo.a_py <= 40.
Proof.
  pose proof (budget_stop_halts Ascii_runtime.lower Sha256.hexdigest
                Ascii_runtime.isoformat_utc Demo.tree 0 40 Demo.candidates
                [Demo.a_entry; Demo.b_entry] [Demo.main_entry]
                Demo.notes_entry Demo.notes) as H.
  cbv zeta in H.
  destruct H as (_ & Hwarn & Hkept & _).
  - lia.
  - reflexivity.
  - reflexivity.
  - lia.
  - intros p1 x p2 raw' Hsplit Hread _.
    destruct p1 as [|e1 [|e2 p1]].
    + injection Hsplit as <- <-. injection Hread as <-. vm_compute. discriminate.
    + injection Hsplit as <- <- <-. injection Hread as <-. vm_compute. discriminate.
    + exfalso. injection Hsplit as _ _ Hsplit. by destruct p1.
  - vm_compute. reflexivity.
  - split; [exact Hwarn|]. split; [|vm_compute; discriminate].
    etrans; [exact Hkept|]. reflexivity.
Defined.

(** C3 as stated fails: [/proj/logo.txt] is found in the input directory,
    is neither hidden nor excluded, has an allowed extension, and is
    dropped because the classifier rejects it; the run ends with no
    warning at all. *)
Lemma classifier_drop_is_silent :
  let logo_path := ["proj"; "logo.txt"] in
  fs_lookup Demo.tree logo_path = Some (File (Ok Demo.logo) (Demo.st 6 1700000200))
  /\ dotted "logo.txt" = false
  /\ matches_any Ascii_runtime.fnmatch Ascii_runtime.abspath "logo.txt" DEFAULT_EXCLUDES
     = false
  /\ matches_any Ascii_runtime.fnmatch Ascii_runtime.abspath
                 (PyPath.str_abs logo_path) DEFAULT_EXCLUDES = false
  /\ PyPath.suffix logo_path ∈ DEFAULT_EXTS
  /\ is_text_file Demo.tree logo_path default_sample_size = false
  /\ (exists text, Demo.run 250000 1500000 [["proj"]] = Bundled text [])
  /\ Forall (fun fe => fe_path fe <> logo_path) Demo.candidates.
Proof.
  cbv zeta.
  split; [reflexivity|]. split; [reflexivity|].
  split; [vm_compute; reflexivity|]. split; [vm_compute; reflexivity|].
  split; [|split; [reflexivity|split]].
  - apply (bool_decide_unpack _). vm_compute. reflexivity.
  - eexists. vm_compute. reflexivity.
  - rewrite demo_candidates. repeat constructor; discriminate.
Qed.

(** The amended C3 at work: per-file limit 10 and total budget 25 on the
    demo candidates.  Each of the four candidates has its block in the text
    or a warning, and the run gives the three warnings of the per-file
    limit, each naming its file. *)
Lemma dropped_candidates_and_warnings_witness :
  exists text warns,
    Demo.run 10 25 [["proj"]] = Bundled text warns
    /\ (forall fe, fe ∈ Demo.candidates ->
          (exists raw before after,
              read_bytes Demo.tree (fe_path fe) = Ok raw
              /\ text
                 = INTRO_TEMPLATE "2024-01-01T00:00:00+00:00"
                     (roots_line (sorted (sort_key Ascii_runtime.lower) Demo.candidates))
                     (Z.of_nat (length (before ++ (fe, raw) :: after)))
                     (sum_raw (before ++ (fe, raw) :: after))
                   +:+ PyStr.lf
                   +:+ blocks_text Ascii_runtime.lower Sha256.hexdigest
                                   Ascii_runtime.isoformat_utc before
                   +:+ render_block Ascii_runtime.lower Sha256.hexdigest
                                    Ascii_runtime.isoformat_utc fe raw
                   +:+ blocks_text Ascii_runtime.lower Sha256.hexdigest
                                   Ascii_runtime.isoformat_utc after)
          \/ (exists e, warn_read_error fe e ∈ warns)
          \/ (exists raw, warn_too_big fe (PyStr.len raw) 10 ∈ warns)
          \/ (exists stop pre post,
                sorted (sort_key Ascii_runtime.lower) Demo.candidates = pre ++ stop :: post
                /\ fe ∈ stop :: post
                /\ warn_stopped stop 25 ∈ warns))
    /\ (forall w, w ∈ warns ->
          exists fe, fe ∈ Demo.candidates
            /\ ((exists e, read_bytes Demo.tree (fe_path fe) = Raise e
                           /\ w = warn_read_error fe e)
                \/ (exists raw, read_bytes Demo.tree (fe_path fe) = Ok raw
                      /\ w = warn_too_big fe (PyStr.len raw) 10)
                \/ w = warn_stopped fe 25)).
Proof.
  eexists _, _. split; [vm_compute; reflexivity|].
  refine (dropped_candidates_and_warnings Ascii_runtime.lower Ascii_runtime.strip
       Ascii_runtime.fnmatch Ascii_runtime.abspath Sha256.hexdigest
       Ascii_runtime.isoformat_utc Demo.tree DEFAULT_EXCLUDES false 10 25
       "2024-01-01T00:00:00+00:00" [["proj"]] DEFAULT_EXTS _ _ _).
  vm_compute. reflexivity.
Defined.

(** C4 as stated fails: [/proj/a.py] and [/lib/A.py] have the same key.
    The same two candidates, found in the two orders of the inputs, give
    two different texts. *)
Lemma same_candidates_different_order :
  let first := Demo.walk [["proj"; "a.py"]; ["lib"]] in
  let second := Demo.walk [["lib"]; ["proj"; "a.py"]] in
  first = [Demo.a_entry; Demo.lib_entry]
  /\ second = [Demo.lib_entry; Demo.a_entry]
  /\ first ≡ₚ second
  /\ sort_key Ascii_runtime.lower Demo.a_entry = sort_key Ascii_runtime.lower Demo.lib_entry
  /\ (Demo.kept 0 0 first).*1 = [Demo.a_entry; Demo.lib_entry]
  /\ (Demo.kept 0 0 second).*1 = [Demo.lib_entry; Demo.a_entry]
  /\ (Demo.bundle 0 0 first).1 <> (Demo.bundle 0 0 second).1.
Proof.
  cbv zeta.
  split; [reflexivity|]. split; [reflexivity|].
  split; [apply Permutation_swap|].
  split; [reflexivity|]. split; [reflexivity|]. split; [reflexivity|].
  apply String.eqb_neq. vm_compute. reflexivity.
Qed.

(** The amended C4 at work: the demo candidates have four different keys,
    and the bundle of their reversal is the bundle of the candidates. *)
Lemma output_order_by_sort_key_witness :
  Demo.bundle 0 0 (reverse Demo.candidates) = Demo.bundle 0 0 Demo.candidates
  /\ String.leb (sort_key Ascii_runtime.lower Demo.a_entry)
                (sort_key Ascii_runtime.lower Demo.notes_entry) = true.
Proof.
  pose proof (output_order_by_sort_key Ascii_runtime.lower Sha256.hexdigest
                Ascii_runtime.isoformat_utc Demo.tree 0 0
                "2024-01-01T00:00:00+00:00" Demo.candidates) as H.
  cbv zeta in H. destruct H as (_ & _ & Hpair & _ & Hperm).
  split.
  - apply Hperm.
    + apply reverse_Permutation.
    + apply (bool_decide_unpack _). vm_compute. reflexivity.
  - apply (Hpair [] [Demo.b_entry] [Demo.main_entry]). vm_compute. reflexivity.
Defined.

(** C5 at work: [a.py] holds a carriage return that the body loses; its
    header carries the digest and the size of the 15 raw bytes. *)
Lemma header_digest_of_raw_bytes_witness :
  read_bytes Demo.tree (fe_path Demo.a_entry) = Ok Demo.a_py
  /\ Sha256.hexdigest Demo.a_py
     = "200c0e0b7f98ec4f89f8a4c54ab1a61be676d36d9f58efe43d6ece4e751f4529"
  /\ PyStr.of_int (Z.of_nat (length Demo.a_py)) = "15"
  /\ String.length (body_text Demo.a_py) = 15%nat.
Proof.
  pose proof (header_digest_of_raw_bytes Ascii_runtime.lower Sha256.hexdigest
                Ascii_runtime.isoformat_utc Demo.tree 0 0
                "2024-01-01T00:00:00+00:00" Demo.candidates
                Demo.a_entry Demo.a_py) as H.
  cbv zeta in H. destruct H as (Hread & _ & _).
  - change ((Demo.a_entry, Demo.a_py) ∈ Demo.kept 0 0 Demo.candidates).
    rewrite demo_kept_all. by left.
  - split; [exact Hread|]. repeat split; vm_compute; reflexivity.
Defined.


(** C7 at work: [logo.txt] has a NUL byte among its first 1024 bytes and
    is rejected. *)
Lemma classifier_rejects_nul_or_unreadable_witness :
  is_text_file Demo.tree ["proj"; "logo.txt"] 1024 = false.
Proof.
  pose proof (classifier_rejects_nul_or_unreadable Demo.tree ["proj"; "logo.txt"] 1024) as H.
  destruct H as (_ & _ & Hiff & _); [lia|].
  apply Hiff. right. exists Demo.logo. split; [reflexivity|].
  apply has_nul_spec. reflexivity.
Defined.

(** C8 at work: the default exclusions, read backwards, exclude the same
    name. *)
Lemma exclusion_is_order_free_witness :
  matches_any Ascii_runtime.fnmatch Ascii_runtime.abspath "x.pyc" DEFAULT_EXCLUDES
  = matches_any Ascii_runtime.fnmatch Ascii_runtime.abspath "x.pyc" (reverse DEFAULT_EXCLUDES).
Proof.
  apply (proj1 (exclusion_is_order_free Ascii_runtime.fnmatch Ascii_runtime.abspath)).
  symmetry. apply reverse_Permutation.
Defined.

(** C10 at work.  The file input [/.cfg/tool.py] is skipped for the
    hidden segment [.cfg], while the directory input [/.cfg] yields
    [tool.py].  Under the input [/proj] the file [src/Main.py] is yielded
    and no entry comes from below [.git] or [node_modules]; yet
    [/proj/node_modules], whose name matches an exclusion pattern, is
    walked when it is the input. *)
Lemma hidden_rule_at_input_boundary_witness :
  Demo.walk [[".cfg"; "tool.py"]] = []
  /\ Demo.tool_entry ∈ Demo.walk [[".cfg"]]
  /\ Demo.main_entry ∈ Demo.walk [["proj"]]
  /\ (forall fe, fe ∈ Demo.walk [["proj"]] ->
        ~ ".git" ∈ fe_rel fe /\ ~ "node_modules" ∈ fe_rel fe)
  /\ matches_any Ascii_runtime.fnmatch Ascii_runtime.abspath "node_modules" DEFAULT_EXCLUDES
     = true
  /\ Demo.entry ["proj"; "node_modules"] ["x.js"] 15 1700000600
     ∈ Demo.walk [["proj"; "node_modules"]].
Proof.
  split; [|split; [|split; [|split; [|split]]]].
  - unfold Demo.walk, walk_inputs. cbn [flat_map]. rewrite app_nil_r.
    eapply (proj1 (proj1 (hidden_rule_at_input_boundary Ascii_runtime.fnmatch
                     Ascii_runtime.abspath Demo.tree DEFAULT_EXCLUDES
                     [".cfg"; "tool.py"]) _ _ eq_refl)); reflexivity.
  - unfold Demo.walk, walk_inputs. cbn [flat_map]. rewrite app_nil_r.
    apply (proj2 (proj2 (hidden_rule_at_input_boundary Ascii_runtime.fnmatch
                     Ascii_runtime.abspath Demo.tree DEFAULT_EXCLUDES
                     [".cfg"]) _ eq_refl) ["tool.py"] (Ok Demo.a_py) (Demo.st 15 1700000800)).
    + cbn [reaches]. eexists. split; [by left|reflexivity].
    + intros [|b0 [|b1 before]] s after Hsplit; simplify_eq/=.
      repeat split; vm_compute; reflexivity.
    + vm_compute. reflexivity.
  - unfold Demo.walk, walk_inputs. cbn [flat_map]. rewrite app_nil_r.
    apply (proj2 (proj2 (hidden_rule_at_input_boundary Ascii_runtime.fnmatch
                     Ascii_runtime.abspath Demo.tree DEFAULT_EXCLUDES
                     ["proj"]) _ eq_refl) ["src"; "Main.py"]
                  (Ok Demo.a_py) (Demo.st 15 1700000700)).
    + cbn [reaches].
      exists (Dir [("Main.py", File (Ok Demo.a_py) (Demo.st 15 1700000700))]).
      split; [apply list_elem_of_In; do 7 right; by left|].
      eexists. split; [by left|reflexivity].
    + intros [|b0 [|b1 [|b2 before]]] s after Hsplit; simplify_eq/=;
        repeat split; vm_compute; reflexivity.
    + vm_compute. reflexivity.
  - intros fe Hfe.
    unfold Demo.walk, walk_inputs in Hfe. cbn [flat_map] in Hfe.
    rewrite app_nil_r in Hfe.
    destruct (proj1 (proj2 (hidden_rule_at_input_boundary Ascii_runtime.fnmatch
                     Ascii_runtime.abspath Demo.tree DEFAULT_EXCLUDES
                     ["proj"]) _ eq_refl) fe Hfe) as (_ & _ & _ & _ & Hnames).
    split; intros Hin; apply list_elem_of_split in Hin as (before & after & Hsplit);
      destruct (Hnames _ _ _ Hsplit) as (Hdot & Hname & _).
    + vm_compute in Hdot. discriminate Hdot.
    + vm_compute in Hname. discriminate Hname.
  - reflexivity.
  - unfold Demo.walk, walk_inputs. cbn [flat_map]. rewrite app_nil_r.
    apply (proj2 (proj2 (hidden_rule_at_input_boundary Ascii_runtime.fnmatch
                     Ascii_runtime.abspath Demo.tree DEFAULT_EXCLUDES
                     ["proj"; "node_modules"]) _ eq_refl) ["x.js"]
                  (Ok Demo.a_py) (Demo.st 15 1700000600)).
    + cbn [reaches]. eexists. split; [by left|reflexivity].
    + intros [|b0 [|b1 before]] s after Hsplit; simplify_eq/=.
      repeat split; vm_compute; reflexivity.
    + vm_compute. reflexivity.
Defined.

(** * Further properties of the program *)

(** ** The stable sort and filters *)

Section SortedMore.
Context {A : Type} (key : A -> string) (keep : A -> bool).

Lemma insert_by_least (x : A) (l : list A) :
  Forall (key_le key x) l -> insert_by key x l = x :: l.
Proof.
  intros H. destruct H as [|y l Hy _]; [done|].
  cbn [insert_by]. unfold key_le in Hy. by rewrite Hy.
Qed.

Lemma insert_by_filter (x : A) (l : list A) :
  StronglySorted (key_le key) l ->
  List.filter keep (insert_by key x l)
  = if keep x then insert_by key x (List.filter keep l) else List.filter keep l.
Proof.
  induction 1 as [|y l Hl IH Hy]; [by cbn; destruct (keep x)|].
  cbn [insert_by]. destruct (String.leb (key x) (key y)) eqn:E.
  - cbn [List.filter]. destruct (keep x); [|done].
    destruct (keep y); [by cbn [insert_by]; rewrite E|].
    rewrite insert_by_least; [done|].
    apply Forall_forall. intros z Hz.
    apply list_elem_of_In, filter_In in Hz as [Hz _]. apply list_elem_of_In in Hz.
    rewrite Forall_forall in Hy. unfold key_le in *.
    eapply string_leb_trans; [exact E|by apply Hy].
  - cbn [List.filter]. rewrite IH.
    destruct (keep x), (keep y); try done.
    cbn [insert_by]. by rewrite E.
Qed.

(** Sorting and filtering commute. *)
Lemma sorted_filter (l : list A) :
  sorted key (List.filter keep l) = List.filter keep (sorted key l).
Proof.
  induction l as [|x l IH]; [done|].
  cbn [sorted foldr]. fold (sorted key l).
  rewrite insert_by_filter by apply sorted_sorted.
  cbn [List.filter]. destruct (keep x); [|done].
  cbn [sorted foldr]. fold (sorted key (List.filter keep l)). by rewrite IH.
Qed.

End SortedMore.

(** ** The bundler *)

Section BundleMore.
Variable lower : string -> string.
Variable sha256_hexdigest : list byte -> string.
Variable isoformat_utc : Z -> string.
Variable fs : node.
Variables max_file_bytes max_total_bytes : Z.

Local Abbreviation loop :=
  (bundle_loop lower sha256_hexdigest isoformat_utc fs max_file_bytes max_total_bytes).
Local Abbreviation verdict_of := (classify fs max_file_bytes max_total_bytes).
Local Abbreviation kept := (included_files fs max_file_bytes max_total_bytes).
Local Abbreviation breaks := (stops fs max_file_bytes max_total_bytes).
Local Abbreviation state_of :=
  (bundle_state lower sha256_hexdigest isoformat_utc fs max_file_bytes max_total_bytes).

Lemma classify_included (t : Z) (fe : FileEntry) (raw : list byte) :
  verdict_of t fe = Included raw ->
  read_bytes fs (fe_path fe) = Ok raw
  /\ ~ (0 < max_file_bytes /\ max_file_bytes < PyStr.len raw)
  /\ ~ (0 < max_total_bytes /\ max_total_bytes < t + PyStr.len raw).
Proof.
  intros H. pose proof (classify_read _ _ _ _ _ _ (or_intror (or_intror H))) as Hr.
  split; [done|]. unfold classify in H. rewrite Hr in H.
  destruct ((0 <? max_file_bytes) && (max_file_bytes <? PyStr.len raw)) eqn:Bf; [done|].
  destruct ((0 <? max_total_bytes) && (max_total_bytes <? t + PyStr.len raw)) eqn:Bt;
    [done|].
  rewrite andb_false_iff, !Z.ltb_ge in Bf, Bt. lia.
Qed.

Lemma included_files_within_limit (l : list FileEntry) (t : Z)
      (fe : FileEntry) (raw : list byte) :
  0 < max_file_bytes -> (fe, raw) ∈ kept l t -> PyStr.len raw <= max_file_bytes.
Proof.
  intros Hpos. revert t. induction l as [|x l IH]; intros t; cbn [included_files].
  - by intros ?%elem_of_nil.
  - destruct (verdict_of t x) as [e|raw'|raw'|raw'] eqn:E; try apply IH.
    + by intros ?%elem_of_nil.
    + intros [H|H]%elem_of_cons; [|by eapply IH].
      injection H as -> ->. apply classify_included in E as (_ & Hf & _). lia.
Qed.

Lemma sum_raw_within_limit (l : list (FileEntry * list byte)) (m : Z) :
  Forall (fun x => PyStr.len x.2 <= m) l -> sum_raw l <= Z.of_nat (length l) * m.
Proof.
  induction 1 as [|[fe raw] l Hx _ IH]; [done|].
  rewrite sum_raw_cons. cbn [length snd] in *. lia.
Qed.

(** X1: With a positive [max_file_bytes], no file longer than it is written
    to the bundle: the text is the preamble and the blocks of files each no
    longer than the limit, and the total reported is at most the number of
    files reported times the limit. *)
Theorem included_files_respect_file_limit
        (generated_iso : string) (entries : list FileEntry) :
  0 < max_file_bytes ->
  let s := state_of entries in
  total s <= included s * max_file_bytes
  /\ exists inc,
      (bundle lower sha256_hexdigest isoformat_utc fs max_file_bytes max_total_bytes
              generated_iso entries).1
      = INTRO_TEMPLATE generated_iso (roots_line (sorted (sort_key lower) entries))
          (included s) (total s)
        +:+ PyStr.lf +:+ blocks_text lower sha256_hexdigest isoformat_utc inc
      /\ included s = Z.of_nat (length inc)
      /\ total s = sum_raw inc
      /\ Forall (fun x => read_bytes fs (fe_path x.1) = Ok x.2
                          /\ PyStr.len x.2 <= max_file_bytes) inc.
Proof.
  intros Hpos s.
  set (inc := kept (sorted (sort_key lower) entries) 0).
  assert (Hincl : included s = Z.of_nat (length inc)).
  { unfold s, bundle_state. rewrite bundle_loop_included. cbn [bundle_init included total].
    fold inc. lia. }
  assert (Htot : total s = sum_raw inc).
  { unfold s, bundle_state. rewrite bundle_loop_total. cbn [bundle_init total].
    fold inc. lia. }
  assert (Hall : Forall (fun x => read_bytes fs (fe_path x.1) = Ok x.2
                                  /\ PyStr.len x.2 <= max_file_bytes) inc).
  { apply Forall_forall. intros [fe raw] Hin. cbn [fst snd]. split.
    - exact (proj2 (included_files_elem fs max_file_bytes max_total_bytes _ 0 fe raw Hin)).
    - by eapply included_files_within_limit. }
  split.
  - rewrite Htot, Hincl. apply sum_raw_within_limit.
    eapply Forall_impl; [exact Hall|]. by intros x [_ ?].
  - exists inc. split; [|done].
    rewrite bundle_text. cbn [fst]. fold inc. by rewrite Hincl, Htot.
Qed.

(** *** Counting entries, files and warnings *)

Lemma stop_warnings_of_loop (l : list FileEntry) (s : bstate) :
  exists tail,
    List.filter is_stop_warning (warnings (loop l s))
    = List.filter is_stop_warning (warnings s) ++ tail
    /\ length tail = (if breaks l (total s) then 1 else 0)%nat.
Proof.
  revert s. induction l as [|x l IH]; intros s.
  - exists []. by rewrite app_nil_r.
  - rewrite bundle_loop_cons. cbn [stops].
    destruct (verdict_of (total s) x) as [e|raw|raw|raw].
    + destruct (IH (warn s (warn_read_error x e))) as (tail & -> & Hlen).
      exists tail. split; [|done]. cbn [warn warnings]. rewrite List.filter_app.
      cbn [List.filter]. by rewrite stop_warning_read_error, app_nil_r.
    + destruct (IH (warn s (warn_too_big x (PyStr.len raw) max_file_bytes)))
        as (tail & -> & Hlen).
      exists tail. split; [|done]. cbn [warn warnings]. rewrite List.filter_app.
      cbn [List.filter]. by rewrite stop_warning_too_big, app_nil_r.
    + exists [warn_stopped x max_total_bytes]. split; [|done].
      cbn [warn warnings]. rewrite List.filter_app. cbn [List.filter].
      by rewrite stop_warning_stopped.
    + destruct (IH (include_file lower sha256_hexdigest isoformat_utc s x raw))
        as (tail & -> & Hlen).
      exists tail. done.
Qed.

Lemma count_of_loop (l : list FileEntry) (s : bstate) :
  (length (warnings (loop l s)) + length (kept l (total s))
   <= length (warnings s) + length l)%nat
  /\ (breaks l (total s) = false ->
      (length (warnings (loop l s)) + length (kept l (total s))
       = length (warnings s) + length l)%nat).
Proof.
  revert s. induction l as [|x l IH]; intros s.
  - cbn. lia.
  - rewrite bundle_loop_cons. cbn [stops included_files length].
    destruct (verdict_of (total s) x) as [e|raw|raw|raw].
    + destruct (IH (warn s (warn_read_error x e))) as [H1 H2].
      cbn [warn warnings total] in H1, H2. rewrite length_app in H1, H2. cbn in H1, H2.
      split; [lia|]. intros Hb. specialize (H2 Hb). lia.
    + destruct (IH (warn s (warn_too_big x (PyStr.len raw) max_file_bytes))) as [H1 H2].
      cbn [warn warnings total] in H1, H2. rewrite length_app in H1, H2. cbn in H1, H2.
      split; [lia|]. intros Hb. specialize (H2 Hb). lia.
    + cbn [warn warnings]. rewrite length_app. cbn. split; [lia|done].
    + destruct (IH (include_file lower sha256_hexdigest isoformat_utc s x raw)) as [H1 H2].
      cbn [include_file warnings total] in H1, H2. cbn [length].
      split; [lia|]. intros Hb. specialize (H2 Hb). lia.
Qed.

(** X2: Every candidate gives at most one block or one warning.  The number of
    files included plus the number of warnings is at most the number of
    candidates, there is at most one stop warning, and when there is none
    every candidate is either included or named by a warning of its own. *)
Theorem files_and_warnings_count (entries : list FileEntry) :
  let s := state_of entries in
  0 <= included s
  /\ included s + Z.of_nat (length (warnings s)) <= Z.of_nat (length entries)
  /\ (length (List.filter is_stop_warning (warnings s)) <= 1)%nat
  /\ (List.filter is_stop_warning (warnings s) = [] ->
      included s + Z.of_nat (length (warnings s)) = Z.of_nat (length entries)).
Proof.
  intros s. unfold s, bundle_state.
  set (ordered := sorted (sort_key lower) entries).
  assert (Hlen : length ordered = length entries)
    by (unfold ordered; by rewrite sorted_perm).
  rewrite bundle_loop_included. cbn [bundle_init included total].
  destruct (count_of_loop ordered bundle_init) as [H1 H2].
  cbn [bundle_init warnings total length] in H1, H2.
  destruct (stop_warnings_of_loop ordered bundle_init) as (tail & Htail & Hn).
  cbn [bundle_init warnings total List.filter app] in Htail, Hn.
  split; [lia|]. split; [lia|]. split.
  - rewrite Htail, Hn. destruct (breaks ordered 0); lia.
  - intros Hnone. rewrite Hnone in Htail. subst tail.
    destruct (breaks ordered 0); [done|]. specialize (H2 eq_refl). lia.
Qed.

(** *** Raising the total budget *)

Lemma included_files_budget_mono (budget budget' : Z) (l : list FileEntry) (t : Z) :
  budget' <= 0 \/ (0 < budget /\ budget <= budget') ->
  included_files fs max_file_bytes budget l t
  `prefix_of` included_files fs max_file_bytes budget' l t.
Proof.
  intros Hb. revert t. induction l as [|x l IH]; intros t; [done|].
  cbn [included_files]. unfold classify.
  destruct (read_bytes fs (fe_path x)) as [raw|e]; [|apply IH].
  destruct ((0 <? max_file_bytes) && (max_file_bytes <? PyStr.len raw)); [apply IH|].
  destruct ((0 <? budget) && (budget <? t + PyStr.len raw)) eqn:B1;
    [by eexists|].
  destruct ((0 <? budget') && (budget' <? t + PyStr.len raw)) eqn:B2.
  - exfalso. rewrite andb_true_iff, !Z.ltb_lt in B2.
    rewrite andb_false_iff, !Z.ltb_ge in B1. lia.
  - destruct (IH (t + PyStr.len raw)) as [k ->]. by exists k.
Qed.

Lemma sum_raw_app (l k : list (FileEntry * list byte)) :
  sum_raw (l ++ k) = sum_raw l + sum_raw k.
Proof.
  induction l as [|[fe raw] l IH]; [reflexivity|].
  cbn [app]. rewrite !sum_raw_cons, IH. lia.
Qed.

(** X3: A larger total budget, or none, only lengthens the bundle: the text
    written under a positive budget is the preamble and the blocks of some
    files; under any larger budget, and without a budget, the same blocks
    come first and further blocks may follow, and neither the number of
    files nor the total reported goes down.  Without a budget the files
    written are all the readable ones within the per-file limit. *)
Theorem larger_budget_extends_bundle
        (generated_iso : string) (budget budget' : Z) (entries : list FileEntry) :
  0 < budget ->
  budget' <= 0 \/ budget <= budget' ->
  let small := bundle_state lower sha256_hexdigest isoformat_utc fs
                            max_file_bytes budget entries in
  let large := bundle_state lower sha256_hexdigest isoformat_utc fs
                            max_file_bytes budget' entries in
  let intro := INTRO_TEMPLATE generated_iso (roots_line (sorted (sort_key lower) entries)) in
  let blocks := blocks_text lower sha256_hexdigest isoformat_utc in
  included small <= included large
  /\ total small <= total large
  /\ exists inc more,
      out small = blocks inc
      /\ out large = blocks inc +:+ blocks more
      /\ included small = Z.of_nat (length inc)
      /\ included large = Z.of_nat (length (inc ++ more))
      /\ total small = sum_raw inc
      /\ total large = sum_raw (inc ++ more)
      /\ (budget' <= 0 ->
          inc ++ more = within_file_limit fs max_file_bytes (sorted (sort_key lower) entries))
      /\ (bundle lower sha256_hexdigest isoformat_utc fs max_file_bytes budget
                 generated_iso entries).1
         = intro (included small) (total small) +:+ PyStr.lf +:+ blocks inc
      /\ (bundle lower sha256_hexdigest isoformat_utc fs max_file_bytes budget'
                 generated_iso entries).1
         = intro (included large) (total large) +:+ PyStr.lf
           +:+ blocks inc +:+ blocks more.
Proof.
  intros Hpos Hb small large intro blocks.
  destruct (included_files_budget_mono budget budget'
              (sorted (sort_key lower) entries) 0) as [more Hmore]; [lia|].
  set (inc := included_files fs max_file_bytes budget (sorted (sort_key lower) entries) 0)
    in *.
  assert (Hos : out small = blocks inc).
  { unfold small, bundle_state. rewrite bundle_loop_out.
    cbn [bundle_init out total]. by rewrite append_nil_l. }
  assert (Hol : out large = blocks inc +:+ blocks more).
  { unfold large, bundle_state. rewrite bundle_loop_out.
    cbn [bundle_init out total]. rewrite append_nil_l, Hmore.
    apply blocks_text_app. }
  assert (His : included small = Z.of_nat (length inc)).
  { unfold small, bundle_state. rewrite bundle_loop_included.
    cbn [bundle_init included total]. fold inc. lia. }
  assert (Hil : included large = Z.of_nat (length (inc ++ more))).
  { unfold large, bundle_state. rewrite bundle_loop_included.
    cbn [bundle_init included total]. rewrite Hmore. lia. }
  assert (Hts : total small = sum_raw inc).
  { unfold small, bundle_state. rewrite bundle_loop_total.
    cbn [bundle_init total]. fold inc. lia. }
  assert (Htl : total large = sum_raw (inc ++ more)).
  { unfold large, bundle_state. rewrite bundle_loop_total.
    cbn [bundle_init total]. rewrite Hmore. lia. }
  split; [rewrite His, Hil, length_app; lia|].
  split; [rewrite Hts, Htl, sum_raw_app; pose proof (sum_raw_nonneg more); lia|].
  exists inc, more. do 6 (split; [done|]). split.
  - intros Hno. rewrite <- Hmore. by apply included_files_unbounded.
  - unfold bundle. fold small large. cbn [fst]. by rewrite Hos, Hol.
Qed.

(** *** Entries that cannot be read *)

Lemma included_files_readable (l : list FileEntry) (t : Z) :
  kept (List.filter (readable_entry fs) l) t = kept l t.
Proof.
  revert t. induction l as [|x l IH]; intros t; [done|].
  cbn [List.filter]. unfold readable_entry at 1.
  destruct (read_bytes fs (fe_path x)) as [raw|e] eqn:Hr.
  - cbn [included_files]. destruct (verdict_of t x); by rewrite ?IH.
  - cbn [included_files]. unfold classify. by rewrite Hr.
Qed.

(** X4: Entries whose bytes cannot be read leave no trace in the blocks, the
    file count and the total: the bundle of all entries has the blocks of
    the bundle of the readable ones. *)
Theorem unreadable_entries_leave_no_trace (entries : list FileEntry) :
  let readable := List.filter (readable_entry fs) entries in
  kept (sorted (sort_key lower) readable) 0 = kept (sorted (sort_key lower) entries) 0
  /\ out (state_of readable) = out (state_of entries)
  /\ total (state_of readable) = total (state_of entries)
  /\ included (state_of readable) = included (state_of entries)
  /\ (forall w, w ∈ warnings (state_of readable) ->
        exists fe, fe ∈ readable
          /\ ((exists raw, read_bytes fs (fe_path fe) = Ok raw
                  /\ w = warn_too_big fe (PyStr.len raw) max_file_bytes)
              \/ w = warn_stopped fe max_total_bytes)).
Proof.
  intros readable.
  assert (Hk : kept (sorted (sort_key lower) readable) 0
               = kept (sorted (sort_key lower) entries) 0).
  { unfold readable. by rewrite sorted_filter, included_files_readable. }
  split; [done|]. unfold bundle_state.
  rewrite !bundle_loop_out, !bundle_loop_total, !bundle_loop_included.
  cbn [bundle_init out total included]. rewrite Hk.
  split; [done|]. split; [done|]. split; [done|].
  intros w Hw. apply warning_origin in Hw as [Hw|(fe & Hfe & H)].
  { by apply elem_of_nil in Hw. }
  rewrite sorted_perm in Hfe. exists fe. split; [done|].
  destruct H as [(e & He & _)|H]; [|done].
  exfalso. unfold readable in Hfe. apply list_elem_of_In, filter_In in Hfe as [_ Hr].
  unfold readable_entry in Hr. by rewrite He in Hr.
Qed.

End BundleMore.

(** *** The line of roots *)

Lemma roots_set_eq (l1 l2 : list FileEntry) :
  (forall r, r ∈ fe_root <$> l1 <-> r ∈ fe_root <$> l2) ->
  (list_to_set ((fun e => PyPath.str_abs (fe_root e)) <$> l1) : gset string)
  = list_to_set ((fun e => PyPath.str_abs (fe_root e)) <$> l2).
Proof.
  intros H. apply set_eq. intros s. rewrite !elem_of_list_to_set, !list_elem_of_fmap.
  split; intros (fe & -> & Hfe).
  - assert (Hr : fe_root fe ∈ fe_root <$> l2)
      by (apply H, list_elem_of_fmap; eauto).
    apply list_elem_of_fmap in Hr as (fe' & Heq & Hfe'). exists fe'. by rewrite Heq.
  - assert (Hr : fe_root fe ∈ fe_root <$> l1)
      by (apply H, list_elem_of_fmap; eauto).
    apply list_elem_of_fmap in Hr as (fe' & Heq & Hfe'). exists fe'. by rewrite Heq.
Qed.

(** X5: The [Paths:] line of the preamble lists every root once, in ascending
    order, and depends on the set of roots only: neither on the order of
    the entries nor on how many entries share a root. *)
Theorem roots_line_of_set (l1 l2 : list FileEntry) :
  let names (l : list FileEntry) :=
    sorted id (elements (list_to_set ((fun e => PyPath.str_abs (fe_root e)) <$> l)
                         : gset string)) in
  roots_line l1 = PyStr.join ", " (names l1)
  /\ NoDup (names l1)
  /\ StronglySorted (fun a b => String.leb a b = true) (names l1)
  /\ (forall s, s ∈ names l1 <-> exists fe, fe ∈ l1 /\ s = PyPath.str_abs (fe_root fe))
  /\ ((forall r, r ∈ fe_root <$> l1 <-> r ∈ fe_root <$> l2) ->
      roots_line l1 = roots_line l2).
Proof.
  intros names. split; [done|]. split; [|split; [|split]].
  - unfold names. rewrite sorted_perm. apply NoDup_elements.
  - apply (sorted_sorted id).
  - intros s. unfold names. rewrite sorted_perm, elem_of_elements, elem_of_list_to_set.
    rewrite list_elem_of_fmap. split; intros (fe & ? & ?); eauto.
  - intros H. unfold roots_line. by rewrite (roots_set_eq l1 l2 H).
Qed.

(** ** The header *)

Lemma replace_char_cons (c d x : ascii) (s : string) :
  PyStr.replace_from (String c EmptyString) (String d EmptyString) 0 (String x s)
  = String (if Ascii.eqb x c then d else x)
           (PyStr.replace_from (String c EmptyString) (String d EmptyString) 0 s).
Proof.
  cbn [PyStr.replace_from]. rewrite prefix_cons, prefix_nil.
  destruct (ascii_dec c x) as [<-|Hne].
  - by rewrite Ascii.eqb_refl.
  - destruct (Ascii.eqb_spec x c) as [->|_]; [done|reflexivity].
Qed.

(** X6: The [path] field of the header holds no backslash; a relative path
    without backslashes is written unchanged, and the field always has the
    length of the path. *)
Theorem header_path_has_no_backslash (rel : Path) :
  let field := PyStr.replace (PyPath.str_rel rel) "\" "/" in
  PyStr.contains_char "\" field = false
  /\ (PyStr.contains_char "\" (PyPath.str_rel rel) = false -> field = PyPath.str_rel rel)
  /\ String.length field = String.length (PyPath.str_rel rel).
Proof.
  cbv zeta. unfold PyStr.replace.
  change "\"%string with (String "\"%char EmptyString).
  change "/"%string with (String "/"%char EmptyString).
  induction (PyPath.str_rel rel) as [|x s (IH1 & IH2 & IH3)]; [done|].
  rewrite replace_char_cons. cbn [PyStr.contains_char String.length].
  destruct (Ascii.eqb_spec x "\"%char) as [->|Hx].
  - split; [by rewrite IH1|]. split; [done|]. by rewrite IH3.
  - split.
    + rewrite IH1. by destruct (Ascii.eqb_spec "\"%char x) as [<-|].
    + split; [|by rewrite IH3].
      destruct (Ascii.eqb_spec "\"%char x) as [<-|]; [done|].
      cbn [orb]. intros H. by rewrite IH2.
Qed.

(** ** Newlines *)

Lemma newlines_spec_id (s : string) :
  PyStr.contains_char PyStr.CR s = false -> newlines_spec s = s.
Proof.
  induction s as [|c s IH]; [done|].
  cbn [PyStr.contains_char newlines_spec].
  destruct (Ascii.eqb_spec PyStr.CR c) as [<-|Hc]; [done|].
  cbn [orb]. intros H. rewrite IH by done.
  by destruct (Ascii.eqb_spec c PyStr.CR) as [->|_].
Qed.

Lemma newlines_spec_length_le (n : nat) (s : string) :
  (String.length s <= n)%nat ->
  (String.length (newlines_spec s) <= String.length s)%nat.
Proof.
  revert s. induction n as [|n IH]; intros [|c s] Hlen; try done.
  { cbn in Hlen. lia. }
  cbn [String.length] in Hlen. cbn [newlines_spec].
  destruct (Ascii.eqb c PyStr.CR).
  - destruct s as [|d s']; [done|]. cbn [String.length] in Hlen.
    destruct (Ascii.eqb d PyStr.LF); cbn [String.length].
    + specialize (IH s'). lia.
    + specialize (IH (String d s')). cbn [String.length] in IH. lia.
  - cbn [String.length]. specialize (IH s). lia.
Qed.

(** X7: [normalise_newlines] leaves a text without carriage returns unchanged,
    so normalising twice is normalising once; it never lengthens a text. *)
Theorem normalise_newlines_stable (s : string) :
  (PyStr.contains_char PyStr.CR s = false -> normalise_newlines s = s)
  /\ normalise_newlines (normalise_newlines s) = normalise_newlines s
  /\ (String.length (normalise_newlines s) <= String.length s)%nat.
Proof.
  rewrite !normalise_newlines_spec. split; [apply newlines_spec_id|]. split.
  - apply newlines_spec_id, newlines_spec_no_cr.
  - by apply (newlines_spec_length_le (String.length s)).
Qed.

(** ** The extension filter *)

Section FilterMore.
Variable lower : string -> string.
Variable strip : string -> string.

Local Abbreviation only := (filter_by_ext lower strip).

Lemma filter_by_ext_filter (entries : list FileEntry) (exts : list string) :
  exts <> [] -> exts <> ["*"] ->
  only entries (Some exts)
  = List.filter
      (fun fe => bool_decide (lower (PyPath.suffix (fe_path fe))
                              ∈ (list_to_set ((fun e => strip (lower e)) <$> exts)
                                 : gset string)))
      entries.
Proof.
  intros Hne Hstar. unfold filter_by_ext.
  destruct exts as [|e exts]; [done|]. by destruct (decide (e :: exts = ["*"])).
Qed.

Lemma filter_by_ext_sublist (entries : list FileEntry) (allowed_exts : option (list string)) :
  only entries allowed_exts `sublist_of` entries.
Proof.
  destruct allowed_exts as [exts|]; [|done].
  destruct (decide (exts = [])) as [->|Hne]; [done|].
  destruct (decide (exts = ["*"])) as [->|Hstar]; [done|].
  rewrite filter_by_ext_filter by done.
  induction entries as [|fe entries IH]; [done|].
  cbn [List.filter]. destruct (bool_decide _); by constructor.
Qed.

(** X8: The extension filter keeps a sublist of the entries, in their order.
    No list, an empty list and the single wildcard keep everything; any
    other list keeps exactly the entries whose lower-cased suffix is one
    of the lower-cased, stripped extensions, a wildcard among several
    extensions being one more extension.  Filtering twice is filtering
    once. *)
Theorem filter_by_ext_keeps (entries : list FileEntry) (allowed_exts : option (list string)) :
  only entries allowed_exts `sublist_of` entries
  /\ (allowed_exts = None \/ allowed_exts = Some [] \/ allowed_exts = Some ["*"] ->
      only entries allowed_exts = entries)
  /\ (forall exts fe,
        allowed_exts = Some exts -> exts <> [] -> exts <> ["*"] ->
        (fe ∈ only entries allowed_exts
         <-> fe ∈ entries
             /\ exists e, e ∈ exts /\ lower (PyPath.suffix (fe_path fe)) = strip (lower e)))
  /\ only (only entries allowed_exts) allowed_exts = only entries allowed_exts.
Proof.
  assert (Hall : allowed_exts = None \/ allowed_exts = Some [] \/ allowed_exts = Some ["*"] ->
                 only entries allowed_exts = entries).
  { intros [->|[->| ->]]; reflexivity. }
  assert (Hpass : only entries allowed_exts = entries ->
                  only (only entries allowed_exts) allowed_exts
                  = only entries allowed_exts) by (intros H; rewrite H; exact H).
  destruct allowed_exts as [exts|];
    [|split; [by unfold filter_by_ext|]; split; [done|]; split; [by intros|];
      by apply Hpass, Hall; left].
  destruct (decide (exts = [])) as [->|Hne].
  { split; [by unfold filter_by_ext|]. split; [done|]. split; [by intros ?? [= <-]|].
    apply Hpass, Hall. right. by left. }
  destruct (decide (exts = ["*"])) as [->|Hstar].
  { split; [by unfold filter_by_ext|]. split; [done|]. split; [by intros ?? [= <-]|].
    apply Hpass, Hall. right. by right. }
  clear Hpass.
  split; [apply filter_by_ext_sublist|].
  split; [exact Hall|]; rewrite !filter_by_ext_filter by done; split.
  - intros exts' fe [= <-] _ _.
    rewrite list_elem_of_In, filter_In, <- list_elem_of_In, bool_decide_eq_true.
    rewrite elem_of_list_to_set, list_elem_of_fmap.
    split; intros [Hin (e & H1 & H2)]; (split; [done|]); exists e; done.
  - clear Hall. induction entries as [|fe entries IH]; [done|].
    cbn [List.filter]. destruct (bool_decide _) eqn:E; [|done].
    cbn [List.filter]. by rewrite E, IH.
Qed.

End FilterMore.

(** ** The matcher *)

Lemma matches_any_concat (fnmatch : string -> string -> bool) (abspath : string -> string)
      (name : string) (patterns more : list string) :
  matches_any fnmatch abspath name (patterns ++ more)
  = matches_any fnmatch abspath name patterns
    || matches_any fnmatch abspath name more.
Proof. rewrite !matches_any_existsb. apply existsb_app. Qed.

(** X9: The patterns of two lists put together exclude what either list
    excludes, and an empty list excludes nothing: patterns added to the
    default ones never bring an excluded name back. *)
Theorem matches_any_app (fnmatch : string -> string -> bool) (abspath : string -> string)
        (name : string) (patterns more : list string) :
  matches_any fnmatch abspath name [] = false
  /\ matches_any fnmatch abspath name (patterns ++ more)
     = matches_any fnmatch abspath name patterns
       || matches_any fnmatch abspath name more.
Proof.
  split; [done|]. apply matches_any_concat.
Qed.

(** ** The traverser *)

Section WalkMore.
Variable fnmatch : string -> string -> bool.
Variable abspath : string -> string.
Variable fs : node.
Variable ex_patterns : list string.
Variable include_hidden : bool.

Local Abbreviation matches := (matches_any fnmatch abspath).
Local Abbreviation walk_one := (walk_input fnmatch abspath fs ex_patterns include_hidden).
Local Abbreviation below := (walk_dir fnmatch abspath fs ex_patterns include_hidden).
Local Abbreviation walk := (walk_inputs fnmatch abspath fs ex_patterns include_hidden).

Lemma name_in_path (p : Path) : p <> [] -> PyPath.name p ∈ p.
Proof.
  intros Hne. unfold PyPath.name.
  induction p as [|s p IH]; [done|].
  destruct p as [|s' p]; [by left|]. right. by apply IH.
Qed.

Lemma parent_name (p : Path) : p <> [] -> PyPath.parent p ++ [PyPath.name p] = p.
Proof. intros Hne. symmetry. by apply app_removelast_last. Qed.

(** X10: Every entry of [walk_inputs] comes from one of the inputs: from an
    input file, as that file under its parent directory, or from below an
    input directory, under that directory.  Its path is its root followed
    by its relative path. *)
Theorem walk_inputs_entry_shape (paths : list Path) (fe : FileEntry) :
  fe ∈ walk paths ->
  exists p, p ∈ paths
    /\ ((exists content st,
            fs_lookup fs p = Some (File content st)
            /\ fe = {| fe_root := PyPath.parent p; fe_path := p; fe_rel := [PyPath.name p];
                       fe_size := st_size st; fe_mtime := st_mtime st |})
        \/ (exists es, fs_lookup fs p = Some (Dir es)
              /\ fe_root fe = p /\ fe_rel fe <> []))
    /\ (p <> [] -> fe_path fe = fe_root fe ++ fe_rel fe).
Proof.
  unfold walk_inputs. intros Hin.
  apply list_elem_of_In, in_flat_map in Hin as (p & Hp & Hfe).
  apply list_elem_of_In in Hp, Hfe. exists p. split; [done|].
  unfold walk_input in Hfe.
  destruct (fs_lookup fs p) as [[content st|es]|] eqn:Hl; [| |by apply elem_of_nil in Hfe].
  - destruct (negb include_hidden && existsb dotted p); [by apply elem_of_nil in Hfe|].
    destruct (_ || _); [by apply elem_of_nil in Hfe|].
    destruct (is_text_file _ _ _); [|by apply elem_of_nil in Hfe].
    apply list_elem_of_singleton in Hfe as ->. split; [left; eauto|].
    intros Hne. cbn [fe_path fe_root fe_rel]. by rewrite parent_name.
  - apply walk_dir_elem in Hfe as (tail & Hne & Hroot & Hrel & Hpath & _).
    cbn [app] in Hrel, Hpath. split.
    + right. exists es. rewrite Hrel. done.
    + intros _. by rewrite Hroot, Hrel, Hpath.
Qed.

Lemma walk_inputs_is_text (paths : list Path) (fe : FileEntry) :
  fe ∈ walk paths -> is_text_file fs (fe_path fe) default_sample_size = true.
Proof.
  unfold walk_inputs. intros Hin.
  apply list_elem_of_In, in_flat_map in Hin as (p & _ & Hfe).
  apply list_elem_of_In in Hfe. unfold walk_input in Hfe.
  destruct (fs_lookup fs p) as [[content st|es]|]; [| |by apply elem_of_nil in Hfe].
  - destruct (negb include_hidden && existsb dotted p); [by apply elem_of_nil in Hfe|].
    destruct (_ || _); [by apply elem_of_nil in Hfe|].
    destruct (is_text_file _ _ _) eqn:E; [|by apply elem_of_nil in Hfe].
    by apply list_elem_of_singleton in Hfe as ->.
  - by apply walk_dir_elem in Hfe as (tail & _ & _ & _ & _ & _ & _ & ?).
Qed.

Lemma is_text_file_read (p : Path) (n : Z) :
  is_text_file fs p n = true ->
  exists content, read_bytes fs p = Ok content /\ has_nul (file_read content n) = false.
Proof.
  unfold is_text_file, is_text_file_try.
  destruct (read_bytes fs p) as [content|e]; [|done].
  destruct (n <? -1); [done|].
  destruct (has_nul (file_read content n)) eqn:E; [done|]. eauto.
Qed.

(** X11: No binary or unreadable file is ever yielded: the bytes of every entry
    of [walk_inputs] can be read, and their first 1024 hold no NUL byte. *)
Theorem walk_inputs_yields_text (paths : list Path) (fe : FileEntry) :
  fe ∈ walk paths ->
  is_text_file fs (fe_path fe) default_sample_size = true
  /\ exists content,
       read_bytes fs (fe_path fe) = Ok content
       /\ x00 ∉ take 1024 content.
Proof.
  intros Htext%walk_inputs_is_text. split; [done|].
  apply is_text_file_read in Htext as (content & Hr & E).
  exists content. split; [done|].
  rewrite file_read_take in E by done.
  change (Z.to_nat default_sample_size) with 1024%nat in E.
  intros Hnul. apply has_nul_spec in Hnul. congruence.
Qed.

(** X12: Every name of the relative path of an entry passed the tests: no
    pattern matches any of its segments by name, or its full path; and
    unless hidden files are included, none of the segments starts with a
    dot. *)
Theorem walk_inputs_names_pass (paths : list Path) (fe : FileEntry) :
  fe ∈ walk paths ->
  Forall (fun s => matches s ex_patterns = false) (fe_rel fe)
  /\ matches (PyPath.str_abs (fe_path fe)) ex_patterns = false
  /\ (include_hidden = false -> Forall (fun s => dotted s = false) (fe_rel fe)).
Proof.
  unfold walk_inputs. intros Hin.
  apply list_elem_of_In, in_flat_map in Hin as (p & _ & Hfe).
  apply list_elem_of_In in Hfe. unfold walk_input in Hfe.
  destruct (fs_lookup fs p) as [[content st|es]|]; [| |by apply elem_of_nil in Hfe].
  - destruct (negb include_hidden && existsb dotted p) eqn:Hh; [by apply elem_of_nil in Hfe|].
    destruct (matches (PyPath.name p) ex_patterns) eqn:Hm1; [by apply elem_of_nil in Hfe|].
    destruct (matches (PyPath.str_abs p) ex_patterns) eqn:Hm2; [by apply elem_of_nil in Hfe|].
    destruct (is_text_file _ _ _); [|by apply elem_of_nil in Hfe].
    apply list_elem_of_singleton in Hfe as ->. cbn [fe_rel fe_path].
    split; [by apply Forall_singleton|]. split; [done|].
    intros ->. cbn [negb andb] in Hh. apply Forall_singleton.
    destruct p as [|s p]; [done|].
    rewrite <- not_true_iff_false, existsb_exists in Hh.
    apply not_true_iff_false. intros Hd. apply Hh.
    exists (PyPath.name (s :: p)). split; [|done].
    by apply list_elem_of_In, name_in_path.
  - apply walk_dir_elem in Hfe as (tail & _ & _ & Hrel & _ & Hall & Hm & _).
    cbn [app] in Hrel. rewrite Hrel. split; [|split; [done|]].
    + eapply Forall_impl; [exact Hall|]. by intros s [_ ?].
    + intros ->. eapply Forall_impl; [exact Hall|]. by intros s [? _].
Qed.

End WalkMore.

(** *** Excluding more, hiding less *)

Section WalkMonotone.
Variable fnmatch : string -> string -> bool.
Variable abspath : string -> string.
Variable fs : node.
Variables patterns patterns' : list string.
Variables hidden hidden' : bool.

Local Abbreviation matches := (matches_any fnmatch abspath).

(** The second configuration excludes no more than the first. *)
Hypothesis Hpatterns : forall s, matches s patterns' = true -> matches s patterns = true.
Hypothesis Hhidden : hidden = true -> hidden' = true.

Lemma walk_file_sublist (top sub : Path) (f : string) (st : stat_result) :
  walk_file fnmatch abspath fs patterns hidden top sub f st
  `sublist_of` walk_file fnmatch abspath fs patterns' hidden' top sub f st.
Proof.
  unfold walk_file.
  destruct (negb hidden && dotted f) eqn:H1; [apply sublist_nil_l|].
  destruct (matches f patterns) eqn:H2; [apply sublist_nil_l|].
  destruct (matches (PyPath.str_abs _) patterns) eqn:H3; [apply sublist_nil_l|].
  destruct (is_text_file _ _ _); [|apply sublist_nil_l].
  assert ((negb hidden' && dotted f) = false) as ->.
  { destruct hidden; [by rewrite Hhidden|]. cbn in H1. rewrite H1. apply andb_false_r. }
  assert (matches f patterns' = false) as ->.
  { apply not_true_iff_false. intros H%Hpatterns. congruence. }
  assert (matches (PyPath.str_abs (top ++ sub ++ [f])) patterns' = false) as ->.
  { apply not_true_iff_false. intros H%Hpatterns. congruence. }
  done.
Qed.

Lemma pruned_weaker (top sub : Path) (d : string) :
  pruned fnmatch abspath patterns hidden top sub d = false ->
  pruned fnmatch abspath patterns' hidden' top sub d = false.
Proof.
  unfold pruned. rewrite !orb_false_iff. intros [[H1 H2] H3].
  split; [split|].
  - destruct hidden; [by rewrite Hhidden|]. cbn in H1. rewrite H1. apply andb_false_r.
  - apply not_true_iff_false. intros H%Hpatterns. congruence.
  - apply not_true_iff_false. intros H%Hpatterns. congruence.
Qed.

Lemma flat_map_sublist {A B : Type} (f g : A -> list B) (l : list A) :
  Forall (fun a => f a `sublist_of` g a) l ->
  flat_map f l `sublist_of` flat_map g l.
Proof.
  induction 1 as [|a l Ha _ IH]; [done|]. cbn [flat_map]. by apply sublist_app.
Qed.

Lemma walk_dir_sublist (n : node) (top sub : Path) :
  walk_dir fnmatch abspath fs patterns hidden top sub n
  `sublist_of` walk_dir fnmatch abspath fs patterns' hidden' top sub n.
Proof.
  revert sub. induction n as [content st|es IH] using node_induction; intros sub; [done|].
  cbn [walk_dir]. apply sublist_app; apply flat_map_sublist.
  - apply Forall_forall. intros [f c] _. cbn [fst snd].
    destruct c; [apply walk_file_sublist|done].
  - eapply Forall_impl; [exact IH|]. intros [d c] Hc. cbn [fst snd] in *.
    destruct c as [|es']; [done|].
    destruct (pruned fnmatch abspath patterns hidden top sub d) eqn:Hp;
      [apply sublist_nil_l|].
    rewrite (pruned_weaker _ _ _ Hp). apply Hc.
Qed.

Lemma walk_inputs_sublist (paths : list Path) :
  walk_inputs fnmatch abspath fs patterns hidden paths
  `sublist_of` walk_inputs fnmatch abspath fs patterns' hidden' paths.
Proof.
  unfold walk_inputs. apply flat_map_sublist, Forall_forall. intros p _.
  unfold walk_input.
  destruct (fs_lookup fs p) as [[content st|es]|]; [|apply walk_dir_sublist|done].
  destruct (negb hidden && existsb dotted p) eqn:H1; [apply sublist_nil_l|].
  destruct (matches (PyPath.name p) patterns) eqn:H2; [apply sublist_nil_l|].
  destruct (matches (PyPath.str_abs p) patterns) eqn:H3; [apply sublist_nil_l|].
  destruct (is_text_file _ _ _); [|apply sublist_nil_l].
  assert ((negb hidden' && existsb dotted p) = false) as ->.
  { destruct hidden; [by rewrite Hhidden|]. cbn in H1. rewrite H1. apply andb_false_r. }
  assert (matches (PyPath.name p) patterns' = false) as ->.
  { apply not_true_iff_false. intros H%Hpatterns. congruence. }
  assert (matches (PyPath.str_abs p) patterns' = false) as ->.
  { apply not_true_iff_false. intros H%Hpatterns. congruence. }
  done.
Qed.

End WalkMonotone.

(** X13: More exclusion patterns, or hiding dot files, only removes entries:
    what is found with added patterns and without hidden files is a
    sublist, in the same order, of what is found with the patterns alone
    and any setting of [include_hidden]. *)
Theorem walk_inputs_monotone
        (fnmatch : string -> string -> bool) (abspath : string -> string) (fs : node)
        (patterns more : list string) (include_hidden : bool) (paths : list Path) :
  walk_inputs fnmatch abspath fs (patterns ++ more) include_hidden paths
  `sublist_of` walk_inputs fnmatch abspath fs patterns include_hidden paths
  /\ walk_inputs fnmatch abspath fs patterns false paths
     `sublist_of` walk_inputs fnmatch abspath fs patterns include_hidden paths.
Proof.
  split; apply walk_inputs_sublist; try done.
  intros s H. by rewrite matches_any_concat, H.
Qed.

(** ** The bundler without limits *)

Section BundleUnlimited.
Variable lower : string -> string.
Variable sha256_hexdigest : list byte -> string.
Variable isoformat_utc : Z -> string.
Variable fs : node.
Variables max_file_bytes max_total_bytes : Z.

Local Abbreviation loop :=
  (bundle_loop lower sha256_hexdigest isoformat_utc fs max_file_bytes max_total_bytes).
Local Abbreviation kept := (included_files fs max_file_bytes max_total_bytes).



End BundleUnlimited.

(** ** The clipboard *)

Section ClipboardFacts.
Variable h : Host.
Variable text : string.

Lemma copy_with_answer (argv : list string) (last_err : string) :
  fallback_answer last_err (copy_with h argv text last_err).
Proof.
  unfold copy_with, fallback_answer.
  destruct (spawn h argv text) as [rc|e|e]; [destruct (rc =? 0)|..]; eauto.
Qed.

Lemma copy_with_first_answer (cmds : list string) (last_err : string) :
  fallback_answer last_err (copy_with_first h cmds text last_err).
Proof.
  unfold fallback_answer. induction cmds as [|cmd cmds IH]; cbn [copy_with_first]; [eauto|].
  destruct (spawn h _ text) as [rc|e|e]; [destruct (rc =? 0)|..]; eauto.
Qed.

Lemma copy_to_clipboard_answer :
  copy_to_clipboard h text = (true, None)
  \/ exists e, pyperclip_copy h text = Raise e
       /\ fallback_answer ("pyperclip failed: " +:+ e) (copy_to_clipboard h text).
Proof.
  unfold copy_to_clipboard. destruct (pyperclip_copy h text) as [u|e]; [by left|].
  right. exists e. split; [done|]. cbn zeta.
  destruct (String.eqb (sys_platform h) "darwin"); [apply copy_with_answer|].
  destruct (String.eqb (os_name h) "nt"); [apply copy_with_answer|].
  apply copy_with_first_answer.
Qed.

(** X16: [copy_to_clipboard] answers success without a message, or failure with
    a message that is never empty: the message of [pyperclip], or that of
    a fallback command that raised.  So the text printed for a failure is
    this message and never [unknown error]. *)
Theorem copy_to_clipboard_result :
  let r := copy_to_clipboard h text in
  (r = (true, None)
   \/ exists msg,
        r = (false, Some msg)
        /\ ((exists e, pyperclip_copy h text = Raise e /\ msg = "pyperclip failed: " +:+ e)
            \/ exists e2, msg = "Clipboard fallback failed: " +:+ e2))
  /\ (r.1 = false -> exists msg, r.2 = Some msg /\ error_text r.2 = msg).
Proof.
  cbv zeta.
  destruct copy_to_clipboard_answer as [->|(e & He & [->|[->|[e2 ->]]])].
  - split; [by left|done].
  - split; [by left|done].
  - split; [right; eauto 10|]. intros _. eauto.
  - split; [right; eauto 10|]. intros _. eauto.
Qed.

Lemma copy_with_true (argv : list string) (last_err : string) :
  (copy_with h argv text last_err).1 = true <-> spawn h argv text = Exited 0.
Proof.
  unfold copy_with. destruct (spawn h argv text) as [rc|e|e]; [|done..].
  destruct (Z.eqb_spec rc 0) as [->|Hne]; [done|].
  split; [done|]. intros [= ?]. done.
Qed.

(** X17: [copy_to_clipboard] succeeds exactly when [pyperclip] does or, after
    its failure, when the command of the platform exits with 0: [pbcopy]
    on macOS, [clip] on Windows, and elsewhere [xclip], or [xsel] when
    [xclip] is missing or exits with an error. *)
Theorem copy_to_clipboard_succeeds :
  let xclip := spawn h ["xclip"; "-selection"; "clipboard"] text in
  let xsel := spawn h ["xsel"; "-selection"; "clipboard"] text in
  (copy_to_clipboard h text).1 = true
  <-> (exists u, pyperclip_copy h text = Ok u)
      \/ ((exists e, pyperclip_copy h text = Raise e)
          /\ if String.eqb (sys_platform h) "darwin"
             then spawn h ["pbcopy"] text = Exited 0
             else if String.eqb (os_name h) "nt"
                  then spawn h ["clip"] text = Exited 0
                  else xclip = Exited 0 \/ (passed_over xclip /\ xsel = Exited 0)).
Proof.
  cbv zeta. unfold copy_to_clipboard.
  destruct (pyperclip_copy h text) as [u|e].
  { split; [intros _; left; eauto|done]. }
  cbn zeta.
  assert (Hr : forall P : Prop,
             (exists u : unit, @Raise unit e = Ok u)
             \/ ((exists e', @Raise unit e = Raise e') /\ P) <-> P).
  { intros P. split; [intros [[u [=]]|[_ ?]]; done|]. intros HP. right. eauto. }
  destruct (String.eqb (sys_platform h) "darwin"); [by rewrite Hr, copy_with_true|].
  destruct (String.eqb (os_name h) "nt"); [by rewrite Hr, copy_with_true|].
  rewrite Hr. cbn [copy_with_first]. unfold passed_over.
  destruct (spawn h ["xclip"; "-selection"; "clipboard"] text) as [rc|e1|e1].
  - destruct (Z.eqb_spec rc 0) as [->|Hne]; [split; [by left|done]|].
    destruct (spawn h ["xsel"; "-selection"; "clipboard"] text) as [rc'|e2|e2].
    + destruct (Z.eqb_spec rc' 0) as [->|Hne'].
      * split; [|done]. intros _. right. split; [|done]. left. eauto.
      * split; [done|]. intros [[= ?]|[_ [= ?]]]; done.
    + split; [done|]. intros [[= ?]|[_ [=]]]; done.
    + split; [done|]. intros [[= ?]|[_ [=]]]; done.
  - destruct (spawn h ["xsel"; "-selection"; "clipboard"] text) as [rc'|e2|e2].
    + destruct (Z.eqb_spec rc' 0) as [->|Hne'].
      * split; [|done]. intros _. right. split; [|done]. right. eauto.
      * split; [done|]. intros [[=]|[_ [= ?]]]; done.
    + split; [done|]. intros [[=]|[_ [=]]].
    + split; [done|]. intros [[=]|[_ [=]]].
  - split; [done|]. intros [[=]|[[(rc & [=] & _)|(e' & [=])] _]].
Qed.

End ClipboardFacts.

(** ** [main] *)

Lemma find_first {A : Type} (f : A -> bool) (l : list A) :
  match List.find f l with
  | Some x =>
      exists before after,
        l = before ++ x :: after /\ f x = true /\ Forall (fun y => f y = false) before
  | None => Forall (fun y => f y = false) l
  end.
Proof.
  induction l as [|y l IH]; [by cbn|]. cbn [List.find].
  destruct (f y) eqn:E.
  - exists [], l. done.
  - destruct (List.find f l) as [x|].
    + destruct IH as (before & after & -> & Hx & Hb).
      exists (y :: before), after. split; [done|]. split; [done|]. by constructor.
    + by constructor.
Qed.

Section MainFacts.
Variable lower : string -> string.
Variable strip : string -> string.
Variable fnmatch : string -> string -> bool.
Variable abspath : string -> string.
Variable sha256_hexdigest : list byte -> string.
Variable isoformat_utc : Z -> string.
Variable fs : node.
Variable host : Host.

Local Abbreviation run :=
  (cli_main lower strip fnmatch abspath sha256_hexdigest isoformat_utc fs host).
Local Abbreviation entries_of := (cli_entries lower strip fnmatch abspath fs).
Local Abbreviation bundle_of := (fun generated_iso args =>
  bundle lower sha256_hexdigest isoformat_utc fs
         (arg_max_file_bytes args) (arg_max_total_bytes args)
         generated_iso (entries_of args)).

(** An input path that exists. *)
Local Abbreviation present :=
  (fun r : input_path => is_Some (fs_lookup fs (resolved r))).

(** The three ways [main] ends. *)
Lemma cli_main_cases (generated_iso : string) (args : Args) :
  (exists before r after,
      arg_inputs args = before ++ r :: after
      /\ fs_lookup fs (resolved r) = None
      /\ Forall present before
      /\ run generated_iso args
         = (2, [PrintErr ("Error: path not found: " +:+ typed r)]))
  \/ (Forall present (arg_inputs args)
      /\ entries_of args = []
      /\ run generated_iso args = (3, [PrintErr "No files matched your criteria."]))
  \/ (Forall present (arg_inputs args)
      /\ entries_of args <> []
      /\ run generated_iso args
         = (0, write_out host args (bundle_of generated_iso args).1
               ++ deliver host args (bundle_of generated_iso args).1
               ++ print_warnings args (bundle_of generated_iso args).2)).
Proof.
  unfold cli_main.
  pose proof (find_first
                (fun r => negb (bool_decide (is_Some (fs_lookup fs (resolved r)))))
                (arg_inputs args)) as Hfind.
  assert (Hex : forall l,
             Forall (fun y => negb (bool_decide (is_Some (fs_lookup fs (resolved y))))
                              = false) l ->
             Forall present l).
  { intros l Hl. eapply Forall_impl; [exact Hl|]. intros p Hp. cbn beta in Hp.
    apply negb_false_iff, bool_decide_eq_true in Hp. done. }
  destruct (List.find _ (arg_inputs args)) as [r|].
  - left. destruct Hfind as (before & after & Hsplit & Hr & Hb).
    exists before, r, after. split; [done|]. split; [|split; [by apply Hex|done]].
    apply negb_true_iff, bool_decide_eq_false in Hr.
    destruct (fs_lookup fs (resolved r)); [|done]. exfalso. apply Hr. eauto.
  - right. apply Hex in Hfind.
    destruct (entries_of args) as [|fe rest] eqn:E; [left; done|].
    right. split; [done|]. split; [done|].
    by destruct (bundle _ _ _ _ _ _ _ _).
Qed.

(** X18: How [main] ends on parsed arguments.  When an input path does not
    exist it returns 2, having written to stderr the first missing path as
    it was typed and nothing else; it returns 2 in no other case.  When it
    returns 3 all paths exist, no candidate is left after the filters and
    the message on stderr is all it wrote.  When it returns 0 all paths
    exist and there are candidates. *)
Theorem cli_main_status (generated_iso : string) (args : Args) :
  let status := (run generated_iso args).1 in
  let events := (run generated_iso args).2 in
  let all_exist := Forall present (arg_inputs args) in
  (~ all_exist ->
     status = 2
     /\ exists before r after,
          arg_inputs args = before ++ r :: after
          /\ fs_lookup fs (resolved r) = None
          /\ Forall present before
          /\ events = [PrintErr ("Error: path not found: " +:+ typed r)])
  /\ (status = 2 -> ~ all_exist)
  /\ (status = 3 ->
      all_exist /\ entries_of args = []
      /\ events = [PrintErr "No files matched your criteria."])
  /\ (status = 0 -> all_exist /\ entries_of args <> []).
Proof.
  cbv zeta.
  destruct (cli_main_cases generated_iso args)
    as [(before & r & after & Hsplit & Hr & Hb & ->)
       |[(Hall & He & ->)|(Hall & He & ->)]]; cbn [fst snd].
  - assert (Hno : ~ Forall present (arg_inputs args)).
    { rewrite Hsplit, Forall_app, Forall_cons, Hr. intros (_ & [? [=]] & _). }
    repeat split; try done. eauto 10.
  - repeat split; try done; tauto.
  - repeat split; try done; tauto.
Qed.

(** X19: When [main] ends with status 0 the bundle has reached the user: it was
    put on the clipboard, or it was printed.  It is printed whenever the
    clipboard is not to be used or the copy fails, whether or not the
    output file could be written. *)
Theorem cli_main_delivers (generated_iso : string) (args : Args) :
  (run generated_iso args).1 = 0 ->
  let events := (run generated_iso args).2 in
  let text := (bundle_of generated_iso args).1 in
  (ClipboardSet text ∈ events \/ Print text ∈ events)
  /\ (ClipboardSet text ∈ events ->
      arg_no_clip args = false /\ (copy_to_clipboard host text).1 = true)
  /\ (arg_no_clip args = true \/ (copy_to_clipboard host text).1 = false ->
      Print text ∈ events).
Proof.
  intros Hstatus. cbv zeta.
  destruct (cli_main_cases generated_iso args)
    as [(before & r & after & _ & _ & _ & Hrun)
       |[(_ & _ & Hrun)|(_ & _ & Hrun)]]; rewrite Hrun in Hstatus |- *; try done.
  cbn [snd]. set (text := (bundle_of generated_iso args).1).
  assert (Hno : forall l : list event,
             ClipboardSet text ∈ write_out host args text ++ l -> ClipboardSet text ∈ l).
  { intros l [H|H]%elem_of_app; [|done]. exfalso. unfold write_out in H.
    destruct (arg_out args) as [path|]; [|by apply elem_of_nil in H].
    destruct (truthy path); [|by apply elem_of_nil in H].
    destruct (write_text host path text).
    - apply elem_of_cons in H as [[=]|H].
      destruct (arg_quiet args); [by apply elem_of_nil in H|].
      by apply list_elem_of_singleton in H.
    - by apply list_elem_of_singleton in H. }
  assert (Hwarn : forall w, ClipboardSet text ∈ print_warnings args w -> False).
  { intros w H. unfold print_warnings in H.
    destruct w as [|w0 ws]; [by apply elem_of_nil in H|].
    destruct (arg_quiet args); [by apply elem_of_nil in H|].
    apply elem_of_cons in H as [[=]|H].
    apply list_elem_of_fmap in H as (? & [=] & _). }
  unfold deliver in *.
  destruct (arg_no_clip args).
  - split; [right|split].
    + apply elem_of_app. right. apply elem_of_app. left. by left.
    + intros H%Hno. apply elem_of_app in H as [H|H]; [|by apply Hwarn in H].
      by apply list_elem_of_singleton in H.
    + intros _. apply elem_of_app. right. apply elem_of_app. left. by left.
  - destruct (copy_to_clipboard host text) as [[|] err]; cbn [fst].
    + split; [left|split; [done|]].
      * apply elem_of_app. right. apply elem_of_app. left. by left.
      * intros [[=]|[=]].
    + split; [right|split].
      * apply elem_of_app. right. apply elem_of_app. left. right. by left.
      * intros H%Hno. apply elem_of_app in H as [H|H]; [|by apply Hwarn in H].
        apply elem_of_cons in H as [[=]|H]. by apply list_elem_of_singleton in H.
      * intros _. apply elem_of_app. right. apply elem_of_app. left. right. by left.
Qed.

(** X20: What [main] prints at status 0.  Unless [--quiet] is given, every
    warning of the bundler is printed, under a heading; with [--quiet]
    nothing is printed to the standard output but the bundle itself.  A
    failure of the clipboard is reported on the error stream in both
    cases. *)
Theorem cli_main_prints (generated_iso : string) (args : Args) :
  (run generated_iso args).1 = 0 ->
  let events := (run generated_iso args).2 in
  let text := (bundle_of generated_iso args).1 in
  let warns := (bundle_of generated_iso args).2 in
  (arg_quiet args = false ->
     (forall w, w ∈ warns -> Print ("  - " +:+ w) ∈ events)
     /\ (warns <> [] -> Print (PyStr.lf +:+ "Warnings:") ∈ events))
  /\ (arg_quiet args = true -> forall s, Print s ∈ events -> s = text)
  /\ (arg_no_clip args = false -> (copy_to_clipboard host text).1 = false ->
      PrintErr ("Clipboard copy failed: " +:+ error_text (copy_to_clipboard host text).2)
      ∈ events).
Proof.
  intros Hstatus. cbv zeta.
  destruct (cli_main_cases generated_iso args)
    as [(before & r & after & _ & _ & _ & Hrun)
       |[(_ & _ & Hrun)|(_ & _ & Hrun)]]; rewrite Hrun in Hstatus |- *; try done.
  cbn [snd]. set (text := (bundle_of generated_iso args).1).
  set (warns := (bundle_of generated_iso args).2).
  split; [|split].
  - intros Hq. unfold print_warnings. rewrite Hq. split.
    + intros w Hw. rewrite !elem_of_app. right. right.
      destruct warns as [|w0 ws]; [by apply elem_of_nil in Hw|].
      right. apply list_elem_of_fmap. eauto.
    + intros Hne. rewrite !elem_of_app. right. right.
      destruct warns as [|w0 ws]; [done|]. by left.
  - intros Hq s. unfold write_out, deliver, print_warnings. rewrite Hq.
    rewrite !elem_of_app. intros [H|[H|H]].
    + destruct (arg_out args) as [path|]; [|by apply elem_of_nil in H].
      destruct (truthy path); [|by apply elem_of_nil in H].
      destruct (write_text host path text).
      * by apply list_elem_of_singleton in H.
      * by apply list_elem_of_singleton in H.
    + destruct (arg_no_clip args).
      { by apply list_elem_of_singleton in H as [= ->]. }
      destruct (copy_to_clipboard host text) as [[|] err].
      * by apply list_elem_of_singleton in H.
      * apply elem_of_cons in H as [[=]|H].
        by apply list_elem_of_singleton in H as [= ->].
    + destruct warns; by apply elem_of_nil in H.
  - intros Hc Hfail. unfold deliver. rewrite Hc.
    rewrite !elem_of_app. right. left.
    destruct (copy_to_clipboard host text) as [[|] err]; [done|]. by left.
Qed.

(** *** The list of extensions *)

Lemma allowed_exts_blank (ext : string) :
  Forall (fun e => strip e = EmptyString) (split_char "," ext) ->
  allowed_exts_of strip ext = [] \/ allowed_exts_of strip ext = ["*"].
Proof.
  intros H. unfold allowed_exts_of.
  destruct (String.eqb (strip ext) "*"); [by right|]. left.
  induction H as [|e l He _ IH]; [done|].
  cbn [flat_map]. by rewrite He, IH.
Qed.

(** X21: An [--ext] that is the wildcard once stripped, or that holds nothing
    but separators and blanks, switches the extension filter off: every
    entry found is a candidate.  In every other case the extensions
    compared are the stripped, non-empty parts between the commas. *)
Theorem blank_or_wildcard_ext_keeps_all (args : Args) :
  let found :=
    walk_inputs fnmatch abspath fs (arg_exclude args) (arg_include_hidden args)
                (arg_paths args) in
  (strip (arg_ext args) = "*"
   \/ Forall (fun e => strip e = EmptyString) (split_char "," (arg_ext args)) ->
   entries_of args = found)
  /\ (strip (arg_ext args) <> "*" ->
      forall e, e ∈ allowed_exts_of strip (arg_ext args)
                <-> e <> EmptyString
                    /\ exists part, part ∈ split_char "," (arg_ext args) /\ e = strip part).
Proof.
  cbv zeta. split.
  - intros H. unfold cli_entries.
    assert (Hl : allowed_exts_of strip (arg_ext args) = []
                 \/ allowed_exts_of strip (arg_ext args) = ["*"]).
    { destruct H as [H|H]; [|by apply allowed_exts_blank].
      right. unfold allowed_exts_of. by rewrite H. }
    by destruct Hl as [-> | ->].
  - intros Hne e. unfold allowed_exts_of.
    destruct (String.eqb_spec (strip (arg_ext args)) "*") as [?|_]; [done|].
    rewrite list_elem_of_In, in_flat_map. split.
    + intros (part & Hin & He). apply list_elem_of_In in Hin.
      destruct (strip part) eqn:Hs; cbn in He; [done|].
      destruct He as [<-|[]]. split; [done|]. exists part. by rewrite Hs.
    + intros (Hnz & part & Hin & ->). exists part.
      split; [by apply list_elem_of_In|].
      destruct (strip part); [done|]. by left.
Qed.

End MainFacts.

(** * The further properties on the demo tree *)

Lemma included_files_respect_file_limit_witness :
  let s := Demo.bundle_state 10 0 Demo.candidates in
  total s <= included s * 10
  /\ exists inc,
      (Demo.bundle 10 0 Demo.candidates).1
      = INTRO_TEMPLATE "2024-01-01T00:00:00+00:00"
          (roots_line (sorted (sort_key Ascii_runtime.lower) Demo.candidates))
          (included s) (total s)
        +:+ PyStr.lf
        +:+ blocks_text Ascii_runtime.lower Sha256.hexdigest Ascii_runtime.isoformat_utc inc
      /\ included s = Z.of_nat (length inc)
      /\ total s = sum_raw inc
      /\ Forall (fun x => read_bytes Demo.tree (fe_path x.1) = Ok x.2
                          /\ PyStr.len x.2 <= 10) inc.
Proof.
  apply (included_files_respect_file_limit Ascii_runtime.lower Sha256.hexdigest
           Ascii_runtime.isoformat_utc Demo.tree 10 0 "2024-01-01T00:00:00+00:00"
           Demo.candidates).
  lia.
Defined.

Lemma files_and_warnings_count_witness :
  let s := Demo.bundle_state 10 0 Demo.candidates in
  included s = 1 /\ length (warnings s) = 3%nat
  /\ included s + Z.of_nat (length (warnings s)) = Z.of_nat (length Demo.candidates).
Proof.
  cbv zeta. split; [reflexivity|]. split; [reflexivity|].
  apply (files_and_warnings_count Ascii_runtime.lower Sha256.hexdigest
           Ascii_runtime.isoformat_utc Demo.tree 10 0 Demo.candidates).
  vm_compute. reflexivity.
Defined.

Lemma larger_budget_extends_bundle_witness :
  let small := Demo.bundle_state 0 25 Demo.candidates in
  let large := Demo.bundle_state 0 0 Demo.candidates in
  let blocks :=
    blocks_text Ascii_runtime.lower Sha256.hexdigest Ascii_runtime.isoformat_utc in
  included small <= included large
  /\ total small <= total large
  /\ exists inc more,
      out small = blocks inc
      /\ out large = blocks inc +:+ blocks more
      /\ included small = Z.of_nat (length inc)
      /\ included large = Z.of_nat (length (inc ++ more))
      /\ total small = sum_raw inc
      /\ total large = sum_raw (inc ++ more)
      /\ inc ++ more
         = within_file_limit Demo.tree 0
             (sorted (sort_key Ascii_runtime.lower) Demo.candidates).
Proof.
  cbv zeta.
  destruct (larger_budget_extends_bundle Ascii_runtime.lower Sha256.hexdigest
              Ascii_runtime.isoformat_utc Demo.tree 0 "2024-01-01T00:00:00+00:00"
              25 0 Demo.candidates)
    as (Hincl & Htotal & inc & more & H1 & H2 & H3 & H4 & H5 & H6 & H7 & _);
    [lia|lia|].
  split; [exact Hincl|]. split; [exact Htotal|].
  exists inc, more. do 6 (split; [assumption|]). apply H7. lia.
Defined.

Lemma unreadable_entries_leave_no_trace_witness :
  let entries := DemoRun.locked_entry :: Demo.candidates in
  List.filter (readable_entry Demo.tree) entries = Demo.candidates
  /\ out (Demo.bundle_state 0 0 Demo.candidates) = out (Demo.bundle_state 0 0 entries)
  /\ length (warnings (Demo.bundle_state 0 0 entries)) = 1%nat.
Proof.
  cbv zeta. split; [reflexivity|]. split; [|reflexivity].
  exact (proj1 (proj2
    (unreadable_entries_leave_no_trace Ascii_runtime.lower Sha256.hexdigest
       Ascii_runtime.isoformat_utc Demo.tree 0 0
       (DemoRun.locked_entry :: Demo.candidates)))).
Defined.

Lemma roots_line_of_set_witness :
  roots_line [Demo.a_entry; Demo.lib_entry; Demo.b_entry]
  = roots_line [Demo.lib_entry; Demo.lib_entry; Demo.a_entry]
  /\ roots_line [Demo.a_entry; Demo.lib_entry; Demo.b_entry] = "/lib, /proj".
Proof.
  split; [|reflexivity].
  apply (proj2 (proj2 (proj2 (proj2
    (roots_line_of_set [Demo.a_entry; Demo.lib_entry; Demo.b_entry]
                       [Demo.lib_entry; Demo.lib_entry; Demo.a_entry]))))).
  intros r. cbn. rewrite !elem_of_cons, !elem_of_nil. tauto.
Defined.

Lemma header_path_has_no_backslash_witness :
  PyStr.replace (PyPath.str_rel ["src"; "Main.py"]) "\" "/" = "src/Main.py"
  /\ PyStr.replace (PyPath.str_rel ["a\b.py"]) "\" "/" = "a/b.py".
Proof.
  split; [|reflexivity].
  apply (proj1 (proj2 (header_path_has_no_backslash ["src"; "Main.py"]))). reflexivity.
Defined.

Lemma normalise_newlines_stable_witness :
  normalise_newlines ("hello" +:+ PyStr.lf) = "hello" +:+ PyStr.lf.
Proof.
  apply (proj1 (normalise_newlines_stable ("hello" +:+ PyStr.lf))). reflexivity.
Defined.

Lemma filter_by_ext_keeps_witness :
  Demo.a_entry ∈ filter_by_ext Ascii_runtime.lower Ascii_runtime.strip
                               (Demo.walk [["proj"]]) (Some [" .PY"; ".md"]).
Proof.
  apply (proj1 (proj2 (proj2
    (filter_by_ext_keeps Ascii_runtime.lower Ascii_runtime.strip (Demo.walk [["proj"]])
       (Some [" .PY"; ".md"]))))
    [" .PY"; ".md"] Demo.a_entry eq_refl); [done|done|].
  split.
  - vm_compute. right. left.
  - exists " .PY". split; [by left|reflexivity].
Defined.

Lemma demo_walk_proj :
  Demo.walk [["proj"]]
  = [Demo.b_entry; Demo.a_entry; Demo.notes_entry; Demo.main_entry].
Proof. reflexivity. Qed.

Lemma walk_inputs_entry_shape_witness :
  fe_path Demo.main_entry = fe_root Demo.main_entry ++ fe_rel Demo.main_entry.
Proof.
  destruct (walk_inputs_entry_shape Ascii_runtime.fnmatch Ascii_runtime.abspath Demo.tree
              DEFAULT_EXCLUDES false [["proj"]] Demo.main_entry) as (p & Hp & _ & Hpath).
  - change (Demo.main_entry ∈ Demo.walk [["proj"]]). rewrite demo_walk_proj.
    do 3 right. left.
  - apply Hpath. apply list_elem_of_singleton in Hp as ->. done.
Defined.

Lemma walk_inputs_yields_text_witness :
  exists content,
    read_bytes Demo.tree (fe_path Demo.a_entry) = Ok content /\ x00 ∉ take 1024 content.
Proof.
  apply (walk_inputs_yields_text Ascii_runtime.fnmatch Ascii_runtime.abspath Demo.tree
           DEFAULT_EXCLUDES false [["proj"]] Demo.a_entry).
  change (Demo.a_entry ∈ Demo.walk [["proj"]]). rewrite demo_walk_proj. right. left.
Defined.

Lemma walk_inputs_names_pass_witness :
  Forall (fun s => dotted s = false) (fe_rel Demo.main_entry).
Proof.
  apply (walk_inputs_names_pass Ascii_runtime.fnmatch Ascii_runtime.abspath Demo.tree
           DEFAULT_EXCLUDES false [["proj"]] Demo.main_entry); [|done].
  change (Demo.main_entry ∈ Demo.walk [["proj"]]). rewrite demo_walk_proj.
  do 3 right. left.
Defined.


Lemma copy_to_clipboard_result_witness :
  error_text (copy_to_clipboard DemoHost.bare "text").2
  = "pyperclip failed: No module named 'pyperclip'".
Proof.
  destruct (proj2 (copy_to_clipboard_result DemoHost.bare "text") eq_refl)
    as (msg & Hmsg & ->).
  injection Hmsg as <-. reflexivity.
Defined.

Lemma copy_to_clipboard_succeeds_witness :
  (copy_to_clipboard DemoHost.linux_xsel "text").1 = true.
Proof.
  apply (copy_to_clipboard_succeeds DemoHost.linux_xsel "text").
  right. split; [eexists; reflexivity|]. right. split; [|reflexivity].
  right. eexists. reflexivity.
Defined.

Lemma cli_main_status_witness :
  let run := DemoHost.run DemoHost.bare (default_args [["proj"]; ["nope"]; ["gone"]]) in
  run.1 = 2 /\ run.2 = [PrintErr "Error: path not found: /nope"].
Proof.
  cbv zeta.
  destruct (proj1
    (cli_main_status Ascii_runtime.lower Ascii_runtime.strip Ascii_runtime.fnmatch
       Ascii_runtime.abspath Sha256.hexdigest Ascii_runtime.isoformat_utc
       Demo.tree DemoHost.bare "2024-01-01T00:00:00+00:00"
       (default_args [["proj"]; ["nope"]; ["gone"]])))
    as (Hstatus & before & r & after & _ & _ & _ & Hevents).
  - intros H. cbn in H. apply Forall_cons in H as [_ H].
    apply Forall_cons in H as [[x Hx] _]. vm_compute in Hx. discriminate Hx.
  - split; [exact Hstatus|reflexivity].
Defined.

Lemma cli_main_delivers_witness :
  let run := DemoHost.run DemoHost.bare (default_args [["proj"]]) in
  run.1 = 0
  /\ Print (Demo.bundle 250000 1500000 Demo.candidates).1 ∈ run.2.
Proof.
  cbv zeta. split; [vm_compute; reflexivity|].
  refine (proj2 (proj2
    (cli_main_delivers Ascii_runtime.lower Ascii_runtime.strip Ascii_runtime.fnmatch
       Ascii_runtime.abspath Sha256.hexdigest Ascii_runtime.isoformat_utc
       Demo.tree DemoHost.bare "2024-01-01T00:00:00+00:00"
       (default_args [["proj"]]) _)) _).
  - vm_compute. reflexivity.
  - right. reflexivity.
Defined.

Lemma cli_main_prints_witness :
  let run := DemoHost.run DemoHost.linux_xsel DemoRun.quiet_small in
  run.1 = 0 /\ forall s, Print s ∈ run.2 -> s = (Demo.bundle 10 25 Demo.candidates).1.
Proof.
  cbv zeta. split; [vm_compute; reflexivity|].
  refine (proj1 (proj2
    (cli_main_prints Ascii_runtime.lower Ascii_runtime.strip Ascii_runtime.fnmatch
       Ascii_runtime.abspath Sha256.hexdigest Ascii_runtime.isoformat_utc
       Demo.tree DemoHost.linux_xsel "2024-01-01T00:00:00+00:00"
       DemoRun.quiet_small _)) _).
  - vm_compute. reflexivity.
  - reflexivity.
Defined.

Lemma blank_or_wildcard_ext_keeps_all_witness :
  cli_entries Ascii_runtime.lower Ascii_runtime.strip Ascii_runtime.fnmatch
              Ascii_runtime.abspath Demo.tree DemoRun.blank_ext
  = Demo.walk [["proj"]].
Proof.
  apply (proj1 (blank_or_wildcard_ext_keeps_all Ascii_runtime.lower Ascii_runtime.strip
                  Ascii_runtime.fnmatch Ascii_runtime.abspath Demo.tree DemoRun.blank_ext)).
  right. vm_compute. repeat constructor.
Defined.
